(** * Beurer TL100 BLE light driver: protocol codec, notification decoder,
      connection manager and command sequencer.

    A shallow embedding of [beurer.py].  Python integers are [Z], a
    [bytes]/[bytearray] value is a [list byte], Python floats are IEEE-754
    binary64 values ([spec_float] at precision 53), and a method of
    [BeurerInstance] is a computation in a state-and-exception monad over the
    instance fields, the transport link and an observable trace. *)

From Stdlib Require Import ZArith List String Bool Lia.
From Stdlib Require Import Strings.Byte.
From Stdlib Require Import SpecFloat.
Import ListNotations.
Open Scope Z_scope.

Set Implicit Arguments.

(* ------------------------------------------------------------------ *)
(** * Python values *)
(* ------------------------------------------------------------------ *)

Module Py.

(** The exceptions the modelled code can raise. *)
Inductive exn : Type :=
| IndexError
| ValueError
| OverflowError
| ZeroDivisionError.

Inductive result (A : Type) : Type :=
| Ok (a : A)
| Raise (e : exn).
Arguments Ok {A} a.
Arguments Raise {A} e.

(** ** Integers and bytes *)

Definition int_of_byte (b : byte) : Z := Z.of_N (Byte.to_N b).

(** One element of [bytes(iterable)]: an int outside [range(0, 256)] is a
    [ValueError]. *)
Definition byte_of_int (z : Z) : result byte :=
  if (0 <=? z) && (z <? 256) then
    match Byte.of_N (Z.to_N z) with
    | Some b => Ok b
    | None => Raise ValueError
    end
  else Raise ValueError.

(** [bytes(l)] for a list of ints. *)
Fixpoint bytes (l : list Z) : result (list byte) :=
  match l with
  | [] => Ok []
  | z :: rest =>
      match byte_of_int z with
      | Raise e => Raise e
      | Ok b =>
          match bytes rest with
          | Raise e => Raise e
          | Ok bs => Ok (b :: bs)
          end
      end
  end.

(** [data[i]] on a bytearray, for a literal non-negative index. *)
Definition getitem (data : list byte) (i : nat) : result Z :=
  match nth_error data i with
  | Some b => Ok (int_of_byte b)
  | None => Raise IndexError
  end.

(** [l[i]] on a list, for an int index that may be negative. *)
Definition list_getitem {A : Type} (l : list A) (i : Z) : result A :=
  let n := Z.of_nat (List.length l) in
  let j := if i <? 0 then i + n else i in
  if (0 <=? j) && (j <? n) then
    match nth_error l (Z.to_nat j) with
    | Some a => Ok a
    | None => Raise IndexError
    end
  else Raise IndexError.

(** [len(l)]. *)
Definition len {A : Type} (l : list A) : Z := Z.of_nat (List.length l).

(** ** Floats: IEEE-754 binary64 *)

Definition prec : Z := 53.
Definition emax : Z := 1024.

(** [float(z)]: the nearest binary64 value. *)
Definition float_of_int (z : Z) : spec_float :=
  binary_normalize prec emax z 0 false.

(** [a / b] on two ints (true division).  The operands are converted
    and divided in binary64, which is CPython's correctly rounded quotient
    whenever both operands are below [2^53] in magnitude. *)
Definition int_truediv (a b : Z) : result spec_float :=
  if b =? 0 then Raise ZeroDivisionError
  else
    match SFdiv prec emax (float_of_int a) (float_of_int b) with
    | S754_infinity _ => Raise OverflowError
    | q => Ok q
    end.

(** [x * n] for a float [x] and an int [n]. *)
Definition float_mul_int (x : spec_float) (n : Z) : spec_float :=
  SFmul prec emax x (float_of_int n).

(** [int(x)] on a float: truncation towards zero. *)
Definition int_of_float (x : spec_float) : result Z :=
  match x with
  | S754_zero _ => Ok 0
  | S754_nan => Raise ValueError
  | S754_infinity _ => Raise OverflowError
  | S754_finite s m e =>
      let a := match e with
               | Z0 => Zpos m
               | Zpos _ => Zpos m * 2 ^ e
               | Zneg _ => Zpos m / 2 ^ (- e)
               end in
      Ok (if s then - a else a)
  end.

(** Truthiness of an int, and [a or b] on ints. *)
Definition truthy (z : Z) : bool := negb (z =? 0).
Definition int_or (a b : Z) : Z := if truthy a then a else b.

End Py.
Import Py.

(* ------------------------------------------------------------------ *)
(** * The driver instance, the transport and the execution monad *)
(* ------------------------------------------------------------------ *)

(** [homeassistant.components.light.ColorMode], restricted to the two
    members the driver uses. *)
Inductive ColorMode : Type := WHITE | RGB.

Definition ColorMode_eqb (a b : ColorMode) : bool :=
  match a, b with
  | WHITE, WHITE | RGB, RGB => true
  | _, _ => false
  end.

(** A [BleakClient]: its [is_connected] property and the uuids of the
    characteristics of its resolved services. *)
Record BleakClient : Type := mkClient {
  is_connected : bool;
  characteristics : list string
}.

Inductive BLEDevice : Type := ble_device (address : string).

(** The update callback registered by the host entity, by identity. *)
Definition Callable : Type := nat.

(** The attributes of a [BeurerInstance] ([__init__], lines 28-52).  Of the
    two [asyncio.Lock]s, [_operation_lock] is treated in [Serial] and
    [_connect_lock] only brackets the re-check in [_ensure_connected], which
    one task at a time makes trivially; [_supported_effects] is assigned once
    and never rebound, see [supported_effects]. *)
Record BeurerInstance : Type := mkInstance {
  _address : string;
  _name : string;
  _client : option BleakClient;
  _device : option BLEDevice;
  _trigger_update : option Callable;
  _is_on : bool;
  _light_on : bool;
  _color_on : bool;
  _rgb_color : Z * Z * Z;
  _brightness : Z;
  _color_brightness : Z;
  _effect : option string;
  _write_uuid : option string;
  _read_uuid : option string;
  _mode : ColorMode;
  _expected_disconnect : bool
}.

Definition WRITE_CHARACTERISTIC_UUIDS : list string :=
  ["8b00ace7-eb0b-49b0-bbe9-9aee0a26e1a3"%string].
Definition READ_CHARACTERISTIC_UUIDS : list string :=
  ["0734594a-a8e7-4b1a-a6b1-cd5243059a57"%string].

Definition supported_effects : list string :=
  [ "Off"; "Random"; "Rainbow"; "Rainbow Slow"; "Fusion";
    "Pulse"; "Wave"; "Chill"; "Action"; "Forest"; "Summer" ]%string.

(** [BeurerInstance(hass, address, name)]. *)
Definition __init__ (address name : string) : BeurerInstance :=
  {| _address := address;
     _name := name;
     _client := None;
     _device := None;
     _trigger_update := None;
     _is_on := false;
     _light_on := false;
     _color_on := false;
     _rgb_color := (255, 255, 255);
     _brightness := 255;
     _color_brightness := 255;
     _effect := Some "Off"%string;
     _write_uuid := None;
     _read_uuid := None;
     _mode := WHITE;
     _expected_disconnect := false |}.

(** Field updates, one per assigned attribute. *)
Definition set_client (v : option BleakClient) (s : BeurerInstance) :=
  mkInstance (_address s) (_name s) v (_device s) (_trigger_update s)
    (_is_on s) (_light_on s) (_color_on s) (_rgb_color s) (_brightness s)
    (_color_brightness s) (_effect s) (_write_uuid s) (_read_uuid s) (_mode s)
    (_expected_disconnect s).
Definition set_device (v : option BLEDevice) (s : BeurerInstance) :=
  mkInstance (_address s) (_name s) (_client s) v (_trigger_update s)
    (_is_on s) (_light_on s) (_color_on s) (_rgb_color s) (_brightness s)
    (_color_brightness s) (_effect s) (_write_uuid s) (_read_uuid s) (_mode s)
    (_expected_disconnect s).
Definition set_trigger_update (v : option Callable) (s : BeurerInstance) :=
  mkInstance (_address s) (_name s) (_client s) (_device s) v
    (_is_on s) (_light_on s) (_color_on s) (_rgb_color s) (_brightness s)
    (_color_brightness s) (_effect s) (_write_uuid s) (_read_uuid s) (_mode s)
    (_expected_disconnect s).
Definition set_is_on (v : bool) (s : BeurerInstance) :=
  mkInstance (_address s) (_name s) (_client s) (_device s) (_trigger_update s)
    v (_light_on s) (_color_on s) (_rgb_color s) (_brightness s)
    (_color_brightness s) (_effect s) (_write_uuid s) (_read_uuid s) (_mode s)
    (_expected_disconnect s).
Definition set_light_on (v : bool) (s : BeurerInstance) :=
  mkInstance (_address s) (_name s) (_client s) (_device s) (_trigger_update s)
    (_is_on s) v (_color_on s) (_rgb_color s) (_brightness s)
    (_color_brightness s) (_effect s) (_write_uuid s) (_read_uuid s) (_mode s)
    (_expected_disconnect s).
Definition set_color_on (v : bool) (s : BeurerInstance) :=
  mkInstance (_address s) (_name s) (_client s) (_device s) (_trigger_update s)
    (_is_on s) (_light_on s) v (_rgb_color s) (_brightness s)
    (_color_brightness s) (_effect s) (_write_uuid s) (_read_uuid s) (_mode s)
    (_expected_disconnect s).
Definition set_rgb_color (v : Z * Z * Z) (s : BeurerInstance) :=
  mkInstance (_address s) (_name s) (_client s) (_device s) (_trigger_update s)
    (_is_on s) (_light_on s) (_color_on s) v (_brightness s)
    (_color_brightness s) (_effect s) (_write_uuid s) (_read_uuid s) (_mode s)
    (_expected_disconnect s).
Definition set_brightness (v : Z) (s : BeurerInstance) :=
  mkInstance (_address s) (_name s) (_client s) (_device s) (_trigger_update s)
    (_is_on s) (_light_on s) (_color_on s) (_rgb_color s) v
    (_color_brightness s) (_effect s) (_write_uuid s) (_read_uuid s) (_mode s)
    (_expected_disconnect s).
Definition set_color_brightness_field (v : Z) (s : BeurerInstance) :=
  mkInstance (_address s) (_name s) (_client s) (_device s) (_trigger_update s)
    (_is_on s) (_light_on s) (_color_on s) (_rgb_color s) (_brightness s)
    v (_effect s) (_write_uuid s) (_read_uuid s) (_mode s)
    (_expected_disconnect s).
Definition set_effect_field (v : option string) (s : BeurerInstance) :=
  mkInstance (_address s) (_name s) (_client s) (_device s) (_trigger_update s)
    (_is_on s) (_light_on s) (_color_on s) (_rgb_color s) (_brightness s)
    (_color_brightness s) v (_write_uuid s) (_read_uuid s) (_mode s)
    (_expected_disconnect s).
Definition set_write_uuid (v : option string) (s : BeurerInstance) :=
  mkInstance (_address s) (_name s) (_client s) (_device s) (_trigger_update s)
    (_is_on s) (_light_on s) (_color_on s) (_rgb_color s) (_brightness s)
    (_color_brightness s) (_effect s) v (_read_uuid s) (_mode s)
    (_expected_disconnect s).
Definition set_read_uuid (v : option string) (s : BeurerInstance) :=
  mkInstance (_address s) (_name s) (_client s) (_device s) (_trigger_update s)
    (_is_on s) (_light_on s) (_color_on s) (_rgb_color s) (_brightness s)
    (_color_brightness s) (_effect s) (_write_uuid s) v (_mode s)
    (_expected_disconnect s).
Definition set_mode (v : ColorMode) (s : BeurerInstance) :=
  mkInstance (_address s) (_name s) (_client s) (_device s) (_trigger_update s)
    (_is_on s) (_light_on s) (_color_on s) (_rgb_color s) (_brightness s)
    (_color_brightness s) (_effect s) (_write_uuid s) (_read_uuid s) v
    (_expected_disconnect s).
Definition set_expected_disconnect (v : bool) (s : BeurerInstance) :=
  mkInstance (_address s) (_name s) (_client s) (_device s) (_trigger_update s)
    (_is_on s) (_light_on s) (_color_on s) (_rgb_color s) (_brightness s)
    (_color_brightness s) (_effect s) (_write_uuid s) (_read_uuid s) (_mode s)
    v.

(** What an observer of a run can see, in order of occurrence. *)
Inductive Event : Type :=
| EvSend (message : list Z)
    (** [_send_packet(message)] was entered *)
| EvWrite (uuid : option string) (data : list byte) (ok : bool)
    (** [client.write_gatt_char(uuid, data)]; [ok = false]: [BleakError] *)
| EvSleep (ms : Z)
    (** [asyncio.sleep(ms / 1000)] *)
| EvUpdate (cb : Callable)
    (** [self._trigger_update()] called in place *)
| EvCallSoonThreadsafe (cb : Callable)
    (** [hass.loop.call_soon_threadsafe(self._trigger_update)] *)
| EvEstablish (ok : bool)
    (** [establish_connection(...)] *)
| EvStartNotify (uuid : option string) (ok : bool)
    (** [client.start_notify(uuid, handler)] *)
| EvDisconnect (ok : bool)
    (** [client.disconnect()] *).

(** The environment of a run: what each call into the bluetooth stack
    answers, by the number of calls made before it. *)
Record Transport : Type := mkTransport {
  ble_device_from_address : nat -> bool;
    (** [async_ble_device_from_address] finds a connectable device *)
  establish_connection : nat -> option (list string);
    (** [None]: [BleakError]; [Some uuids]: a connected client whose services
        hold the characteristics [uuids] *)
  start_notify : nat -> bool;
  write_gatt_char : nat -> bool;
  client_disconnect : nat -> bool;
    (** [false]: [BleakError] *)
  disconnect_notifies : nat -> bool
    (** whether the stack runs the disconnected callback while
        [client.disconnect()] is awaited *)
}.

Record World : Type := mkWorld {
  self : BeurerInstance;
  clock : nat;
  trace : list Event
}.

(** Computations: the world is threaded through, and an exception keeps the
    mutations made before it was raised. *)
Definition M (A : Type) : Type := World -> result A * World.

Definition ret {A : Type} (a : A) : M A := fun w => (Ok a, w).

Definition bind {A B : Type} (m : M A) (k : A -> M B) : M B :=
  fun w =>
    match m w with
    | (Ok a, w') => k a w'
    | (Raise e, w') => (Raise e, w')
    end.

Declare Scope py_scope.
Delimit Scope py_scope with py.
Notation "x <- m ;; k" := (bind m (fun x => k))
  (at level 61, m at next level, right associativity) : py_scope.
Notation "m ;; k" := (bind m (fun _ => k))
  (at level 61, right associativity) : py_scope.
Open Scope py_scope.

Definition lift {A : Type} (r : result A) : M A := fun w => (r, w).

Definition get : M BeurerInstance := fun w => (Ok (self w), w).

Definition modify (f : BeurerInstance -> BeurerInstance) : M unit :=
  fun w => (Ok tt, mkWorld (f (self w)) (clock w) (trace w)).

Definition emit (e : Event) : M unit :=
  fun w => (Ok tt, mkWorld (self w) (clock w) (trace w ++ [e])).

(** The next answer of the environment. *)
Definition ask {A : Type} (oracle : nat -> A) : M A :=
  fun w => (Ok (oracle (clock w)), mkWorld (self w) (S (clock w)) (trace w)).

Definition sleep (ms : Z) : M unit := emit (EvSleep ms).

(** [if c: body] and truthiness of [str | None]. *)
Definition when (c : bool) (body : M unit) : M unit :=
  if c then body else ret tt.

Definition str_truthy (s : option string) : bool :=
  match s with
  | Some x => negb (String.eqb x EmptyString)
  | None => false
  end.

Definition is_some {A : Type} (o : option A) : bool :=
  match o with Some _ => true | None => false end.

(* ------------------------------------------------------------------ *)
(** * PacketCodec *)
(* ------------------------------------------------------------------ *)

(** [_make_checksum(length, data)] (lines 135-141): the XOR fold. *)
Fixpoint _make_checksum (length : Z) (data : list Z) : Z :=
  match data with
  | [] => length
  | byte :: rest => _make_checksum (Z.lxor length byte) rest
  end.

(** The list assembled on line 147, before [bytes(...)]. *)
Definition packet_ints (message : list Z) : list Z :=
  let length := len message in
  let checksum := _make_checksum (length + 2) message in
  [0xFE; 0xEF; 0x0A; length + 7; 0xAB; 0xAA; length + 2]
    ++ message ++ [checksum; 0x55; 0x0D; 0x0A].

(** [_build_packet(message)] (lines 143-148). *)
Definition _build_packet (message : list Z) : result (list byte) :=
  bytes (packet_ints message).

(* ------------------------------------------------------------------ *)
(** * Effect catalog and brightness scales *)
(* ------------------------------------------------------------------ *)

(** [list.index(x)]: the first position of [x], or [None] where Python raises
    [ValueError]. *)
Fixpoint index_of (x : string) (l : list string) : option Z :=
  match l with
  | [] => None
  | y :: rest =>
      if String.eqb y x then Some 0
      else match index_of x rest with
           | Some i => Some (i + 1)
           | None => None
           end
  end.

(** [_find_effect_position(effect)] (lines 126-133). *)
Definition _find_effect_position (effect : option string) : Z :=
  match effect with
  | None => 0
  | Some name =>
      match index_of name supported_effects with
      | Some i => i
      | None => 0   (* except ValueError *)
      end
  end.

(** [int(p * 255 / 100) if p > 0 else 255] (lines 244 and 255). *)
Definition percent_to_level (p : Z) : result Z :=
  if 0 <? p then
    match int_truediv (p * 255) 100 with
    | Ok q => int_of_float q
    | Raise e => Raise e
    end
  else Ok 255.

(** [int(level / 255 * 100)] (lines 309, 321 and 356). *)
Definition level_to_percent (level : Z) : result Z :=
  match int_truediv level 255 with
  | Ok q => int_of_float (float_mul_int q 100)
  | Raise e => Raise e
  end.

(** The public accessors (lines 86-119). *)
Definition is_on (s : BeurerInstance) : bool := _is_on s.
Definition rgb_color (s : BeurerInstance) : Z * Z * Z := _rgb_color s.
Definition color_brightness (s : BeurerInstance) : Z :=
  int_or (_color_brightness s) 255.
Definition white_brightness (s : BeurerInstance) : Z :=
  int_or (_brightness s) 255.
Definition effect (s : BeurerInstance) : option string := _effect s.
Definition color_mode (s : BeurerInstance) : ColorMode := _mode s.

(* ------------------------------------------------------------------ *)
(** * ConnectionManager *)
(* ------------------------------------------------------------------ *)

(** [set_update_callback(trigger_update)] (lines 71-74). *)
Definition set_update_callback (trigger_update : Callable) : M unit :=
  modify (set_trigger_update (Some trigger_update)).

(** [_disconnected_callback(client)] (lines 54-69). *)
Definition _disconnected_callback : M unit :=
  s <- get ;;
  when (is_some (_write_uuid s))
    (modify (set_write_uuid None) ;;
     modify (set_read_uuid None) ;;
     s <- get ;;
     when (negb (_expected_disconnect s))
       (modify (set_is_on false) ;;
        modify (set_light_on false) ;;
        modify (set_color_on false) ;;
        s <- get ;;
        match _trigger_update s with
        | Some cb => emit (EvCallSoonThreadsafe cb)
        | None => ret tt
        end)) ;;
  modify (set_client None).

(** The methods below run on one transport [env].  A call runs to its end
    from the world it starts in; what the bluetooth stack does inside an
    [await] is what [env] answers, and no other task or notification is
    interleaved (interleavings of writes are the subject of [Serial]). *)
Section Driver.

Variable env : Transport.

(** [await client.disconnect()]: the link goes down, the stack may run the
    disconnected callback before the await returns, and the call itself may
    end in a [BleakError] (result [false]). *)
Definition await_client_disconnect : M bool :=
  modify (fun s =>
            match _client s with
            | Some c => set_client (Some (mkClient false (characteristics c))) s
            | None => s
            end) ;;
  notifies <- ask (disconnect_notifies env) ;;
  when notifies _disconnected_callback ;;
  ok <- ask (client_disconnect env) ;;
  emit (EvDisconnect ok) ;;
  ret ok.

(** [self._client and self._client.is_connected]. *)
Definition client_connected (s : BeurerInstance) : bool :=
  match _client s with
  | Some c => is_connected c
  | None => false
  end.

Definition mem_string (x : string) (l : list string) : bool :=
  existsb (String.eqb x) l.

(** The loop over the characteristics (lines 182-186). *)
Fixpoint find_characteristics (chars : list string) : M unit :=
  match chars with
  | [] => ret tt
  | uuid :: rest =>
      when (mem_string uuid WRITE_CHARACTERISTIC_UUIDS)
        (modify (set_write_uuid (Some uuid))) ;;
      when (mem_string uuid READ_CHARACTERISTIC_UUIDS)
        (modify (set_read_uuid (Some uuid))) ;;
      find_characteristics rest
  end.

(** [_ensure_connected()] (lines 150-209).  Every [BleakError] of the [try]
    block ends in [self._client = None; return False]. *)
Definition _ensure_connected : M bool :=
  s <- get ;;
  if client_connected s then ret true
  else
    (* async with self._connect_lock: *)
    s <- get ;;
    if client_connected s then ret true
    else
      found <- ask (ble_device_from_address env) ;;
      s <- get ;;
      modify (set_device (if found then Some (ble_device (_address s)) else None)) ;;
      if negb found then ret false
      else
        conn <- ask (establish_connection env) ;;
        emit (EvEstablish (is_some conn)) ;;
        match conn with
        | None => modify (set_client None) ;; ret false
        | Some chars =>
            modify (set_client (Some (mkClient true chars))) ;;
            find_characteristics chars ;;
            s <- get ;;
            if negb (str_truthy (_read_uuid s)) || negb (str_truthy (_write_uuid s))
            then
              await_client_disconnect ;;
              modify (set_client None) ;;
              ret false
            else
              ok <- ask (start_notify env) ;;
              emit (EvStartNotify (_read_uuid s) ok) ;;
              if ok then ret true
              else modify (set_client None) ;; ret false
        end.

(** [_write(data)] (lines 211-223); the operation lock is held throughout. *)
Definition _write (data : list byte) : M bool :=
  connected <- _ensure_connected ;;
  if negb connected then ret false
  else
    s <- get ;;
    ok <- ask (write_gatt_char env) ;;
    emit (EvWrite (_write_uuid s) data ok) ;;
    ret ok.

(** [_send_packet(message)] (lines 225-228). *)
Definition _send_packet (message : list Z) : M bool :=
  emit (EvSend message) ;;
  packet <- lift (_build_packet message) ;;
  _write packet.

(** [disconnect()] (lines 378-390). *)
Definition disconnect : M unit :=
  modify (set_expected_disconnect true) ;;
  s <- get ;;
  when (client_connected s)
    (await_client_disconnect ;; ret tt) ;;
  modify (set_client None) ;;
  modify (set_expected_disconnect false).

(* ------------------------------------------------------------------ *)
(** * NotificationInterpreter *)
(* ------------------------------------------------------------------ *)

(** [if self._trigger_update: self._trigger_update()]. *)
Definition fire_update : M unit :=
  s <- get ;;
  match _trigger_update s with
  | Some cb => emit (EvUpdate cb)
  | None => ret tt
  end.

(** [_notification_handler(characteristic, data)] (lines 230-279). *)
Definition _notification_handler (data : list byte) : M unit :=
  if len data <? 9 then ret tt
  else
    reply_version <- lift (getitem data 8) ;;
    if reply_version =? 1 then
      (* White mode status *)
      d9 <- lift (getitem data 9) ;;
      modify (set_light_on (d9 =? 1)) ;;
      s <- get ;;
      when (_light_on s)
        (d10 <- lift (getitem data 10) ;;
         level <- lift (percent_to_level d10) ;;
         modify (set_brightness level) ;;
         modify (set_mode WHITE))
    else if reply_version =? 2 then
      (* Color mode status *)
      d9 <- lift (getitem data 9) ;;
      modify (set_color_on (d9 =? 1)) ;;
      s <- get ;;
      when (_color_on s)
        (modify (set_mode RGB) ;;
         when (16 <? len data)
           (d16 <- lift (getitem data 16) ;;
            name <- lift (list_getitem supported_effects
                            (Z.min d16 (len supported_effects - 1))) ;;
            modify (set_effect_field (Some name)))) ;;
      d10 <- lift (getitem data 10) ;;
      level <- lift (percent_to_level d10) ;;
      modify (set_color_brightness_field level) ;;
      when (16 <=? len data)
        (d13 <- lift (getitem data 13) ;;
         d14 <- lift (getitem data 14) ;;
         d15 <- lift (getitem data 15) ;;
         modify (set_rgb_color (d13, d14, d15))) ;;
      s <- get ;;
      modify (set_is_on (_light_on s || _color_on s)) ;;
      (* Trigger update after receiving full status *)
      fire_update
    else if reply_version =? 255 then
      (* Device off *)
      modify (set_is_on false) ;;
      modify (set_light_on false) ;;
      modify (set_color_on false) ;;
      fire_update
    else if reply_version =? 0 then
      (* Device shutting down *)
      modify (set_expected_disconnect true) ;;
      disconnect
    else ret tt.

(* ------------------------------------------------------------------ *)
(** * CommandSequencer *)
(* ------------------------------------------------------------------ *)

(** [_trigger_status()] (lines 281-285). *)
Definition _trigger_status : M unit :=
  _send_packet [0x30; 0x01] ;;
  sleep 200 ;;
  _send_packet [0x30; 0x02] ;;
  ret tt.

(** [turn_on()] (lines 337-359). *)
Definition turn_on : M unit :=
  s <- get ;;
  (if ColorMode_eqb (_mode s) WHITE then
     _send_packet [0x37; 0x01] ;; ret tt
   else
     _send_packet [0x37; 0x02] ;;
     (* Restore color state if needed *)
     s <- get ;;
     when (negb (_color_on s))
       (modify (set_color_on true) ;;
        sleep 200 ;;
        s <- get ;;
        when (str_truthy (_effect s))
          (_send_packet [0x34; _find_effect_position (_effect s)] ;; ret tt) ;;
        sleep 200 ;;
        s <- get ;;
        let '(r, g, b) := _rgb_color s in
        _send_packet [0x32; r; g; b] ;;
        s <- get ;;
        when (truthy (_color_brightness s))
          (percent <- lift (level_to_percent (_color_brightness s)) ;;
           _send_packet [0x31; 0x02; percent] ;; ret tt))) ;;
  sleep 200 ;;
  _trigger_status.

(** [turn_off()] (lines 361-367). *)
Definition turn_off : M unit :=
  _send_packet [0x35; 0x01] ;;
  _send_packet [0x35; 0x02] ;;
  sleep 100 ;;
  _trigger_status.

(** [set_color(rgb)] (lines 287-299). *)
Definition set_color (rgb : Z * Z * Z) : M unit :=
  let '(r, g, b) := rgb in
  modify (set_mode RGB) ;;
  modify (set_rgb_color rgb) ;;
  s <- get ;;
  when (negb (_color_on s)) turn_on ;;
  _send_packet [0x32; r; g; b] ;;
  sleep 100 ;;
  _trigger_status.

(** [set_color_brightness(brightness)] (lines 301-311). *)
Definition set_color_brightness (brightness : Z) : M unit :=
  modify (set_mode RGB) ;;
  s <- get ;;
  when (negb (_color_on s)) turn_on ;;
  percent <- lift (level_to_percent brightness) ;;
  _send_packet [0x31; 0x02; percent] ;;
  sleep 100 ;;
  _trigger_status.

(** [set_white(intensity)] (lines 313-323). *)
Definition set_white (intensity : Z) : M unit :=
  modify (set_mode WHITE) ;;
  s <- get ;;
  when (negb (_light_on s)) turn_on ;;
  percent <- lift (level_to_percent intensity) ;;
  _send_packet [0x31; 0x01; percent] ;;
  sleep 200 ;;
  _trigger_status.

(** [set_effect(effect)] (lines 325-335). *)
Definition set_effect (name : option string) : M unit :=
  modify (set_mode RGB) ;;
  modify (set_effect_field name) ;;
  s <- get ;;
  when (negb (_color_on s)) turn_on ;;
  _send_packet [0x34; _find_effect_position name] ;;
  _trigger_status.

(** [update()] (lines 369-376). *)
Definition update : M unit :=
  connected <- _ensure_connected ;;
  if negb connected then ret tt
  else _trigger_status.

End Driver.

(** Running a computation from an instance, with an empty trace. *)
Definition start (s : BeurerInstance) : World := mkWorld s 0 [].

Definition run {A : Type} (m : M A) (s : BeurerInstance) : result A * World :=
  m (start s).

Definition outcome {A : Type} (r : result A * World) : result A := fst r.
Definition final {A : Type} (r : result A * World) : BeurerInstance := self (snd r).
Definition events {A : Type} (r : result A * World) : list Event := trace (snd r).

(* ------------------------------------------------------------------ *)
(** * The wire frame, as the protocol description words it *)
(* ------------------------------------------------------------------ *)

(** [(len+2) XOR payload[0] XOR payload[1] XOR ... XOR payload[last]]. *)
Definition xor_fold (seed : Z) (payload : list Z) : Z :=
  fold_left Z.lxor payload seed.

(** [[0xFE][0xEF][0x0A][len+7][0xAB][0xAA][len+2][payload][checksum][0x55][0x0D][0x0A]]. *)
Definition wire_frame (payload : list Z) : list Z :=
  [0xFE; 0xEF; 0x0A; len payload + 7; 0xAB; 0xAA; len payload + 2]
    ++ payload
    ++ [xor_fold (len payload + 2) payload; 0x55; 0x0D; 0x0A].

(** An int that fits one byte. *)
Definition is_byte (z : Z) : Prop := 0 <= z <= 255.

(* ------------------------------------------------------------------ *)
(** * Brightness scales, as the protocol description words them *)
(* ------------------------------------------------------------------ *)

(** [round(num / den)] for [den > 0], as Python rounds: to the nearest
    integer, a tie going to the even one. *)
Definition round_div (num den : Z) : Z :=
  let q := num / den in
  let r := num mod den in
  match 2 * r ?= den with
  | Lt => q
  | Gt => q + 1
  | Eq => if Z.even q then q else q + 1
  end.

(** The command-side conversion followed by the notification-side one. *)
Definition brightness_round_trip (level : Z) : result Z :=
  match level_to_percent level with
  | Ok percent => percent_to_level percent
  | Raise e => Raise e
  end.

Definition Z_range (n : nat) : list Z := map Z.of_nat (seq 0 n).

Definition result_eqb (r : result Z) (z : Z) : bool :=
  match r with
  | Ok v => v =? z
  | Raise _ => false
  end.


(* ------------------------------------------------------------------ *)
(** * Reading a run *)
(* ------------------------------------------------------------------ *)

(** Byte [i] of a frame as an int ([0] past its end, where [data[i]]
    raises). *)
Definition byte_at (data : list byte) (i : nat) : Z :=
  match nth_error data i with
  | Some b => int_of_byte b
  | None => 0
  end.

(** The level the decoder stores for a percent: the truncated quotient, and
    255 for percent 0. *)
Definition truncated_level (percent : Z) : Z :=
  if 0 <? percent then percent * 255 / 100 else 255.

(** The catalog entry an index selects after clamping to the last one. *)
Definition clamped_effect (index : Z) : string :=
  nth (Z.to_nat (Z.min index (len supported_effects - 1))) supported_effects "Off"%string.

(** A transport on which every call succeeds and both characteristics are
    found. *)
Definition always_up : Transport :=
  {| ble_device_from_address := fun _ => true;
     establish_connection := fun _ =>
       Some (List.app WRITE_CHARACTERISTIC_UUIDS READ_CHARACTERISTIC_UUIDS);
     start_notify := fun _ => true;
     write_gatt_char := fun _ => true;
     client_disconnect := fun _ => true;
     disconnect_notifies := fun _ => true |}.

(** A fresh instance, and one with an update callback registered. *)
Definition fresh : BeurerInstance := __init__ "C4:4F:33:00:00:01" "Beurer TL100".
Definition observed : BeurerInstance := set_trigger_update (Some 7%nat) fresh.

(** A frame given by the ints of its bytes (ints that fit no byte are
    dropped). *)
Fixpoint frame_of (ints : list Z) : list byte :=
  match ints with
  | [] => []
  | z :: rest =>
      match byte_of_int z with
      | Ok b => b :: frame_of rest
      | Raise _ => frame_of rest
      end
  end.

(** The cached device state (the fields the decoder and the sequencer keep
    for observers), apart from the link fields. *)
Definition device_state (s : BeurerInstance) :
    bool * bool * bool * (Z * Z * Z) * Z * Z * option string * ColorMode :=
  (_is_on s, _light_on s, _color_on s, _rgb_color s, _brightness s,
   _color_brightness s, _effect s, _mode s).

(** An update notification of either kind. *)
Definition is_update (e : Event) : bool :=
  match e with
  | EvUpdate _ | EvCallSoonThreadsafe _ => true
  | _ => false
  end.

(* ------------------------------------------------------------------ *)
(** * Judgments on computations *)
(* ------------------------------------------------------------------ *)

(** The cached colour and colour brightness are what the decoder can have
    stored: three bytes, and a level between 0 and [255 * 255 // 100]. *)
Definition state_ok (s : BeurerInstance) : Prop :=
  let '(r, g, b) := _rgb_color s in
  is_byte r /\ is_byte g /\ is_byte b /\ 0 <= _color_brightness s <= 650.

(** [quiet s s']: going from [s] to [s'] turned neither [is_on] nor
    [white_on] on, and left the mode, the colour, both brightnesses, the
    effect and the registered callback alone. *)
Definition quiet (s s' : BeurerInstance) : Prop :=
  (_is_on s' = true -> _is_on s = true)
  /\ (_light_on s' = true -> _light_on s = true)
  /\ _mode s' = _mode s
  /\ _rgb_color s' = _rgb_color s
  /\ _brightness s' = _brightness s
  /\ _color_brightness s' = _color_brightness s
  /\ _effect s' = _effect s
  /\ _trigger_update s' = _trigger_update s.

(** [keeps m]: whatever [m] returns or raises, its end state is [quiet]
    with respect to its start state. *)
Definition keeps {A : Type} (m : M A) : Prop :=
  forall w, quiet (self w) (self (snd (m w))).

(** [triple P m Q]: from a world in [P], [m] returns normally, in a world
    and with a value in [Q]. *)
Definition triple {A : Type} (P : World -> Prop) (m : M A)
    (Q : A -> World -> Prop) : Prop :=
  forall w, P w -> exists a w', m w = (Ok a, w') /\ Q a w'.

(** An effect command carries exactly one byte, a position of the catalog;
    every other event is unconstrained. *)
Definition event_ok (e : Event) : Prop :=
  match e with
  | EvSend (0x34 :: rest) =>
      exists i, rest = [i] /\ 0 <= i < len supported_effects
  | _ => True
  end.

(** A property of traces that appending a well-formed event keeps. *)
Definition closed (T : list Event -> Prop) : Prop :=
  forall t e, event_ok e -> T t -> T (t ++ [e]).

(** The invariant of a command: the cached state is well formed and the
    trace property holds. *)
Definition J (T : list Event -> Prop) (w : World) : Prop :=
  state_ok (self w) /\ T (trace w).

Definition inv {A : Type} (T : list Event -> Prop) (m : M A) : Prop :=
  triple (J T) m (fun _ => J T).

(** A transport on which the device is found, every connection attempt
    yields a client with both characteristics, and subscribing and writing
    succeed. *)
Definition healthy (env : Transport) : Prop :=
  (forall n, ble_device_from_address env n = true)
  /\ (forall n, exists chars,
         establish_connection env n = Some chars
         /\ In "8b00ace7-eb0b-49b0-bbe9-9aee0a26e1a3"%string chars
         /\ In "0734594a-a8e7-4b1a-a6b1-cd5243059a57"%string chars)
  /\ (forall n, start_notify env n = true)
  /\ (forall n, write_gatt_char env n = true).

(** The channel identifiers after the loop over the characteristics. *)
Definition resolve (s : BeurerInstance) (uuid : string) : BeurerInstance :=
  let s1 := if existsb (String.eqb uuid) WRITE_CHARACTERISTIC_UUIDS
            then set_write_uuid (Some uuid) s else s in
  if existsb (String.eqb uuid) READ_CHARACTERISTIC_UUIDS
  then set_read_uuid (Some uuid) s1 else s1.

(** [data] went out on the write channel and the write succeeded. *)
Definition written (data : list byte) (t : list Event) : Prop :=
  exists uuid, In (EvWrite uuid data true) t.

(** [preserves m]: [m] keeps the cached state well formed, also when it
    raises. *)
Definition preserves {A : Type} (m : M A) : Prop :=
  forall w, state_ok (self w) -> state_ok (self (snd (m w))).

(* ------------------------------------------------------------------ *)
(** * Concurrent operations on one instance *)
(* ------------------------------------------------------------------ *)

(** Public operations run as tasks of one event loop.  A task gives up
    control only at an [await], and every packet it sends goes through
    [_write] (lines 211-223), whose body runs under
    [async with self._operation_lock].  A task is the list of frames it
    still has to pass to [_write], together with its place inside the
    current call. *)
Module Serial.

Definition frame : Type := list byte.

(** Where a task stands with the frame at the head of its list. *)
Inductive place : Type :=
| Outside
    (** not in [_write]: between packets, asleep, or waiting for the lock *)
| Connecting
    (** holding the lock, awaiting [_ensure_connected()] *)
| Writing
    (** holding the lock, awaiting [write_gatt_char(uuid, data)] *).

Record task : Type := mkTask {
  at_ : place;
  todo : list frame
}.

(** What the link sees. *)
Inductive wire_event : Type :=
| Begin (who : nat) (data : frame)
    (** [write_gatt_char] was called with [data] *)
| End (who : nat) (data : frame) (ok : bool)
    (** that call returned ([ok]) or raised [BleakError] *).

Record system : Type := mkSystem {
  tasks : nat -> task;
  lock : option nat;
    (** the holder of [_operation_lock] *)
  wire : list wire_event
}.

Definition update (ts : nat -> task) (i : nat) (t : task) : nat -> task :=
  fun j => if Nat.eqb j i then t else ts j.

Definition initial (scripts : nat -> list frame) : system :=
  {| tasks := fun i => mkTask Outside (scripts i);
     lock := None;
     wire := [] |}.

(** One scheduling step of task [i]. *)
Inductive step : system -> system -> Prop :=
| step_acquire st i f rest :
    tasks st i = mkTask Outside (f :: rest) ->
    lock st = None ->
    step st (mkSystem (update (tasks st) i (mkTask Connecting (f :: rest)))
                      (Some i) (wire st))
    (** [async with self._operation_lock] takes the free lock *)
| step_not_connected st i f rest :
    tasks st i = mkTask Connecting (f :: rest) ->
    step st (mkSystem (update (tasks st) i (mkTask Outside rest))
                      None (wire st))
    (** [_ensure_connected()] is false: [return False], lock released *)
| step_write st i f rest :
    tasks st i = mkTask Connecting (f :: rest) ->
    step st (mkSystem (update (tasks st) i (mkTask Writing (f :: rest)))
                      (lock st) (List.app (wire st) [Begin i f]))
    (** connected: [write_gatt_char] is called and awaited *)
| step_written st i f rest ok :
    tasks st i = mkTask Writing (f :: rest) ->
    step st (mkSystem (update (tasks st) i (mkTask Outside rest))
                      None (List.app (wire st) [End i f ok]))
    (** the write returns or raises; [_write] returns, lock released *).

Inductive reachable (scripts : nat -> list frame) : system -> Prop :=
| reach_initial : reachable scripts (initial scripts)
| reach_step st st' :
    reachable scripts st -> step st st' -> reachable scripts st'.

(** The packet in flight, if any. *)
Definition in_flight_of (t : task) (i : nat) : option (nat * frame) :=
  match at_ t, todo t with
  | Writing, f :: _ => Some (i, f)
  | _, _ => None
  end.

Definition in_flight (st : system) : option (nat * frame) :=
  match lock st with
  | Some i => in_flight_of (tasks st i) i
  | None => None
  end.

(** A wire history in which writes never overlap: each [Begin] is directly
    followed by the [End] of the same task and frame, except a last [Begin]
    whose write is still in flight. *)
Inductive serialized : list wire_event -> option (nat * frame) -> Prop :=
| ser_nil : serialized [] None
| ser_begin t i f :
    serialized t None -> serialized (List.app t [Begin i f]) (Some (i, f))
| ser_end t i f ok :
    serialized t (Some (i, f)) -> serialized (List.app t [End i f ok]) None.

(** The same, read off the list from its first event: [alternates o t o']
    scans [t] starting with the write [o] in flight and ends with [o'] in
    flight; a [Begin] needs the link idle, an [End] needs exactly its own
    write in flight. *)
Fixpoint alternates (open : option (nat * frame)) (t : list wire_event)
    (last : option (nat * frame)) : Prop :=
  match t with
  | [] => open = last
  | Begin i f :: rest => open = None /\ alternates (Some (i, f)) rest last
  | End i f _ :: rest => open = Some (i, f) /\ alternates None rest last
  end.

(** The frames written, in wire order, with their task. *)
Fixpoint begun (t : list wire_event) : list (nat * frame) :=
  match t with
  | [] => []
  | Begin i f :: rest => (i, f) :: begun rest
  | End _ _ _ :: rest => begun rest
  end.

(** The invariant of the lock: only its holder is inside [_write]'s body,
    and the wire history is serialized up to the write in flight. *)
Definition invariant (st : system) : Prop :=
  (forall i, at_ (tasks st i) <> Outside -> lock st = Some i)
  /\ serialized (wire st) (in_flight st).

(** Schedules, to run the step relation on concrete systems. *)
Inductive move : Type :=
| Acquire (i : nat)
| NotConnected (i : nat)
| StartWrite (i : nat)
| Finish (i : nat) (ok : bool).

Definition exec (st : system) (m : move) : option system :=
  match m with
  | Acquire i =>
      match tasks st i, lock st with
      | mkTask Outside (f :: rest), None =>
          Some (mkSystem (update (tasks st) i (mkTask Connecting (f :: rest)))
                         (Some i) (wire st))
      | _, _ => None
      end
  | NotConnected i =>
      match tasks st i with
      | mkTask Connecting (f :: rest) =>
          Some (mkSystem (update (tasks st) i (mkTask Outside rest))
                         None (wire st))
      | _ => None
      end
  | StartWrite i =>
      match tasks st i with
      | mkTask Connecting (f :: rest) =>
          Some (mkSystem (update (tasks st) i (mkTask Writing (f :: rest)))
                         (lock st) (List.app (wire st) [Begin i f]))
      | _ => None
      end
  | Finish i ok =>
      match tasks st i with
      | mkTask Writing (f :: rest) =>
          Some (mkSystem (update (tasks st) i (mkTask Outside rest))
                         None (List.app (wire st) [End i f ok]))
      | _ => None
      end
  end.

Fixpoint exec_all (st : system) (ms : list move) : option system :=
  match ms with
  | [] => Some st
  | m :: rest =>
      match exec st m with
      | Some st' => exec_all st' rest
      | None => None
      end
  end.

(** The frames a sequential run passes to [write_gatt_char]. *)
Fixpoint writes (t : list Event) : list frame :=
  match t with
  | [] => []
  | EvWrite _ data _ :: rest => data :: writes rest
  | _ :: rest => writes rest
  end.

(** The three frames of [set_color(rgb)] on a connected instance whose
    colour is already on: the colour command and the two status requests. *)
Definition set_color_script (rgb : Z * Z * Z) : list frame :=
  writes (events (run (set_color always_up rgb) (set_color_on true fresh))).

(** Two concurrent [set_color] calls. *)
Definition two_calls (i : nat) : list frame :=
  match i with
  | 0%nat => set_color_script (255, 0, 0)
  | 1%nat => set_color_script (0, 0, 255)
  | _ => []
  end.

(** Call 0 writes its first frame; while it sleeps call 1 writes its first
    frame; then call 0 writes its second frame and call 1 has its second
    write in flight. *)
Definition alternating : list move :=
  [ Acquire 0; StartWrite 0; Finish 0 true;
    Acquire 1; StartWrite 1; Finish 1 true;
    Acquire 0; StartWrite 0; Finish 0 true;
    Acquire 1; StartWrite 1 ].

Definition after_alternating : system :=
  match exec_all (initial two_calls) alternating with
  | Some st => st
  | None => initial two_calls
  end.

End Serial.

(* ------------------------------------------------------------------ *)
(** * Reading a trace *)
(* ------------------------------------------------------------------ *)

From Stdlib Require Import Permutation.

(** The payloads passed to [_send_packet], in order. *)
Fixpoint sends (t : list Event) : list (list Z) :=
  match t with
  | [] => []
  | EvSend message :: rest => message :: sends rest
  | _ :: rest => sends rest
  end.

(** The frames passed to [write_gatt_char], in order. *)
Fixpoint frames_written (t : list Event) : list (list byte) :=
  match t with
  | [] => []
  | EvWrite _ data _ :: rest => data :: frames_written rest
  | _ :: rest => frames_written rest
  end.

(** The pauses taken, in milliseconds, in order. *)
Fixpoint pauses (t : list Event) : list Z :=
  match t with
  | [] => []
  | EvSleep ms :: rest => ms :: pauses rest
  | _ :: rest => pauses rest
  end.

(** The frame of a payload of bytes. *)
Definition frame (message : list Z) : list byte := frame_of (wire_frame message).

(* ------------------------------------------------------------------ *)
(** * What a status frame decodes to *)
(* ------------------------------------------------------------------ *)

(** The instance after a white status frame (reply tag 1). *)
Definition decoded_white (data : list byte) (s : BeurerInstance) : BeurerInstance :=
  if byte_at data 9 =? 1
  then set_mode WHITE
         (set_brightness (truncated_level (byte_at data 10)) (set_light_on true s))
  else set_light_on false s.

(** The instance after a colour status frame (reply tag 2). *)
Definition decoded_color (data : list byte) (s : BeurerInstance) : BeurerInstance :=
  let on := byte_at data 9 =? 1 in
  let s1 := set_color_on on s in
  let s2 := if on
            then if 16 <? len data
                 then set_effect_field (Some (clamped_effect (byte_at data 16)))
                        (set_mode RGB s1)
                 else set_mode RGB s1
            else s1 in
  let s3 := set_color_brightness_field (truncated_level (byte_at data 10)) s2 in
  let s4 := if 16 <=? len data
            then set_rgb_color (byte_at data 13, byte_at data 14, byte_at data 15) s3
            else s3 in
  set_is_on (_light_on s || on) s4.

(** The instance after a device-off frame (reply tag 255). *)
Definition decoded_off (s : BeurerInstance) : BeurerInstance :=
  set_color_on false (set_light_on false (set_is_on false s)).

(** The registered update callback, called in place. *)
Definition update_events (s : BeurerInstance) : list Event :=
  match _trigger_update s with
  | Some cb => [EvUpdate cb]
  | None => []
  end.

(* ------------------------------------------------------------------ *)
(** * Sample instances *)
(* ------------------------------------------------------------------ *)

(** An instance with a connected client and both channels resolved. *)
Definition linked : BeurerInstance :=
  set_write_uuid (Some "8b00ace7-eb0b-49b0-bbe9-9aee0a26e1a3"%string)
    (set_read_uuid (Some "0734594a-a8e7-4b1a-a6b1-cd5243059a57"%string)
       (set_client
          (Some (mkClient true
                   (List.app WRITE_CHARACTERISTIC_UUIDS
                      READ_CHARACTERISTIC_UUIDS)))
          observed)).

(** The same in colour mode with the colour channel off, the "Rainbow"
    effect, an orange colour and half brightness cached. *)
Definition dimmed_rainbow : BeurerInstance :=
  set_mode RGB
    (set_effect_field (Some "Rainbow"%string)
       (set_rgb_color (255, 128, 0)
          (set_color_brightness_field 127 linked))).


(* ------------------------------------------------------------------ *)
(** * A device that cannot be connected *)
(* ------------------------------------------------------------------ *)

(** Every attempt of [_ensure_connected] fails: the bluetooth manager does
    not find the device (line 166), or [establish_connection] raises
    (line 201). *)
Definition unreachable (env : Transport) : Prop :=
  forall n,
    ble_device_from_address env n = false
    \/ establish_connection env (S n) = None.

(** No connected client, a well-formed cache and nothing written so far. *)
Definition down (w : World) : Prop :=
  client_connected (self w) = false
  /\ state_ok (self w)
  /\ frames_written (trace w) = [].

(** A transport on which the device is never found. *)
Definition never_found : Transport :=
  {| ble_device_from_address := fun _ => false;
     establish_connection := fun _ => None;
     start_notify := fun _ => false;
     write_gatt_char := fun _ => false;
     client_disconnect := fun _ => false;
     disconnect_notifies := fun _ => false |}.

(** [stays_down m]: from a [down] world [m] returns normally, in a [down]
    world. *)
Definition stays_down {A : Type} (m : M A) : Prop :=
  triple down m (fun _ => down).

(* ------------------------------------------------------------------ *)
(** * The light entity (light.py) *)
(* ------------------------------------------------------------------ *)

Module BeurerLight.

(** The keyword arguments of [async_turn_on]: the three attributes the
    entity looks up, and whether the dict holds any other key. *)
Record kwargs : Type := mkKwargs {
  ATTR_BRIGHTNESS : option Z;
  ATTR_RGB_COLOR : option (Z * Z * Z);
  ATTR_EFFECT : option string;
  other_keys : bool
}.

(** [not kwargs]: the dict is empty. *)
Definition empty (k : kwargs) : bool :=
  negb (is_some (ATTR_BRIGHTNESS k))
  && negb (is_some (ATTR_RGB_COLOR k))
  && negb (is_some (ATTR_EFFECT k))
  && negb (other_keys k).

(** The [brightness] property (lines 87-92). *)
Definition brightness (s : BeurerInstance) : Z :=
  if ColorMode_eqb (color_mode s) WHITE then white_brightness s
  else color_brightness s.

(** [async_turn_on] (lines 118-134). *)
Definition async_turn_on (env : Transport) (k : kwargs) : M unit :=
  if empty k then turn_on env
  else
    match ATTR_BRIGHTNESS k with
    | Some level => set_white env level
    | None => ret tt
    end ;;
    match ATTR_RGB_COLOR k with
    | Some rgb => set_color env rgb
    | None => ret tt
    end ;;
    match ATTR_EFFECT k with
    | Some name => set_effect env (Some name)
    | None => ret tt
    end.

End BeurerLight.

(** [steady s s']: going from [s] to [s'] turned neither [is_on] nor
    [white_on] on and left both cached brightness levels and the registered
    callback alone. *)
Definition steady (s s' : BeurerInstance) : Prop :=
  (_is_on s' = true -> _is_on s = true)
  /\ (_light_on s' = true -> _light_on s = true)
  /\ _brightness s' = _brightness s
  /\ _color_brightness s' = _color_brightness s
  /\ _trigger_update s' = _trigger_update s.

(** [levels_kept m]: whatever [m] returns or raises, its end state is
    [steady] with respect to its start state. *)
Definition levels_kept {A : Type} (m : M A) : Prop :=
  forall w, steady (self w) (self (snd (m w))).

(* ------------------------------------------------------------------ *)
(** * Wire order of concurrent calls, as the protocol description words it *)
(* ------------------------------------------------------------------ *)

(** [one_call_at_a_time seen current l]: in the list [l] of frames begun,
    each with the call it belongs to, no frame belongs to a call of [seen],
    the calls another call's frame has already followed; [current] is the
    call of the frame before. *)
Fixpoint one_call_at_a_time (seen : list nat) (current : nat)
    (l : list (nat * Serial.frame)) : bool :=
  match l with
  | [] => true
  | (i, _) :: rest =>
      if Nat.eqb i current then one_call_at_a_time seen current rest
      else if existsb (Nat.eqb i) seen then false
      else one_call_at_a_time (current :: seen) i rest
  end.

(** "Packets sent are each the complete frame of one call before the next
    call's first frame begins": the frames of a call are not separated by a
    frame of another call. *)
Definition call_by_call (l : list (nat * Serial.frame)) : bool :=
  match l with
  | [] => true
  | (i, _) :: rest => one_call_at_a_time [] i rest
  end.
(* ------------------------------------------------------------------ *)
(** * Properties of the codec *)
(* ------------------------------------------------------------------ *)

Lemma int_of_byte_range (b : byte) : is_byte (int_of_byte b).
Proof.
  unfold is_byte, int_of_byte.
  pose proof (Byte.to_N_bounded b). lia.
Qed.

Lemma byte_of_int_ok (z : Z) :
  is_byte z -> exists b, byte_of_int z = Ok b /\ int_of_byte b = z.
Proof.
  intros [Hlo Hhi]. unfold byte_of_int.
  replace (0 <=? z) with true by (symmetry; apply Z.leb_le; lia).
  replace (z <? 256) with true by (symmetry; apply Z.ltb_lt; lia).
  cbn [andb].
  destruct (Byte.of_N (Z.to_N z)) as [b|] eqn:E.
  - exists b. split; [reflexivity|].
    unfold int_of_byte. rewrite (@Byte.to_of_N _ _ E). lia.
  - apply Byte.of_N_None_iff in E. lia.
Qed.

Lemma byte_of_int_out (z : Z) :
  ~ is_byte z -> byte_of_int z = Raise ValueError.
Proof.
  intros H. unfold byte_of_int, is_byte in *.
  destruct (0 <=? z) eqn:E1; destruct (z <? 256) eqn:E2; cbn [andb]; try reflexivity.
  apply Z.leb_le in E1. apply Z.ltb_lt in E2. lia.
Qed.

Lemma bytes_ok (l : list Z) :
  Forall is_byte l -> exists bs, bytes l = Ok bs /\ map int_of_byte bs = l.
Proof.
  induction 1 as [|z l Hz _ IH].
  - exists []. split; reflexivity.
  - destruct (byte_of_int_ok Hz) as (b & Eb & Hb).
    destruct IH as (bs & Ebs & Hbs).
    exists (b :: bs). cbn [bytes]. rewrite Eb, Ebs. cbn [map].
    split; [reflexivity | now rewrite Hb, Hbs].
Qed.

Lemma bytes_out (l : list Z) :
  Exists (fun z => ~ is_byte z) l -> bytes l = Raise ValueError.
Proof.
  induction 1 as [z l Hz | z l _ IH]; cbn [bytes].
  - now rewrite (byte_of_int_out Hz).
  - destruct (byte_of_int z) as [b|e] eqn:E.
    + now rewrite IH.
    + unfold byte_of_int in E.
      destruct ((0 <=? z) && (z <? 256)); [|congruence].
      destruct (Byte.of_N (Z.to_N z)); congruence.
Qed.

Lemma lxor_byte (a b : Z) : is_byte a -> is_byte b -> is_byte (Z.lxor a b).
Proof.
  unfold is_byte. intros Ha Hb.
  assert (H0 : 0 <= Z.lxor a b) by (apply Z.lxor_nonneg; lia).
  split; [exact H0|].
  destruct (Z.eq_dec (Z.lxor a b) 0) as [->|Hn]; [lia|].
  assert (Hlt : Z.lxor a b < 2 ^ 8); [|change (2 ^ 8) with 256 in Hlt; lia].
  apply Z.log2_lt_pow2; [lia|].
  pose proof (Z.log2_lxor a b ltac:(lia) ltac:(lia)) as Hl.
  assert (La : Z.log2 a < 8).
  { destruct (Z.eq_dec a 0) as [->|]; [cbn; lia|].
    apply Z.log2_lt_pow2; [lia|]. change (2 ^ 8) with 256. lia. }
  assert (Lb : Z.log2 b < 8).
  { destruct (Z.eq_dec b 0) as [->|]; [cbn; lia|].
    apply Z.log2_lt_pow2; [lia|]. change (2 ^ 8) with 256. lia. }
  lia.
Qed.

Lemma _make_checksum_fold (seed : Z) (data : list Z) :
  _make_checksum seed data = xor_fold seed data.
Proof.
  revert seed. induction data as [|b rest IH]; intros seed; cbn.
  - reflexivity.
  - apply IH.
Qed.

Lemma xor_fold_byte (seed : Z) (data : list Z) :
  is_byte seed -> Forall is_byte data -> is_byte (xor_fold seed data).
Proof.
  intros Hs Hd. revert seed Hs.
  induction Hd as [|b rest Hb _ IH]; intros seed Hs; cbn.
  - exact Hs.
  - apply IH. now apply lxor_byte.
Qed.

Lemma packet_ints_wire_frame (message : list Z) :
  packet_ints message = wire_frame message.
Proof.
  unfold packet_ints, wire_frame. now rewrite _make_checksum_fold.
Qed.

Lemma wire_frame_length (payload : list Z) :
  List.length (wire_frame payload) = (List.length payload + 11)%nat.
Proof.
  unfold wire_frame. rewrite !length_app. cbn [List.length]. lia.
Qed.

(** A payload of at most 248 bytes is framed, whatever its bytes. *)
Lemma build_packet_within (P : list Z) :
  Forall is_byte P -> len P <= 248 ->
  exists frame,
    _build_packet P = Ok frame
    /\ map int_of_byte frame = wire_frame P
    /\ List.length frame = (List.length P + 11)%nat.
Proof.
  intros HP HL. unfold _build_packet. rewrite packet_ints_wire_frame.
  assert (Hall : Forall is_byte (wire_frame P)).
  { unfold wire_frame, len in *.
    repeat (apply Forall_cons; [unfold is_byte; lia|]).
    apply Forall_app; split; [exact HP|].
    apply Forall_cons.
    - apply xor_fold_byte; [unfold is_byte; lia | exact HP].
    - repeat (apply Forall_cons; [unfold is_byte; lia|]). constructor. }
  destruct (bytes_ok Hall) as (frame & E & Hm).
  exists frame. repeat split; [exact E | exact Hm |].
  rewrite <- wire_frame_length, <- Hm. now rewrite length_map.
Qed.

(** C1.  For every payload [P] of bytes of length [L <= 248], which
    includes every command payload (the driver only builds payloads of 2 to
    4 bytes) and the empty payload, [_build_packet(P)] returns, and returns
    exactly the frame
    [[0xFE, 0xEF, 0x0A, L+7, 0xAB, 0xAA, L+2] ++ P ++ [c, 0x55, 0x0D, 0x0A]]
    with [c = (L+2) XOR P[0] XOR ... XOR P[L-1]], a frame of [L + 11] bytes.
    The function is pure: its result depends on [P] alone and it touches no
    instance state. *)
Theorem build_packet_frame (P : list Z)
    (HP : Forall is_byte P) (HL : len P <= 248) :
  exists frame,
    _build_packet P = Ok frame
    /\ map int_of_byte frame
       = [0xFE; 0xEF; 0x0A; len P + 7; 0xAB; 0xAA; len P + 2]
         ++ P ++ [xor_fold (len P + 2) P; 0x55; 0x0D; 0x0A]
    /\ xor_fold (len P + 2) P = fold_left Z.lxor P (len P + 2)
    /\ List.length frame = (List.length P + 11)%nat.
Proof.
  destruct (build_packet_within HP HL) as (frame & E & Hm & Hlen).
  exists frame. split; [exact E|]. split; [exact Hm|].
  split; [reflexivity | exact Hlen].
Qed.

(** C1 at the status request [[0x30, 0x01]] and at the empty payload, whose
    frame is the shortest one (11 bytes), with length bytes [7] and [2] and
    checksum [2]. *)
Lemma build_packet_frame_witness :
  (exists frame,
     _build_packet [0x30; 0x01] = Ok frame
     /\ map int_of_byte frame
        = [0xFE; 0xEF; 0x0A; 9; 0xAB; 0xAA; 4; 0x30; 0x01; 53; 0x55; 0x0D; 0x0A]
     /\ List.length frame = 13%nat)
  /\ (exists frame,
        _build_packet [] = Ok frame
        /\ map int_of_byte frame =
             [0xFE; 0xEF; 0x0A; 7; 0xAB; 0xAA; 2; 2; 0x55; 0x0D; 0x0A]
        /\ List.length frame = 11%nat).
Proof.
  assert (H : Forall is_byte [0x30; 0x01])
    by (repeat constructor; unfold is_byte; lia).
  split.
  - destruct (@build_packet_frame [0x30; 0x01] H ltac:(cbn; lia))
      as (frame & E & Hm & _ & Hlen).
    exists frame. split; [exact E|]. split; [exact Hm | exact Hlen].
  - destruct (@build_packet_frame [] (Forall_nil is_byte) ltac:(cbn; lia))
      as (frame & E & Hm & _ & Hlen).
    exists frame. split; [exact E|]. split; [exact Hm | exact Hlen].
Defined.

(* ------------------------------------------------------------------ *)
(** * Properties of the brightness scales *)
(* ------------------------------------------------------------------ *)

Lemma Z_range_forallb (f : Z -> bool) (n : nat) :
  forallb f (Z_range n) = true ->
  forall z, 0 <= z < Z.of_nat n -> f z = true.
Proof.
  intros H z Hz. rewrite forallb_forall in H. apply H.
  unfold Z_range. apply in_map_iff. exists (Z.to_nat z). split; [lia|].
  apply in_seq. lia.
Qed.

(** On a status byte the float computation of lines 244 and 255 is the
    integer quotient: [int()] truncates and no rounding error of the binary64
    division crosses an integer. *)
Lemma percent_to_level_byte (b : byte) :
  percent_to_level (int_of_byte b) =
  Ok (if 0 <? int_of_byte b then int_of_byte b * 255 / 100 else 255).
Proof. destruct b; vm_compute; reflexivity. Qed.

Lemma percent_to_level_small (p : Z) :
  0 <= p <= 255 ->
  percent_to_level p = Ok (if 0 <? p then p * 255 / 100 else 255).
Proof.
  intros Hp.
  destruct (byte_of_int_ok (z := p)) as (b & _ & Hb); [exact Hp|].
  rewrite <- Hb. apply percent_to_level_byte.
Qed.

Lemma result_eqb_eq (r : result Z) (z : Z) : result_eqb r z = true -> r = Ok z.
Proof.
  destruct r as [v|e]; cbn; [|discriminate].
  intros H. apply Z.eqb_eq in H. now subst.
Qed.

(** The same for [int(level / 255 * 100)], on every level the driver can
    hold (cached levels reach [650 = 255 * 255 / 100]). *)
Lemma level_to_percent_small (level : Z) :
  0 <= level <= 1000 ->
  level_to_percent level = Ok (level * 100 / 255).
Proof.
  intros H. apply result_eqb_eq.
  apply (Z_range_forallb (fun z => result_eqb (level_to_percent z) (z * 100 / 255)) 1001).
  - vm_compute. reflexivity.
  - lia.
Qed.

(** Beyond that range the float computation and the integer quotient part
    ways: [1173 / 255] rounds to just under 4.6, so the percent is 459 and not
    [117300 // 255 = 460]. *)
Lemma level_to_percent_is_float_arithmetic :
  level_to_percent 1173 = Ok 459 /\ 1173 * 100 / 255 = 460.
Proof. split; vm_compute; reflexivity. Qed.

Lemma truncation_near_round (p : Z) :
  0 <= p ->
  p * 255 / 100 <= round_div (p * 255) 100 <= p * 255 / 100 + 1.
Proof.
  intros _. unfold round_div.
  destruct (2 * ((p * 255) mod 100) ?= 100); [destruct (Z.even _)| |]; lia.
Qed.

(** C5, amended.  For every level in {0, 1, 128, 254, 255} the command-side
    conversion yields the percent [level * 100 // 255]; when that percent is
    positive (levels 128, 254, 255) the notification-side mapping yields
    127, 252 and 255, each within 2 of the level, and when it is 0 (levels 0
    and 1) the mapping yields the default 255. *)
Theorem brightness_round_trip_sample (level : Z)
    (Hlevel : In level [0; 1; 128; 254; 255]) :
  exists percent back,
    level_to_percent level = Ok percent
    /\ percent = level * 100 / 255
    /\ brightness_round_trip level = Ok back
    /\ ((percent = 0 /\ back = 255)
        \/ (0 < percent /\ back = percent * 255 / 100
            /\ back <= level <= back + 2)).
Proof.
  cbn [In] in Hlevel.
  destruct Hlevel as [<-|[<-|[<-|[<-|[<-|[]]]]]].
  - exists 0, 255. repeat split; try (vm_compute; reflexivity). left. split; reflexivity.
  - exists 0, 255. repeat split; try (vm_compute; reflexivity). left. split; reflexivity.
  - exists 50, 127. repeat split; try (vm_compute; reflexivity).
    right. repeat split; try reflexivity; lia.
  - exists 99, 252. repeat split; try (vm_compute; reflexivity).
    right. repeat split; try reflexivity; lia.
  - exists 100, 255. repeat split; try (vm_compute; reflexivity).
    right. repeat split; try reflexivity; lia.
Qed.

(** C5 at level 254: the percent is 99 and the level that comes back is
    252. *)
Lemma brightness_round_trip_sample_witness :
  In 254 [0; 1; 128; 254; 255]
  /\ exists percent back,
       level_to_percent 254 = Ok percent
       /\ percent = 254 * 100 / 255
       /\ brightness_round_trip 254 = Ok back
       /\ ((percent = 0 /\ back = 255)
           \/ (0 < percent /\ back = percent * 255 / 100
               /\ back <= 254 <= back + 2)).
Proof.
  assert (H : In 254 [0; 1; 128; 254; 255]) by (cbn; tauto).
  split; [exact H | exact (brightness_round_trip_sample H)].
Defined.

(** C5 as stated fails at three of the five levels: 254 comes back as 252,
    and 0 and 1 come back as 255. *)
Lemma brightness_round_trip_not_within_1 :
  brightness_round_trip 254 = Ok 252 /\ ~ Z.abs (252 - 254) <= 1
  /\ brightness_round_trip 0 = Ok 255 /\ ~ Z.abs (255 - 0) <= 1
  /\ brightness_round_trip 1 = Ok 255 /\ ~ Z.abs (255 - 1) <= 1.
Proof.
  repeat split; try (vm_compute; reflexivity); lia.
Qed.

(** X27.  The round trip on the whole range of levels: it never raises, it gives
    255 exactly when the percent is 0 (levels 0, 1, 2), and otherwise it falls
    short of the level by at most 3. *)
Lemma brightness_round_trip_range (level : Z) :
  0 <= level <= 255 ->
  exists back,
    brightness_round_trip level = Ok back
    /\ (level <= 2 -> back = 255)
    /\ (3 <= level -> back <= level <= back + 3).
Proof.
  intros H. unfold brightness_round_trip.
  rewrite level_to_percent_small by lia.
  assert (Hp : 0 <= level * 100 / 255 <= 100).
  { split; [apply Z.div_pos; lia | apply Z.div_le_upper_bound; lia]. }
  rewrite percent_to_level_small by lia.
  eexists. split; [reflexivity|].
  destruct (0 <? level * 100 / 255) eqn:E.
  - apply Z.ltb_lt in E. split.
    + intros Hs. assert (level * 100 / 255 = 0) by (apply Z.div_small; lia). lia.
    + intros _.
      pose proof (Z.mul_div_le (level * 100) 255 ltac:(lia)).
      pose proof (Z.mul_succ_div_gt (level * 100) 255 ltac:(lia)).
      pose proof (Z.mul_div_le (level * 100 / 255 * 255) 100 ltac:(lia)).
      pose proof (Z.mul_succ_div_gt (level * 100 / 255 * 255) 100 ltac:(lia)).
      lia.
  - apply Z.ltb_ge in E. split; [reflexivity|].
    intros Hl.
    assert (1 <= level * 100 / 255) by (apply Z.div_le_lower_bound; lia). lia.
Qed.

(* ------------------------------------------------------------------ *)
(** * Accessors *)
(* ------------------------------------------------------------------ *)

(** C10.  [white_brightness] and [color_brightness] never return 0: a cached
    0 reads as 255, and every other cached value reads unchanged. *)
Theorem brightness_accessors_never_zero (s : BeurerInstance) :
  white_brightness s <> 0
  /\ color_brightness s <> 0
  /\ white_brightness s = (if _brightness s =? 0 then 255 else _brightness s)
  /\ color_brightness s =
       (if _color_brightness s =? 0 then 255 else _color_brightness s).
Proof.
  unfold white_brightness, color_brightness, int_or, truthy.
  destruct (_brightness s =? 0) eqn:E1;
    destruct (_color_brightness s =? 0) eqn:E2; cbn [negb];
    try apply Z.eqb_neq in E1; try apply Z.eqb_neq in E2;
    repeat split; try reflexivity; try assumption; lia.
Qed.

(* ------------------------------------------------------------------ *)
(** * Properties of the notification decoder *)
(* ------------------------------------------------------------------ *)

Lemma getitem_byte_at (data : list byte) (i : nat) :
  (i < List.length data)%nat -> getitem data i = Ok (byte_at data i).
Proof.
  intros H. unfold getitem, byte_at.
  destruct (nth_error data i) eqn:E; [reflexivity|].
  apply nth_error_None in E. lia.
Qed.

Lemma byte_at_range (data : list byte) (i : nat) : is_byte (byte_at data i).
Proof.
  unfold byte_at. destruct (nth_error data i).
  - apply int_of_byte_range.
  - unfold is_byte. lia.
Qed.

Lemma percent_to_level_byte_at (data : list byte) (i : nat) :
  percent_to_level (byte_at data i) = Ok (truncated_level (byte_at data i)).
Proof. apply percent_to_level_small, byte_at_range. Qed.

(** Clamping makes the catalog lookup total. *)
Lemma clamped_lookup (index : Z) :
  0 <= index ->
  list_getitem supported_effects (Z.min index (len supported_effects - 1))
  = Ok (clamped_effect index)
  /\ In (clamped_effect index) supported_effects.
Proof.
  intros H. unfold list_getitem, clamped_effect.
  change (len supported_effects - 1) with 10.
  change (Z.of_nat (List.length supported_effects)) with 11.
  set (j := Z.min index 10).
  assert (Hj : 0 <= j <= 10) by (unfold j; lia).
  replace (j <? 0) with false by (symmetry; apply Z.ltb_ge; lia).
  replace ((0 <=? j) && (j <? 11)) with true
    by (symmetry; apply andb_true_iff; split; [apply Z.leb_le | apply Z.ltb_lt]; lia).
  assert (Hn : (Z.to_nat j < List.length supported_effects)%nat)
    by (change (List.length supported_effects) with 11%nat; lia).
  rewrite (nth_error_nth' supported_effects "Off"%string Hn).
  split; [reflexivity | now apply nth_In].
Qed.

(** Symbolic execution of the monad's combinators. *)
Ltac run_py :=
  cbv [run outcome final events bind lift ret get modify emit when
       fire_update sleep ask start self clock trace fst snd].

Ltac decide_len :=
  match goal with
  | |- context [?a <? ?b] =>
      first [ replace (a <? b) with true
                by (symmetry; apply Z.ltb_lt; unfold len in *; lia)
            | replace (a <? b) with false
                by (symmetry; apply Z.ltb_ge; unfold len in *; lia) ]
  | |- context [?a <=? ?b] =>
      first [ replace (a <=? b) with true
                by (symmetry; apply Z.leb_le; unfold len in *; lia)
            | replace (a <=? b) with false
                by (symmetry; apply Z.leb_gt; unfold len in *; lia) ]
  | |- context [?a =? ?b] =>
      first [ replace (a =? b) with true
                by (symmetry; apply Z.eqb_eq; lia)
            | replace (a =? b) with false
                by (symmetry; apply Z.eqb_neq; lia) ]
  end.

(** C8.  A frame shorter than 9 bytes, and a frame of at least 9 bytes whose
    reply tag (byte 8) is none of 0, 1, 2 and 255, leaves the whole instance
    as it was and fires no callback: the handler returns with the state, the
    trace and the transport untouched. *)
Theorem notification_ignored (env : Transport) (s : BeurerInstance)
    (data : list byte)
    (H : len data < 9
         \/ (9 <= len data /\ ~ In (byte_at data 8) [0; 1; 2; 255])) :
  run (_notification_handler env data) s = (Ok tt, start s)
  /\ final (run (_notification_handler env data) s) = s
  /\ events (run (_notification_handler env data) s) = [].
Proof.
  assert (E : run (_notification_handler env data) s = (Ok tt, start s)).
  { unfold run, _notification_handler.
    destruct H as [Hshort | [Hlong Htag]].
    - decide_len. reflexivity.
    - decide_len. rewrite getitem_byte_at by (unfold len in *; lia).
      cbn [In] in Htag.
      run_py. repeat decide_len. reflexivity. }
  rewrite E. repeat split.
Qed.

(** C8 on a 3-byte frame and on an 11-byte frame with the reserved tag 3,
    received by an instance with a callback registered. *)
Lemma notification_ignored_witness :
  (len (frame_of [0xFE; 0xEF; 0x0A]) < 9
   \/ (9 <= len (frame_of [0xFE; 0xEF; 0x0A])
       /\ ~ In (byte_at (frame_of [0xFE; 0xEF; 0x0A]) 8) [0; 1; 2; 255]))
  /\ (len (frame_of [0; 0; 0; 0; 0; 0; 0; 0; 3; 1; 50]) < 9
      \/ (9 <= len (frame_of [0; 0; 0; 0; 0; 0; 0; 0; 3; 1; 50])
          /\ ~ In (byte_at (frame_of [0; 0; 0; 0; 0; 0; 0; 0; 3; 1; 50]) 8)
                 [0; 1; 2; 255]))
  /\ final (run (_notification_handler always_up (frame_of [0xFE; 0xEF; 0x0A]))
              observed) = observed
  /\ events (run (_notification_handler always_up
                    (frame_of [0; 0; 0; 0; 0; 0; 0; 0; 3; 1; 50]))
               observed) = [].
Proof.
  assert (H1 : len (frame_of [0xFE; 0xEF; 0x0A]) < 9
               \/ (9 <= len (frame_of [0xFE; 0xEF; 0x0A])
                   /\ ~ In (byte_at (frame_of [0xFE; 0xEF; 0x0A]) 8)
                          [0; 1; 2; 255])).
  { left. vm_compute. reflexivity. }
  assert (H2 : len (frame_of [0; 0; 0; 0; 0; 0; 0; 0; 3; 1; 50]) < 9
               \/ (9 <= len (frame_of [0; 0; 0; 0; 0; 0; 0; 0; 3; 1; 50])
                   /\ ~ In (byte_at (frame_of [0; 0; 0; 0; 0; 0; 0; 0; 3; 1; 50]) 8)
                          [0; 1; 2; 255])).
  { right. split; [vm_compute; discriminate|].
    change (byte_at (frame_of [0; 0; 0; 0; 0; 0; 0; 0; 3; 1; 50]) 8) with 3.
    cbn [In]. lia. }
  split; [exact H1|]. split; [exact H2|]. split.
  - exact (proj1 (proj2 (@notification_ignored always_up observed _ H1))).
  - exact (proj2 (proj2 (@notification_ignored always_up observed _ H2))).
Defined.

(** C2, amended.  A frame with reply tag 1 that holds byte 9 sets
    [white_on] to [byte 9 == 1] and nothing else when that is false; when
    byte 9 is 1 and the frame also holds byte 10, it sets mode [WHITE] and the
    white brightness to the truncated quotient [byte10 * 255 // 100] for
    [byte 10 > 0] and to 255 for [byte 10 = 0].  The truncated quotient is
    the rounded one or 1 below it.  No callback fires and nothing is raised. *)
Theorem white_status_frame (env : Transport) (s : BeurerInstance)
    (data : list byte)
    (Htag : byte_at data 8 = 1)
    (H9 : (10 <= List.length data)%nat)
    (H10 : byte_at data 9 = 1 -> (11 <= List.length data)%nat) :
  let r := run (_notification_handler env data) s in
  outcome r = Ok tt
  /\ events r = []
  /\ final r =
       (if byte_at data 9 =? 1
        then set_mode WHITE
               (set_brightness (truncated_level (byte_at data 10))
                  (set_light_on true s))
        else set_light_on false s)
  /\ (0 < byte_at data 10 ->
      truncated_level (byte_at data 10)
        <= round_div (byte_at data 10 * 255) 100
        <= truncated_level (byte_at data 10) + 1).
Proof.
  cbv zeta.
  assert (E : run (_notification_handler env data) s =
              (Ok tt,
               mkWorld (if byte_at data 9 =? 1
                        then set_mode WHITE
                               (set_brightness (truncated_level (byte_at data 10))
                                  (set_light_on true s))
                        else set_light_on false s) 0 [])).
  { unfold run, _notification_handler.
    decide_len. rewrite !getitem_byte_at by lia. rewrite Htag.
    run_py. cbn [Z.eqb Pos.eqb].
    destruct (byte_at data 9 =? 1) eqn:E9; cbn.
    - apply Z.eqb_eq in E9.
      rewrite getitem_byte_at by (specialize (H10 E9); lia).
      now rewrite percent_to_level_byte_at.
    - reflexivity. }
  rewrite E. do 3 (split; [reflexivity|]).
  intros Hpos. unfold truncated_level.
  replace (0 <? byte_at data 10) with true by (symmetry; apply Z.ltb_lt; lia).
  apply truncation_near_round. lia.
Qed.

(** C2 at the two sample frames: tag 1, byte 9 = 1, byte 10 = 50 gives white
    on, mode [WHITE] and brightness 127, within 1 of 128; byte 10 = 0 gives
    brightness 255. *)
Lemma white_status_frame_witness :
  byte_at (frame_of [0; 0; 0; 0; 0; 0; 0; 0; 1; 1; 50]) 8 = 1
  /\ (let r := run (_notification_handler always_up
                      (frame_of [0; 0; 0; 0; 0; 0; 0; 0; 1; 1; 50])) fresh in
      outcome r = Ok tt
      /\ _light_on (final r) = true
      /\ _mode (final r) = WHITE
      /\ _brightness (final r) = 127
      /\ Z.abs (_brightness (final r) - 128) <= 1)
  /\ (let r := run (_notification_handler always_up
                      (frame_of [0; 0; 0; 0; 0; 0; 0; 0; 1; 1; 0])) fresh in
      _light_on (final r) = true /\ _brightness (final r) = 255).
Proof.
  assert (Htag : byte_at (frame_of [0; 0; 0; 0; 0; 0; 0; 0; 1; 1; 50]) 8 = 1)
    by reflexivity.
  split; [exact Htag|]. split.
  - pose proof (@white_status_frame always_up fresh
                  (frame_of [0; 0; 0; 0; 0; 0; 0; 0; 1; 1; 50]) Htag
                  ltac:(cbn; lia) ltac:(cbn; lia)) as H.
    cbv zeta in H |- *. destruct H as (Ho & _ & Hf & _).
    rewrite Hf. split; [exact Ho|]. repeat split. vm_compute. discriminate.
  - pose proof (@white_status_frame always_up fresh
                  (frame_of [0; 0; 0; 0; 0; 0; 0; 0; 1; 1; 0]) eq_refl
                  ltac:(cbn; lia) ltac:(cbn; lia)) as H.
    cbv zeta in H |- *. destruct H as (_ & _ & Hf & _).
    rewrite Hf. split; reflexivity.
Defined.

(** C2 as stated fails twice over.  By design the level is truncated, not
    rounded: percent 1 is stored as 2 where [round(2.55)] is 3.  And a frame
    of exactly 9 bytes with tag 1 has no byte 9: the handler raises
    [IndexError] and sets nothing. *)
Lemma white_status_not_rounded :
  (let r := run (_notification_handler always_up
                   (frame_of [0; 0; 0; 0; 0; 0; 0; 0; 1; 1; 1])) fresh in
   outcome r = Ok tt
   /\ _brightness (final r) = 2
   /\ round_div (1 * 255) 100 = 3
   /\ _brightness (final r) <> round_div (1 * 255) 100)
  /\ (let r := run (_notification_handler always_up
                      (frame_of [0; 0; 0; 0; 0; 0; 0; 0; 1])) fresh in
      len (frame_of [0; 0; 0; 0; 0; 0; 0; 0; 1]) = 9
      /\ outcome r = Raise IndexError
      /\ final r = fresh).
Proof.
  split; cbv zeta.
  - repeat split; try (vm_compute; reflexivity). vm_compute. discriminate.
  - repeat split; vm_compute; reflexivity.
Qed.

(** X6.  A frame with reply tag 2 that holds bytes 9 and 10 is decoded in full:
    [color_on] is [byte 9 == 1]; when on, the mode becomes [RGB] and a frame
    longer than 16 bytes selects the effect at byte 16, clamped to the last
    catalog entry; the colour brightness is the truncated level of byte 10
    (255 for 0); a frame of at least 16 bytes sets rgb to bytes 13-15;
    [is_on] is [white_on or color_on]; and the registered update callback is
    called, once, in place. *)
Lemma color_status_frame (env : Transport) (s : BeurerInstance)
    (data : list byte)
    (Htag : byte_at data 8 = 2)
    (H10 : (11 <= List.length data)%nat) :
  let r := run (_notification_handler env data) s in
  let on := byte_at data 9 =? 1 in
  let s1 := set_color_on on s in
  let s2 := if on
            then if 16 <? len data
                 then set_effect_field (Some (clamped_effect (byte_at data 16)))
                        (set_mode RGB s1)
                 else set_mode RGB s1
            else s1 in
  let s3 := set_color_brightness_field (truncated_level (byte_at data 10)) s2 in
  let s4 := if 16 <=? len data
            then set_rgb_color (byte_at data 13, byte_at data 14, byte_at data 15) s3
            else s3 in
  outcome r = Ok tt
  /\ final r = set_is_on (_light_on s || on) s4
  /\ events r = match _trigger_update s with
                | Some cb => [EvUpdate cb]
                | None => []
                end.
Proof.
  cbv zeta.
  unfold run, _notification_handler.
  decide_len. rewrite !(@getitem_byte_at data 8), !(@getitem_byte_at data 9),
    !(@getitem_byte_at data 10) by lia.
  rewrite Htag. run_py. cbn [Z.eqb Pos.eqb].
  rewrite percent_to_level_byte_at.
  destruct (16 <? len data) eqn:L16; destruct (16 <=? len data) eqn:L16';
    try (apply Z.ltb_lt in L16); try (apply Z.ltb_ge in L16);
    try (apply Z.leb_le in L16'); try (apply Z.leb_gt in L16');
    unfold len in L16, L16'; try lia.
  - rewrite !getitem_byte_at by lia.
    destruct (clamped_lookup (index := byte_at data 16)) as [-> _];
      [apply byte_at_range|].
    destruct (byte_at data 9 =? 1); cbn;
      destruct (_trigger_update s); repeat split.
  - rewrite !getitem_byte_at by lia.
    destruct (byte_at data 9 =? 1); cbn;
      destruct (_trigger_update s); repeat split.
  - destruct (byte_at data 9 =? 1); cbn;
      destruct (_trigger_update s); repeat split.
Qed.

(** C3 holds from 11 bytes on, but a frame of 9 or 10 bytes passes the length
    guard: with tag 2 and 9 bytes the handler raises [IndexError] at
    [data[9]] before anything is set or notified; with 10 bytes it has
    already set [color_on] and the mode when [data[10]] raises, and neither
    the brightness, [is_on] nor the callback follow. *)
Theorem color_status_short_frame_raises :
  (let r := run (_notification_handler always_up
                   (frame_of [0; 0; 0; 0; 0; 0; 0; 0; 2])) observed in
   len (frame_of [0; 0; 0; 0; 0; 0; 0; 0; 2]) = 9
   /\ outcome r = Raise IndexError
   /\ final r = observed
   /\ events r = [])
  /\ (let r := run (_notification_handler always_up
                      (frame_of [0; 0; 0; 0; 0; 0; 0; 0; 2; 1])) observed in
      len (frame_of [0; 0; 0; 0; 0; 0; 0; 0; 2; 1]) = 10
      /\ outcome r = Raise IndexError
      /\ final r = set_mode RGB (set_color_on true observed)
      /\ _is_on (final r) = false
      /\ events r = []).
Proof.
  split; cbv zeta; repeat split; vm_compute; reflexivity.
Qed.

(* ------------------------------------------------------------------ *)
(** * Properties of the connection manager *)
(* ------------------------------------------------------------------ *)

(** C4.  The disconnected callback always clears the link handle.  With the
    write channel resolved it also clears both channel identifiers; then, if
    the disconnect was not flagged expected, it resets [is_on], [white_on]
    and [color_on] to false and hands the registered update callback to
    [call_soon_threadsafe], and if it was flagged expected it changes no
    cached device state and notifies nobody.  With the write channel not
    resolved it clears the link handle and nothing else.  In every case rgb,
    both brightnesses, the effect and the mode stay as they were. *)
Theorem disconnected_callback_effect (s : BeurerInstance) :
  let r := run _disconnected_callback s in
  outcome r = Ok tt
  /\ match _write_uuid s with
     | None => final r = set_client None s /\ events r = []
     | Some _ =>
         if _expected_disconnect s
         then final r = set_client None (set_read_uuid None (set_write_uuid None s))
              /\ device_state (final r) = device_state s
              /\ events r = []
         else final r =
                set_client None
                  (set_color_on false (set_light_on false (set_is_on false
                     (set_read_uuid None (set_write_uuid None s)))))
              /\ events r = match _trigger_update s with
                            | Some cb => [EvCallSoonThreadsafe cb]
                            | None => []
                            end
     end
  /\ (_rgb_color (final r), _brightness (final r), _color_brightness (final r),
      _effect (final r), _mode (final r))
     = (_rgb_color s, _brightness s, _color_brightness s, _effect s, _mode s).
Proof.
  cbv zeta. unfold _disconnected_callback. run_py.
  destruct s as [addr name client dev cb on white color rgb br cbr eff wu ru mode expected].
  cbn.
  destruct wu as [w|]; cbn; [|repeat split].
  destruct expected; cbn; [repeat split|].
  destruct cb as [cb|]; cbn; repeat split.
Qed.

(** X26.  [disconnect()], the client's [disconnect()] returning or raising
    [BleakError] (the one exception line 386 catches): it returns normally;
    a connected client is asked to disconnect, exactly once, and a client
    that is absent or not connected is not asked at all; the expected flag is
    raised before that await, so a callback delivered during it keeps the
    cached device state and notifies nobody; afterwards the link handle is
    cleared and the flag is down again. *)
Lemma disconnect_keeps_device_state (env : Transport) (s : BeurerInstance) :
  let r := run (disconnect env) s in
  outcome r = Ok tt
  /\ device_state (final r) = device_state s
  /\ _client (final r) = None
  /\ _expected_disconnect (final r) = false
  /\ existsb is_update (events r) = false
  /\ events r
     = (if client_connected s
        then [EvDisconnect (client_disconnect env 1%nat)]
        else []).
Proof.
  cbv zeta. unfold disconnect, await_client_disconnect, _disconnected_callback,
    client_connected.
  run_py.
  destruct s as [addr name client dev cb on white color rgb br cbr eff wu ru mode expected].
  cbn.
  destruct client as [[connected chars]|]; cbn; [|repeat split].
  destruct connected; cbn; [|repeat split].
  destruct (disconnect_notifies env 0%nat); cbn; [|repeat split].
  destruct wu; cbn; repeat split.
Qed.

(* ------------------------------------------------------------------ *)
(** * The effect catalog *)
(* ------------------------------------------------------------------ *)

Lemma index_of_range (x : string) (l : list string) (i : Z) :
  index_of x l = Some i -> 0 <= i < len l.
Proof.
  revert i. unfold len. induction l as [|y rest IH]; intros i; cbn [index_of].
  - discriminate.
  - destruct (String.eqb y x).
    + intros [= <-]. cbn [List.length]. lia.
    + destruct (index_of x rest) as [j|]; [|discriminate].
      intros [= <-]. specialize (IH j eq_refl). cbn [List.length]. lia.
Qed.

Lemma index_of_absent (x : string) (l : list string) :
  ~ In x l -> index_of x l = None.
Proof.
  induction l as [|y rest IH]; intros H; cbn [index_of]; [reflexivity|].
  destruct (String.eqb_spec y x) as [->|Hne].
  - exfalso. apply H. now left.
  - rewrite IH; [reflexivity|]. intros Hin. apply H. now right.
Qed.

Lemma index_of_nth (l : list string) (i : nat) (x : string) :
  NoDup l -> nth_error l i = Some x -> index_of x l = Some (Z.of_nat i).
Proof.
  intros Hnd. revert i. induction Hnd as [|y rest Hy _ IH]; intros i Hi.
  - now destruct i.
  - destruct i as [|i]; cbn [nth_error index_of] in *.
    + injection Hi as ->. now rewrite String.eqb_refl.
    + destruct (String.eqb_spec y x) as [->|Hne].
      * exfalso. apply Hy. eapply nth_error_In; eassumption.
      * rewrite (IH i Hi). f_equal. lia.
Qed.

Lemma supported_effects_NoDup : NoDup supported_effects.
Proof.
  unfold supported_effects.
  repeat (constructor;
          [cbn [In]; intros H;
           repeat (destruct H as [H|H]; [discriminate H|]); exact H|]).
  constructor.
Qed.

Lemma find_effect_position_range (name : option string) :
  0 <= _find_effect_position name < len supported_effects.
Proof.
  unfold _find_effect_position.
  destruct name as [n|]; [|cbn; lia].
  destruct (index_of n supported_effects) as [i|] eqn:E; [|cbn; lia].
  now apply index_of_range with (x := n).
Qed.

(* ------------------------------------------------------------------ *)
(** * Reasoning rules *)
(* ------------------------------------------------------------------ *)

Lemma quiet_refl (s : BeurerInstance) : quiet s s.
Proof. unfold quiet. tauto. Qed.

Lemma quiet_trans (s1 s2 s3 : BeurerInstance) :
  quiet s1 s2 -> quiet s2 s3 -> quiet s1 s3.
Proof.
  unfold quiet.
  intros (A1 & A2 & A3 & A4 & A5 & A6 & A7 & A8)
         (B1 & B2 & B3 & B4 & B5 & B6 & B7 & B8).
  repeat split; try congruence; auto.
Qed.

Lemma keeps_ret {A : Type} (a : A) : keeps (ret a).
Proof. intros w. apply quiet_refl. Qed.

Lemma keeps_bind {A B : Type} (m : M A) (k : A -> M B) :
  keeps m -> (forall a, keeps (k a)) -> keeps (bind m k).
Proof.
  intros Hm Hk w. unfold bind. specialize (Hm w).
  destruct (m w) as [[a|e] w1]; cbn [snd] in *.
  - eapply quiet_trans; [exact Hm | apply Hk].
  - exact Hm.
Qed.

Lemma keeps_lift {A : Type} (r : result A) : keeps (lift r).
Proof. intros w. apply quiet_refl. Qed.

Lemma keeps_get : keeps get.
Proof. intros w. apply quiet_refl. Qed.

Lemma keeps_emit (e : Event) : keeps (emit e).
Proof. intros w. apply quiet_refl. Qed.

Lemma keeps_sleep (ms : Z) : keeps (sleep ms).
Proof. apply keeps_emit. Qed.

Lemma keeps_ask {A : Type} (oracle : nat -> A) : keeps (ask oracle).
Proof. intros w. apply quiet_refl. Qed.

Lemma keeps_modify (f : BeurerInstance -> BeurerInstance) :
  (forall s, quiet s (f s)) -> keeps (modify f).
Proof. intros Hf w. apply Hf. Qed.

Lemma keeps_when (c : bool) (body : M unit) :
  keeps body -> keeps (when c body).
Proof. intros H. destruct c; [exact H | apply keeps_ret]. Qed.

Lemma keeps_if {A : Type} (c : bool) (m1 m2 : M A) :
  keeps m1 -> keeps m2 -> keeps (if c then m1 else m2).
Proof. now destruct c. Qed.

Create HintDb keeps discriminated.
#[export] Hint Resolve keeps_ret keeps_lift keeps_get keeps_emit keeps_sleep
  keeps_ask keeps_when keeps_if : keeps.

(** The field updates that are [quiet]. *)
Lemma quiet_link_update (s : BeurerInstance) :
  (forall v, quiet s (set_client v s))
  /\ (forall v, quiet s (set_device v s))
  /\ (forall v, quiet s (set_write_uuid v s))
  /\ (forall v, quiet s (set_read_uuid v s))
  /\ (forall v, quiet s (set_expected_disconnect v s))
  /\ (forall v, quiet s (set_color_on v s))
  /\ quiet s (set_is_on false s)
  /\ quiet s (set_light_on false s).
Proof.
  unfold quiet. destruct s. cbn. repeat split; auto; discriminate.
Qed.

Ltac keeps_step :=
  lazymatch goal with
  | |- keeps (bind _ _) => apply keeps_bind; [|intro]
  | |- keeps (when _ _) => apply keeps_when
  | |- keeps (modify _) =>
      first [ apply keeps_modify; intros ?s; apply quiet_link_update
            | apply keeps_modify; intros ?s; destruct (_client s);
              [apply quiet_link_update | apply quiet_refl] ]
  | |- keeps (if _ then _ else _) => apply keeps_if
  | |- keeps (match ?x with _ => _ end) => destruct x
  | |- keeps _ => solve [auto with keeps]
  end.

Lemma keeps_disconnected_callback : keeps _disconnected_callback.
Proof. unfold _disconnected_callback. repeat keeps_step. Qed.

Section KeepsDriver.

Variable env : Transport.

Lemma keeps_await_client_disconnect : keeps (await_client_disconnect env).
Proof.
  pose proof keeps_disconnected_callback.
  unfold await_client_disconnect. repeat keeps_step.
Qed.

Lemma keeps_find_characteristics (chars : list string) :
  keeps (find_characteristics chars).
Proof.
  induction chars as [|uuid rest IH]; cbn [find_characteristics];
    repeat keeps_step.
Qed.

Lemma keeps_ensure_connected : keeps (_ensure_connected env).
Proof.
  pose proof keeps_find_characteristics.
  pose proof keeps_await_client_disconnect.
  unfold _ensure_connected. repeat keeps_step.
Qed.

Lemma keeps_write (data : list byte) : keeps (_write env data).
Proof.
  pose proof keeps_ensure_connected.
  unfold _write. repeat keeps_step.
Qed.

Lemma keeps_send_packet (message : list Z) : keeps (_send_packet env message).
Proof.
  pose proof keeps_write.
  unfold _send_packet. repeat keeps_step.
Qed.

Lemma keeps_trigger_status : keeps (_trigger_status env).
Proof.
  pose proof keeps_send_packet.
  unfold _trigger_status. repeat keeps_step.
Qed.

Lemma keeps_turn_off : keeps (turn_off env).
Proof.
  pose proof keeps_send_packet. pose proof keeps_trigger_status.
  unfold turn_off. repeat keeps_step.
Qed.

Lemma keeps_turn_on : keeps (turn_on env).
Proof.
  pose proof keeps_send_packet. pose proof keeps_trigger_status.
  unfold turn_on. repeat keeps_step.
Qed.

End KeepsDriver.

(* ------------------------------------------------------------------ *)
(** * Commands return, and what they send *)
(* ------------------------------------------------------------------ *)

Lemma triple_bind {A B : Type} (P : World -> Prop) (m : M A)
    (Q1 : A -> World -> Prop) (k : A -> M B) (Q : B -> World -> Prop) :
  triple P m Q1 -> (forall a, triple (Q1 a) (k a) Q) -> triple P (bind m k) Q.
Proof.
  intros Hm Hk w Hw. destruct (Hm w Hw) as (a & w1 & E & Ha).
  destruct (Hk a w1 Ha) as (b & w2 & E2 & Hb).
  exists b, w2. unfold bind. rewrite E. now split.
Qed.

Lemma triple_get_bind {B : Type} (T : list Event -> Prop)
    (k : BeurerInstance -> M B) (Q : B -> World -> Prop) :
  (forall s, state_ok s -> triple (J T) (k s) Q) ->
  triple (J T) (bind get k) Q.
Proof.
  intros Hk w Hw. unfold bind, get. apply (Hk (self w)); [apply Hw | exact Hw].
Qed.

Lemma state_ok_link_update (s : BeurerInstance) :
  state_ok s ->
  (forall v, state_ok (set_client v s))
  /\ (forall v, state_ok (set_device v s))
  /\ (forall v, state_ok (set_write_uuid v s))
  /\ (forall v, state_ok (set_read_uuid v s))
  /\ (forall v, state_ok (set_expected_disconnect v s))
  /\ (forall v, state_ok (set_color_on v s))
  /\ (forall v, state_ok (set_is_on v s))
  /\ (forall v, state_ok (set_light_on v s))
  /\ (forall v, state_ok (set_mode v s))
  /\ (forall v, state_ok (set_effect_field v s)).
Proof. destruct s. cbn. intros H. repeat split; intros; exact H. Qed.

Lemma build_packet_ok (message : list Z) :
  Forall is_byte message -> len message <= 248 ->
  exists frame, _build_packet message = Ok frame.
Proof.
  intros Hb Hl. destruct (build_packet_within Hb Hl) as (frame & E & _).
  now exists frame.
Qed.

Lemma level_to_percent_cached (s : BeurerInstance) :
  state_ok s ->
  exists percent,
    level_to_percent (_color_brightness s) = Ok percent /\ is_byte percent.
Proof.
  unfold state_ok. destruct (_rgb_color s) as [[r g] b].
  intros (_ & _ & _ & Hc).
  exists (_color_brightness s * 100 / 255). split.
  - apply level_to_percent_small. lia.
  - unfold is_byte. split.
    + apply Z.div_pos; lia.
    + apply Z.div_le_upper_bound; lia.
Qed.

Section Invariant.

Variable T : list Event -> Prop.
Hypothesis T_closed : closed T.

Lemma inv_ret {A : Type} (a : A) : inv T (ret a).
Proof. intros w Hw. now exists a, w. Qed.

Lemma inv_bind {A B : Type} (m : M A) (k : A -> M B) :
  inv T m -> (forall a, inv T (k a)) -> inv T (bind m k).
Proof. intros Hm Hk. eapply triple_bind; [exact Hm | exact Hk]. Qed.

Lemma inv_get_bind {B : Type} (k : BeurerInstance -> M B) :
  (forall s, state_ok s -> inv T (k s)) -> inv T (bind get k).
Proof. apply triple_get_bind. Qed.

Lemma inv_lift_bind {A B : Type} (r : result A) (a : A) (k : A -> M B) :
  r = Ok a -> inv T (k a) -> inv T (bind (lift r) k).
Proof. intros -> Hk w Hw. unfold bind, lift. now apply Hk. Qed.

Lemma inv_modify (f : BeurerInstance -> BeurerInstance) :
  (forall s, state_ok s -> state_ok (f s)) -> inv T (modify f).
Proof.
  intros Hf w [Hs Ht]. exists tt. eexists. split; [reflexivity|].
  split; [apply Hf, Hs | exact Ht].
Qed.

Lemma inv_emit (e : Event) : event_ok e -> inv T (emit e).
Proof.
  intros He w [Hs Ht]. exists tt. eexists. split; [reflexivity|].
  split; [exact Hs | now apply T_closed].
Qed.

Lemma inv_sleep (ms : Z) : inv T (sleep ms).
Proof. apply inv_emit. exact I. Qed.

Lemma inv_ask {A : Type} (oracle : nat -> A) : inv T (ask oracle).
Proof. intros w Hw. eexists. eexists. split; [reflexivity | exact Hw]. Qed.

Lemma inv_when (c : bool) (body : M unit) : inv T body -> inv T (when c body).
Proof. intros H. destruct c; [exact H | apply inv_ret]. Qed.

Lemma inv_if {A : Type} (c : bool) (m1 m2 : M A) :
  inv T m1 -> inv T m2 -> inv T (if c then m1 else m2).
Proof. now destruct c. Qed.

Ltac inv_step :=
  lazymatch goal with
  | |- inv _ (bind get _) => apply inv_get_bind; intros ?s ?Hs
  | |- inv _ (bind _ _) => apply inv_bind; [|intro]
  | |- inv _ (when _ _) => apply inv_when
  | |- inv _ (modify _) =>
      first [ apply inv_modify; intros ?s ?Hs; apply state_ok_link_update; assumption
            | apply inv_modify; intros ?s ?Hs; destruct (_client s);
              [apply state_ok_link_update; assumption | assumption] ]
  | |- inv _ (emit _) => apply inv_emit; exact I
  | |- inv _ (sleep _) => apply inv_sleep
  | |- inv _ (ask _) => apply inv_ask
  | |- inv _ (ret _) => apply inv_ret
  | |- inv _ (if _ then _ else _) => apply inv_if
  | |- inv _ (match ?x with _ => _ end) => destruct x
  | |- inv _ _ => solve [auto]
  end.

Lemma inv_disconnected_callback : inv T _disconnected_callback.
Proof. unfold _disconnected_callback. repeat inv_step. Qed.

Variable env : Transport.

Lemma inv_await_client_disconnect : inv T (await_client_disconnect env).
Proof.
  pose proof inv_disconnected_callback.
  unfold await_client_disconnect. repeat inv_step.
Qed.

Lemma inv_find_characteristics (chars : list string) :
  inv T (find_characteristics chars).
Proof.
  induction chars as [|uuid rest IH]; cbn [find_characteristics];
    repeat inv_step.
Qed.

Lemma inv_ensure_connected : inv T (_ensure_connected env).
Proof.
  pose proof inv_find_characteristics.
  pose proof inv_await_client_disconnect.
  unfold _ensure_connected. repeat inv_step.
Qed.

Lemma inv_write (data : list byte) : inv T (_write env data).
Proof.
  pose proof inv_ensure_connected.
  unfold _write. repeat inv_step.
Qed.

Lemma inv_disconnect : inv T (disconnect env).
Proof.
  pose proof inv_await_client_disconnect.
  unfold disconnect. repeat inv_step.
Qed.

(** The part of [_send_packet] after the request is recorded. *)
Lemma inv_build_and_write (message : list Z) :
  Forall is_byte message -> len message <= 248 ->
  inv T (bind (lift (_build_packet message)) (_write env)).
Proof.
  intros Hb Hl. destruct (build_packet_ok Hb Hl) as (frame & E).
  eapply inv_lift_bind; [exact E | apply inv_write].
Qed.

Lemma inv_send_packet (message : list Z) :
  Forall is_byte message -> len message <= 248 -> event_ok (EvSend message) ->
  inv T (_send_packet env message).
Proof.
  intros Hb Hl He. unfold _send_packet.
  apply inv_bind; [now apply inv_emit | intros _].
  now apply inv_build_and_write.
Qed.

Ltac send_ok :=
  apply inv_send_packet;
  [ repeat (apply Forall_cons; [unfold is_byte in *; lia|]); apply Forall_nil
  | cbn; lia
  | exact I ].

Lemma inv_effect_command (name : option string) :
  inv T (_send_packet env [0x34; _find_effect_position name]).
Proof.
  pose proof (find_effect_position_range name) as Hr.
  change (len supported_effects) with 11 in Hr.
  apply inv_send_packet.
  - repeat (apply Forall_cons; [unfold is_byte; lia|]). apply Forall_nil.
  - cbn. lia.
  - cbn. exists (_find_effect_position name). split; [reflexivity|].
    change (len supported_effects) with 11. lia.
Qed.

Lemma inv_trigger_status : inv T (_trigger_status env).
Proof.
  unfold _trigger_status. repeat inv_step; send_ok.
Qed.

Lemma inv_turn_off : inv T (turn_off env).
Proof.
  pose proof inv_trigger_status.
  unfold turn_off. repeat inv_step; send_ok.
Qed.

Lemma inv_turn_on : inv T (turn_on env).
Proof.
  pose proof inv_trigger_status. pose proof inv_effect_command.
  unfold turn_on.
  apply inv_get_bind; intros s0 _.
  apply inv_bind; [|intros _; repeat inv_step].
  apply inv_if; [repeat inv_step; send_ok|].
  apply inv_bind; [send_ok | intros _].
  apply inv_get_bind; intros s1 _.
  apply inv_when.
  do 2 (apply inv_bind; [repeat inv_step | intros _]).
  apply inv_get_bind; intros s2 _.
  apply inv_bind; [repeat inv_step | intros _].
  apply inv_bind; [repeat inv_step | intros _].
  apply inv_get_bind; intros s3 Hs3.
  pose proof Hs3 as Hrgb. unfold state_ok in Hrgb.
  destruct (_rgb_color s3) as [[r g] b]. destruct Hrgb as (Hr & Hg & Hb & _).
  apply inv_bind; [send_ok | intros _].
  apply inv_get_bind; intros s4 Hs4.
  apply inv_when.
  destruct (@level_to_percent_cached s4 Hs4) as (percent & E & Hp).
  eapply inv_lift_bind; [exact E|].
  apply inv_bind; [send_ok | intros _; apply inv_ret].
Qed.

Lemma inv_set_effect (name : option string) : inv T (set_effect env name).
Proof.
  pose proof inv_trigger_status. pose proof inv_turn_on.
  pose proof inv_effect_command.
  unfold set_effect. repeat inv_step.
Qed.

End Invariant.

Lemma closed_any : closed (fun _ => True).
Proof. intros t e _ _. exact I. Qed.

Lemma closed_recorded (e0 : Event) : closed (fun t => In e0 t).
Proof. intros t e _ H. apply in_or_app. now left. Qed.

Lemma closed_all_ok : closed (Forall event_ok).
Proof.
  intros t e He H. apply Forall_app. split; [exact H|]. now constructor.
Qed.

Lemma J_start (T : list Event -> Prop) (s : BeurerInstance) :
  state_ok s -> T [] -> J T (start s).
Proof. intros Hs Ht. split; assumption. Qed.

(** A packet request that returns is on record from then on. *)
Lemma send_packet_recorded (env : Transport) (message : list Z) :
  Forall is_byte message -> len message <= 248 ->
  triple (J (fun _ => True)) (_send_packet env message)
         (fun _ => J (fun t => In (EvSend message) t)).
Proof.
  intros Hb Hl. unfold _send_packet.
  apply triple_bind with (Q1 := fun _ => J (fun t => In (EvSend message) t)).
  - intros w [Hs _]. exists tt. eexists. split; [reflexivity|].
    split; [exact Hs|]. cbn. apply in_or_app. right. now left.
  - intros _. apply inv_build_and_write; [apply closed_recorded | exact Hb | exact Hl].
Qed.


(* ------------------------------------------------------------------ *)
(** * Well-formedness of the cached state is an invariant *)
(* ------------------------------------------------------------------ *)

Lemma state_ok_fresh : state_ok fresh.
Proof. cbn. unfold is_byte. lia. Qed.

Lemma inv_preserves {A : Type} (m : M A) :
  inv (fun _ => True) m -> preserves m.
Proof.
  intros H w Hw. destruct (H w (conj Hw I)) as (a & w' & E & Hs & _).
  now rewrite E.
Qed.

Lemma preserves_ret {A : Type} (a : A) : preserves (ret a).
Proof. intros w Hw. exact Hw. Qed.

Lemma preserves_bind {A B : Type} (m : M A) (k : A -> M B) :
  preserves m -> (forall a, preserves (k a)) -> preserves (bind m k).
Proof.
  intros Hm Hk w Hw. unfold bind. specialize (Hm w Hw).
  destruct (m w) as [[a|e] w1]; cbn [snd] in *.
  - now apply Hk.
  - exact Hm.
Qed.

Lemma preserves_lift_bind {A B : Type} (r : result A) (k : A -> M B) :
  (forall a, r = Ok a -> preserves (k a)) -> preserves (bind (lift r) k).
Proof.
  intros Hk w Hw. unfold bind, lift. destruct r as [a|e]; cbn [snd].
  - now apply (Hk a eq_refl).
  - exact Hw.
Qed.

Lemma preserves_get_bind {B : Type} (k : BeurerInstance -> M B) :
  (forall s, preserves (k s)) -> preserves (bind get k).
Proof. intros Hk w Hw. unfold bind, get. now apply Hk. Qed.

Lemma preserves_modify (f : BeurerInstance -> BeurerInstance) :
  (forall s, state_ok s -> state_ok (f s)) -> preserves (modify f).
Proof. intros Hf w Hw. now apply Hf. Qed.

Lemma preserves_when (c : bool) (body : M unit) :
  preserves body -> preserves (when c body).
Proof. intros H. destruct c; [exact H | apply preserves_ret]. Qed.

Lemma preserves_emit (e : Event) : preserves (emit e).
Proof. intros w Hw. exact Hw. Qed.

Lemma getitem_is_byte (data : list byte) (i : nat) (z : Z) :
  getitem data i = Ok z -> is_byte z.
Proof.
  unfold getitem. destruct (nth_error data i) as [b|]; [|discriminate].
  intros [= <-]. apply int_of_byte_range.
Qed.

Lemma percent_to_level_bounds (p level : Z) :
  is_byte p -> percent_to_level p = Ok level -> 0 <= level <= 650.
Proof.
  intros Hp. rewrite (percent_to_level_small Hp). intros [= <-].
  unfold is_byte in Hp. destruct (0 <? p).
  - assert (p * 255 / 100 < 651) by (apply Z.div_lt_upper_bound; lia).
    assert (0 <= p * 255 / 100) by (apply Z.div_pos; lia).
    lia.
  - lia.
Qed.

Lemma state_ok_set_rgb_color (s : BeurerInstance) (r g b : Z) :
  is_byte r -> is_byte g -> is_byte b -> state_ok s ->
  state_ok (set_rgb_color (r, g, b) s).
Proof.
  unfold state_ok. destruct s as [? ? ? ? ? ? ? ? [[r0 g0] b0] ? ? ? ? ? ? ?].
  cbn. tauto.
Qed.

Lemma state_ok_set_brightness (s : BeurerInstance) (v : Z) :
  state_ok s -> state_ok (set_brightness v s).
Proof. destruct s. cbn. tauto. Qed.

Lemma state_ok_set_color_brightness (s : BeurerInstance) (v : Z) :
  0 <= v <= 650 -> state_ok s -> state_ok (set_color_brightness_field v s).
Proof.
  unfold state_ok. destruct s as [? ? ? ? ? ? ? ? [[r0 g0] b0] ? ? ? ? ? ? ?].
  cbn. tauto.
Qed.

Ltac preserves_step :=
  lazymatch goal with
  | |- preserves (bind get _) => apply preserves_get_bind; intros ?s
  | |- preserves (bind (lift _) _) => apply preserves_lift_bind; intros ?z ?Hz
  | |- preserves (bind _ _) => apply preserves_bind; [|intro]
  | |- preserves (when _ _) => apply preserves_when
  | |- preserves (ret _) => apply preserves_ret
  | |- preserves (emit _) => apply preserves_emit
  | |- preserves (match ?x with _ => _ end) => destruct x
  | |- preserves (if _ then _ else _) =>
      lazymatch goal with |- preserves (if ?c then _ else _) => destruct c end
  | |- preserves (modify (set_rgb_color _)) =>
      apply preserves_modify; intros ?s ?Hs;
      apply state_ok_set_rgb_color; eauto using getitem_is_byte
  | |- preserves (modify (set_brightness _)) =>
      apply preserves_modify; intros ?s ?Hs; now apply state_ok_set_brightness
  | |- preserves (modify (set_color_brightness_field _)) =>
      apply preserves_modify; intros ?s ?Hs;
      apply state_ok_set_color_brightness;
      [eapply percent_to_level_bounds; eauto using getitem_is_byte | assumption]
  | |- preserves (modify _) =>
      apply preserves_modify; intros ?s ?Hs; now apply state_ok_link_update
  | |- preserves _ => solve [auto]
  end.

(** Decoding a frame, of any length and content, keeps the cached state
    well formed, whether the handler returns or raises. *)
Lemma notification_preserves_state_ok (env : Transport) (data : list byte) :
  preserves (_notification_handler env data).
Proof.
  assert (Hd : preserves (disconnect env))
    by (apply inv_preserves, inv_disconnect, closed_any).
  unfold _notification_handler, fire_update. repeat preserves_step.
Qed.

(** So does [set_color] on a colour of three bytes, which moreover
    returns. *)
Lemma set_color_keeps_state_ok (env : Transport) (r g b : Z) :
  is_byte r -> is_byte g -> is_byte b ->
  inv (fun _ => True) (set_color env (r, g, b)).
Proof.
  intros Hr Hg Hb.
  pose proof (@inv_trigger_status _ closed_any env).
  pose proof (@inv_turn_on _ closed_any env).
  unfold set_color.
  apply inv_bind;
    [apply inv_modify; intros s Hs; now apply state_ok_link_update | intros _].
  apply inv_bind;
    [apply inv_modify; intros s Hs; now apply state_ok_set_rgb_color | intros _].
  apply inv_get_bind; intros s _.
  apply inv_bind; [now apply inv_when | intros _].
  apply inv_bind; [|intros _].
  - apply inv_send_packet; [apply closed_any | | cbn; lia | exact I].
    repeat (apply Forall_cons; [unfold is_byte in *; lia|]). apply Forall_nil.
  - apply inv_bind; [apply inv_sleep, closed_any | intros _; assumption].
Qed.

(* ------------------------------------------------------------------ *)
(** * On a healthy link the requested packet reaches the wire *)
(* ------------------------------------------------------------------ *)

Lemma find_characteristics_run (chars : list string) (w : World) :
  find_characteristics chars w =
  (Ok tt, mkWorld (fold_left resolve chars (self w)) (clock w) (trace w)).
Proof.
  revert w. induction chars as [|uuid rest IH]; intros w.
  - now destruct w.
  - cbn [find_characteristics fold_left].
    unfold bind, when, modify, mem_string, ret at 1 2.
    unfold resolve at 2.
    destruct (existsb (String.eqb uuid) WRITE_CHARACTERISTIC_UUIDS);
      destruct (existsb (String.eqb uuid) READ_CHARACTERISTIC_UUIDS);
      cbn [self clock trace]; now rewrite IH.
Qed.

Lemma resolve_state_ok (chars : list string) (s : BeurerInstance) :
  state_ok s -> state_ok (fold_left resolve chars s).
Proof.
  revert s. induction chars as [|uuid rest IH]; intros s Hs; cbn [fold_left].
  - exact Hs.
  - apply IH. unfold resolve.
    destruct (existsb _ WRITE_CHARACTERISTIC_UUIDS);
      destruct (existsb _ READ_CHARACTERISTIC_UUIDS);
      repeat (apply state_ok_link_update); exact Hs.
Qed.

Lemma resolve_write_uuid (chars : list string) (s : BeurerInstance) :
  In "8b00ace7-eb0b-49b0-bbe9-9aee0a26e1a3"%string chars
  \/ _write_uuid s = Some "8b00ace7-eb0b-49b0-bbe9-9aee0a26e1a3"%string ->
  _write_uuid (fold_left resolve chars s)
  = Some "8b00ace7-eb0b-49b0-bbe9-9aee0a26e1a3"%string.
Proof.
  revert s. induction chars as [|uuid rest IH]; intros s H; cbn [fold_left].
  - destruct H as [[]|H]. exact H.
  - apply IH. unfold resolve, WRITE_CHARACTERISTIC_UUIDS,
      READ_CHARACTERISTIC_UUIDS. cbn [existsb]. rewrite !orb_false_r.
    destruct (String.eqb_spec uuid "8b00ace7-eb0b-49b0-bbe9-9aee0a26e1a3")
      as [->|Hne].
    + right. now destruct s.
    + destruct H as [[->|H]|H]; [contradiction | now left | right].
      destruct (String.eqb uuid _); destruct s; exact H.
Qed.

Lemma resolve_read_uuid (chars : list string) (s : BeurerInstance) :
  In "0734594a-a8e7-4b1a-a6b1-cd5243059a57"%string chars
  \/ _read_uuid s = Some "0734594a-a8e7-4b1a-a6b1-cd5243059a57"%string ->
  _read_uuid (fold_left resolve chars s)
  = Some "0734594a-a8e7-4b1a-a6b1-cd5243059a57"%string.
Proof.
  revert s. induction chars as [|uuid rest IH]; intros s H; cbn [fold_left].
  - destruct H as [[]|H]. exact H.
  - apply IH. unfold resolve, WRITE_CHARACTERISTIC_UUIDS,
      READ_CHARACTERISTIC_UUIDS. cbn [existsb]. rewrite !orb_false_r.
    destruct (String.eqb_spec uuid "0734594a-a8e7-4b1a-a6b1-cd5243059a57")
      as [->|Hne].
    + right. now destruct s.
    + destruct H as [[->|H]|H]; [contradiction | now left | right].
      destruct (String.eqb uuid _); destruct s; exact H.
Qed.

Lemma always_up_healthy : healthy always_up.
Proof.
  repeat split; intros n; try reflexivity.
  eexists. split; [reflexivity|]. cbn. tauto.
Qed.

Section Healthy.

Variable env : Transport.
Hypothesis env_healthy : healthy env.
Variable T : list Event -> Prop.
Hypothesis T_closed : closed T.

(** On a healthy link [_ensure_connected] returns [True]. *)
Lemma ensure_connected_healthy :
  triple (J T) (_ensure_connected env) (fun connected w => connected = true /\ J T w).
Proof.
  destruct env_healthy as (Hdev & Hconn & Hnotify & _).
  intros w [Hs Ht]. unfold _ensure_connected.
  unfold bind at 1, get at 1.
  destruct (client_connected (self w)) eqn:Ec.
  { exists true, w. repeat split; assumption. }
  unfold bind at 1, get at 1. rewrite Ec.
  unfold bind at 1, ask at 1. rewrite Hdev.
  unfold bind at 1, get at 1. cbn [self].
  unfold bind at 1, modify at 1. cbn [self clock trace negb].
  unfold bind at 1, ask at 1. cbn [self clock trace].
  destruct (Hconn (S (clock w))) as (chars & -> & HW & HR).
  unfold bind at 1, emit at 1. cbn [self clock trace is_some].
  unfold bind at 1, modify at 1. cbn [self clock trace].
  unfold bind at 1. rewrite find_characteristics_run. cbn [self clock trace].
  unfold bind at 1, get at 1. cbn [self].
  rewrite resolve_read_uuid by (now left).
  rewrite resolve_write_uuid by (now left).
  cbn [str_truthy String.eqb Ascii.eqb Bool.eqb negb orb].
  unfold bind at 1, ask at 1. cbn [self clock trace]. rewrite Hnotify.
  unfold bind at 1, emit at 1. cbn [self clock trace].
  eexists. eexists. split; [reflexivity|].
  split; [reflexivity|]. split; cbn [self trace].
  - apply resolve_state_ok. repeat (apply state_ok_link_update). exact Hs.
  - repeat (apply T_closed; [exact I|]). exact Ht.
Qed.

End Healthy.

(** On a healthy link [_write(data)] puts [data] on the wire. *)
Lemma write_healthy (env : Transport) (data : list byte) :
  healthy env ->
  triple (J (fun _ => True)) (_write env data) (fun _ => J (written data)).
Proof.
  intros He. unfold _write.
  eapply triple_bind; [apply (ensure_connected_healthy He closed_any)|].
  intros connected w [-> [Hs _]]. cbn [negb].
  destruct He as (_ & _ & _ & Hwrite).
  unfold bind, get, ask, emit. cbn [self clock trace]. rewrite Hwrite.
  eexists. eexists. split; [reflexivity|]. split; [exact Hs|].
  exists (_write_uuid (self w)). cbn [trace]. apply in_or_app. right. now left.
Qed.

Lemma closed_written (data : list byte) : closed (written data).
Proof.
  intros t e _ [uuid H]. exists uuid. apply in_or_app. now left.
Qed.

(** On a healthy link, from a well-formed cached state, [set_effect]
    returns and the frame of [[0x34, i]], [i] the resolved position, has gone
    out on the write channel. *)
Lemma set_effect_reaches_wire (env : Transport) (s : BeurerInstance)
    (name : option string) :
  healthy env -> state_ok s ->
  exists frame,
    _build_packet [0x34; _find_effect_position name] = Ok frame
    /\ map int_of_byte frame = wire_frame [0x34; _find_effect_position name]
    /\ outcome (run (set_effect env name) s) = Ok tt
    /\ written frame (events (run (set_effect env name) s)).
Proof.
  intros He Hs.
  pose proof (find_effect_position_range name) as Hr.
  change (len supported_effects) with 11 in Hr.
  assert (Hb : Forall is_byte [0x34; _find_effect_position name])
    by (repeat (apply Forall_cons; [unfold is_byte; lia|]); apply Forall_nil).
  destruct (@build_packet_within _ Hb ltac:(cbn; lia)) as (frame & E & Hm & _).
  exists frame. split; [exact E|]. split; [exact Hm|].
  assert (Hrun : triple (J (fun _ => True)) (set_effect env name)
                   (fun _ => J (written frame))).
  { unfold set_effect.
    apply triple_bind with (Q1 := fun _ => J (fun _ => True));
      [apply inv_modify; intros s' Hs'; now apply state_ok_link_update|intros _].
    apply triple_bind with (Q1 := fun _ => J (fun _ => True));
      [apply inv_modify; intros s' Hs'; now apply state_ok_link_update|intros _].
    apply triple_get_bind; intros s' _.
    apply triple_bind with (Q1 := fun _ => J (fun _ => True));
      [apply inv_when, inv_turn_on, closed_any | intros _].
    apply triple_bind with (Q1 := fun _ => J (written frame)).
    - unfold _send_packet.
      apply triple_bind with (Q1 := fun _ => J (fun _ => True));
        [apply inv_emit; [apply closed_any |] | intros _].
      { cbn. exists (_find_effect_position name). split; [reflexivity|].
        change (len supported_effects) with 11. lia. }
      intros w Hw. unfold bind, lift. rewrite E. now apply write_healthy.
    - intros ok. apply inv_trigger_status, closed_written. }
  destruct (Hrun (start s) (@J_start (fun _ => True) s Hs I))
    as ([] & w1 & E1 & _ & Hin).
  unfold run, outcome, events. rewrite E1. split; [reflexivity | exact Hin].
Qed.

(* ------------------------------------------------------------------ *)
(** * Properties of the command sequencer *)
(* ------------------------------------------------------------------ *)

(** C9.  [_find_effect_position] is total: it lies in the catalog's range,
    it is the 0-based position of every catalog name, and it is 0 for [None]
    and for every name outside the catalog.  Consequently [set_effect], run
    from a well-formed cached state on any transport, returns normally, has
    requested the payload [[0x34, i]] with [i] the resolved position, and
    every effect command it requested carries one valid catalog position; on
    a healthy link the frame of that payload has gone out on the write
    channel. *)
Theorem effect_position_total (env : Transport) (s : BeurerInstance)
    (name : option string) (Hs : state_ok s) :
  0 <= _find_effect_position name < len supported_effects
  /\ (forall i n, nth_error supported_effects i = Some n ->
                  _find_effect_position (Some n) = Z.of_nat i)
  /\ _find_effect_position None = 0
  /\ (forall n, ~ In n supported_effects -> _find_effect_position (Some n) = 0)
  /\ (let r := run (set_effect env name) s in
      outcome r = Ok tt
      /\ In (EvSend [0x34; _find_effect_position name]) (events r)
      /\ Forall event_ok (events r)
      /\ (healthy env ->
          exists frame,
            map int_of_byte frame = wire_frame [0x34; _find_effect_position name]
            /\ written frame (events r))).
Proof.
  split; [apply find_effect_position_range|].
  split.
  { intros i n Hi. unfold _find_effect_position.
    now rewrite (@index_of_nth _ _ _ supported_effects_NoDup Hi). }
  split; [reflexivity|].
  split.
  { intros n Hn. unfold _find_effect_position.
    now rewrite (@index_of_absent _ _ Hn). }
  cbv zeta. unfold run, outcome, events.
  assert (Hrec : triple (J (fun _ => True)) (set_effect env name)
                   (fun _ => J (fun t =>
                      In (EvSend [0x34; _find_effect_position name]) t))).
  { pose proof (find_effect_position_range name) as Hr.
    change (len supported_effects) with 11 in Hr.
    unfold set_effect.
    apply triple_bind with (Q1 := fun _ => J (fun _ => True));
      [apply inv_modify; intros s' Hs'; now apply state_ok_link_update|intros _].
    apply triple_bind with (Q1 := fun _ => J (fun _ => True));
      [apply inv_modify; intros s' Hs'; now apply state_ok_link_update|intros _].
    apply triple_get_bind; intros s' _.
    apply triple_bind with (Q1 := fun _ => J (fun _ => True));
      [apply inv_when, inv_turn_on, closed_any | intros _].
    eapply triple_bind.
    - apply send_packet_recorded.
      + repeat (apply Forall_cons; [unfold is_byte; lia|]). apply Forall_nil.
      + cbn. lia.
    - intros ok. apply inv_trigger_status, closed_recorded. }
  destruct (Hrec (start s) (@J_start (fun _ => True) s Hs I)) as ([] & w1 & E1 & _ & Hin).
  destruct (@inv_set_effect _ closed_all_ok env name (start s)
              (@J_start (Forall event_ok) s Hs (Forall_nil _)))
    as ([] & w2 & E2 & _ & Hall).
  assert (Hw : w2 = w1) by congruence. subst w2.
  rewrite E1. cbn [fst snd]. do 3 (split; [assumption || reflexivity|]).
  intros He.
  destruct (@set_effect_reaches_wire env s name He Hs) as (frame & _ & Hm & _ & Hw).
  exists frame. split; [exact Hm|].
  unfold run, events in Hw. now rewrite E1 in Hw.
Qed.

(** C9 on a healthy link, from a fresh instance: ["Wave"] resolves to 6, the
    request [[0x34, 6]] is made, and its frame goes out on the write
    channel. *)
Lemma effect_position_total_witness :
  state_ok fresh
  /\ _find_effect_position (Some "Wave"%string) = 6
  /\ (let r := run (set_effect always_up (Some "Wave"%string)) fresh in
      outcome r = Ok tt
      /\ In (EvSend [0x34; 6]) (events r)
      /\ In (EvWrite (Some "8b00ace7-eb0b-49b0-bbe9-9aee0a26e1a3"%string)
               (frame_of (wire_frame [0x34; 6])) true) (events r)).
Proof.
  assert (Hs : state_ok fresh) by (cbn; unfold is_byte; lia).
  split; [exact Hs|]. split; [reflexivity|].
  destruct (@effect_position_total always_up fresh (Some "Wave"%string) Hs)
    as (_ & _ & _ & _ & Ho & Hin & _ & _).
  cbv zeta. split; [exact Ho|]. split; [exact Hin|].
  vm_compute. tauto.
Defined.


(* ------------------------------------------------------------------ *)
(** * Serialization of writes *)
(* ------------------------------------------------------------------ *)

Module SerialFacts.
Import Serial.

Lemma update_same (ts : nat -> task) (i : nat) (t : task) :
  update ts i t i = t.
Proof. unfold update. now rewrite Nat.eqb_refl. Qed.

Lemma update_other (ts : nat -> task) (i j : nat) (t : task) :
  j <> i -> update ts i t j = ts j.
Proof.
  intros H. unfold update. destruct (Nat.eqb_spec j i); [contradiction|reflexivity].
Qed.

Lemma alternates_app (o o'' : option (nat * frame)) (t1 t2 : list wire_event) :
  alternates o (t1 ++ t2) o'' <->
  exists o', alternates o t1 o' /\ alternates o' t2 o''.
Proof.
  revert o. induction t1 as [|e t1 IH]; intros o; cbn [List.app alternates].
  - split.
    + intros H. exists o. now split.
    + intros (o' & -> & H). exact H.
  - destruct e as [i f | i f ok].
    + rewrite IH. split.
      * intros (Ho & o' & H1 & H2). exists o'. now repeat split.
      * intros (o' & (Ho & H1) & H2). split; [exact Ho|]. now exists o'.
    + rewrite IH. split.
      * intros (Ho & o' & H1 & H2). exists o'. now repeat split.
      * intros (o' & (Ho & H1) & H2). split; [exact Ho|]. now exists o'.
Qed.

Lemma serialized_alternates (t : list wire_event) (o : option (nat * frame)) :
  serialized t o -> alternates None t o.
Proof.
  induction 1 as [| t i f _ IH | t i f ok _ IH].
  - reflexivity.
  - apply alternates_app. exists None. split; [exact IH|]. cbn. auto.
  - apply alternates_app. exists (Some (i, f)). split; [exact IH|]. cbn. auto.
Qed.

Lemma invariant_initial (scripts : nat -> list frame) :
  invariant (initial scripts).
Proof.
  split.
  - intros i H. now cbn in H.
  - constructor.
Qed.

Lemma invariant_step (st st' : system) :
  invariant st -> step st st' -> invariant st'.
Proof.
  intros [Hlock Hser] Hstep.
  destruct Hstep as [st i f rest Hi Hfree | st i f rest Hi
                    | st i f rest Hi | st i f rest ok Hi].
  - (* the free lock is taken *)
    assert (Hout : forall j, at_ (tasks st j) = Outside).
    { intros j. destruct (at_ (tasks st j)) eqn:E; [reflexivity| |];
        (assert (Hj : lock st = Some j) by (apply Hlock; rewrite E; discriminate);
         congruence). }
    split; cbn [tasks lock wire].
    + intros j Hj. destruct (Nat.eq_dec j i) as [->|Hne]; [reflexivity|].
      rewrite update_other in Hj by exact Hne. now rewrite Hout in Hj.
    + unfold in_flight in *. cbn [lock tasks]. rewrite update_same.
      rewrite Hfree in Hser. exact Hser.
  - (* not connected: the lock is released *)
    assert (Hh : lock st = Some i) by (apply Hlock; rewrite Hi; discriminate).
    split; cbn [tasks lock wire].
    + intros j Hj. destruct (Nat.eq_dec j i) as [->|Hne].
      * rewrite update_same in Hj. now cbn in Hj.
      * rewrite update_other in Hj by exact Hne.
        specialize (Hlock j Hj). congruence.
    + unfold in_flight in *. cbn [lock]. rewrite Hh, Hi in Hser. exact Hser.
  - (* the write begins *)
    assert (Hh : lock st = Some i) by (apply Hlock; rewrite Hi; discriminate).
    split; cbn [tasks lock wire].
    + intros j Hj. destruct (Nat.eq_dec j i) as [->|Hne]; [exact Hh|].
      rewrite update_other in Hj by exact Hne. now apply Hlock.
    + unfold in_flight in *. cbn [lock tasks]. rewrite Hh in *.
      rewrite update_same. rewrite Hi in Hser. cbn in *.
      now constructor.
  - (* the write ends: the lock is released *)
    assert (Hh : lock st = Some i) by (apply Hlock; rewrite Hi; discriminate).
    split; cbn [tasks lock wire].
    + intros j Hj. destruct (Nat.eq_dec j i) as [->|Hne].
      * rewrite update_same in Hj. now cbn in Hj.
      * rewrite update_other in Hj by exact Hne.
        specialize (Hlock j Hj). congruence.
    + unfold in_flight in *. cbn [lock]. rewrite Hh, Hi in Hser. cbn in Hser.
      now constructor.
Qed.

Lemma invariant_reachable (scripts : nat -> list frame) (st : system) :
  reachable scripts st -> invariant st.
Proof.
  induction 1 as [| st st' _ IH Hstep].
  - apply invariant_initial.
  - eapply invariant_step; eassumption.
Qed.

(** C7, amended.  In every state that concurrent operations on one instance
    can reach, whatever their number, their frames and the schedule: at most
    one task has a packet in flight; the wire history is serialized, each
    write ending before the next one begins; and a task enters [_write]'s
    body only as the holder of the operation lock.  The lock is held for one
    packet, not for one operation: frames of different calls may alternate
    on the wire. *)
Theorem writes_serialized (scripts : nat -> list frame) (st : system)
    (H : reachable scripts st) :
  (forall i j, at_ (tasks st i) = Writing -> at_ (tasks st j) = Writing -> i = j)
  /\ serialized (wire st) (in_flight st)
  /\ alternates None (wire st) (in_flight st)
  /\ (forall i, at_ (tasks st i) <> Outside -> lock st = Some i).
Proof.
  destruct (invariant_reachable H) as [Hlock Hser].
  split; [|split; [exact Hser | split; [now apply serialized_alternates | exact Hlock]]].
  intros i j Hi Hj.
  assert (Li : lock st = Some i) by (apply Hlock; rewrite Hi; discriminate).
  assert (Lj : lock st = Some j) by (apply Hlock; rewrite Hj; discriminate).
  congruence.
Qed.

Lemma exec_step (st st' : system) (m : move) :
  exec st m = Some st' -> step st st'.
Proof.
  destruct m as [i | i | i | i ok]; cbn [exec].
  - destruct (tasks st i) as [[| |] [|f rest]] eqn:Ei; try discriminate.
    destruct (lock st) eqn:El; [discriminate|].
    intros [= <-]. now apply step_acquire.
  - destruct (tasks st i) as [[| |] [|f rest]] eqn:Ei; try discriminate.
    intros [= <-]. now apply step_not_connected with (f := f).
  - destruct (tasks st i) as [[| |] [|f rest]] eqn:Ei; try discriminate.
    intros [= <-]. now apply step_write.
  - destruct (tasks st i) as [[| |] [|f rest]] eqn:Ei; try discriminate.
    intros [= <-]. now apply step_written.
Qed.

Lemma exec_all_reachable (scripts : nat -> list frame) (ms : list move)
    (st st' : system) :
  reachable scripts st -> exec_all st ms = Some st' -> reachable scripts st'.
Proof.
  revert st. induction ms as [|m rest IH]; intros st Hr; cbn [exec_all].
  - now intros [= <-].
  - destruct (exec st m) as [st1|] eqn:E; [|discriminate].
    apply IH. eapply reach_step; [exact Hr | now apply exec_step with (m := m)].
Qed.

Lemma after_alternating_reachable : reachable two_calls after_alternating.
Proof.
  apply exec_all_reachable with (ms := alternating) (st := initial two_calls).
  - constructor.
  - vm_compute. reflexivity.
Qed.

(** C7 on two concurrent [set_color] calls: after the schedule
    [alternating], the wire carries call 0's colour frame, then call 1's,
    then call 0's first status request, each complete before the next, and
    call 1's status request is the one write in flight. *)
Lemma writes_serialized_witness :
  reachable two_calls after_alternating
  /\ serialized (wire after_alternating) (in_flight after_alternating)
  /\ begun (wire after_alternating)
     = [ (0%nat, frame_of (wire_frame [0x32; 255; 0; 0]));
         (1%nat, frame_of (wire_frame [0x32; 0; 0; 255]));
         (0%nat, frame_of (wire_frame [0x30; 0x01]));
         (1%nat, frame_of (wire_frame [0x30; 0x01])) ]
  /\ in_flight after_alternating
     = Some (1%nat, frame_of (wire_frame [0x30; 0x01])).
Proof.
  pose proof after_alternating_reachable as Hr.
  split; [exact Hr|].
  split; [exact (proj1 (proj2 (writes_serialized Hr)))|].
  split; vm_compute; reflexivity.
Defined.

(** C7 as stated fails: two concurrent [set_color] calls do interleave
    their writes.  After the schedule [alternating], which the step relation
    allows because each call releases the lock after every packet and sleeps
    before its next one, the wire carries call 0's colour frame, call 1's
    colour frame, and only then call 0's status request: call 0's frames are
    not written as one block. *)
Lemma set_color_calls_interleave :
  reachable two_calls after_alternating
  /\ begun (wire after_alternating)
     = [ (0%nat, frame_of (wire_frame [0x32; 255; 0; 0]));
         (1%nat, frame_of (wire_frame [0x32; 0; 0; 255]));
         (0%nat, frame_of (wire_frame [0x30; 0x01]));
         (1%nat, frame_of (wire_frame [0x30; 0x01])) ]
  /\ call_by_call (begun (wire after_alternating)) = false.
Proof.
  split; [exact after_alternating_reachable|].
  split; vm_compute; reflexivity.
Qed.

End SerialFacts.

(* ------------------------------------------------------------------ *)
(** * More on the codec *)
(* ------------------------------------------------------------------ *)

Lemma bytes_inv (l : list Z) (bs : list byte) :
  bytes l = Ok bs -> map int_of_byte bs = l /\ Forall is_byte l.
Proof.
  revert bs. induction l as [|z rest IH]; intros bs; cbn [bytes].
  - intros [= <-]. split; constructor.
  - destruct (byte_of_int z) as [b|e] eqn:Eb; [|discriminate].
    destruct (bytes rest) as [bs'|e] eqn:Er; [|discriminate].
    intros [= <-]. destruct (IH bs' eq_refl) as [Hm Hf].
    assert (Hz : is_byte z /\ int_of_byte b = z).
    { unfold byte_of_int in Eb.
      destruct (0 <=? z) eqn:E1; destruct (z <? 256) eqn:E2;
        cbn [andb] in Eb; try discriminate.
      destruct (Byte.of_N (Z.to_N z)) as [b0|] eqn:E; [|discriminate].
      injection Eb as <-.
      apply Z.leb_le in E1. apply Z.ltb_lt in E2.
      split; [unfold is_byte; lia|].
      unfold int_of_byte. rewrite (@Byte.to_of_N _ _ E). lia. }
    destruct Hz as [Hz Hb]. cbn [map]. rewrite Hb, Hm.
    split; [reflexivity | now constructor].
Qed.

Lemma frame_of_bytes (l : list Z) (bs : list byte) :
  bytes l = Ok bs -> frame_of l = bs.
Proof.
  revert bs. induction l as [|z rest IH]; intros bs; cbn [bytes frame_of].
  - now intros [= <-].
  - destruct (byte_of_int z) as [b|e]; [|discriminate].
    destruct (bytes rest) as [bs'|e]; [|discriminate].
    intros [= <-]. now rewrite (IH bs' eq_refl).
Qed.

(** The frame of a payload that can be framed, in closed form. *)
Lemma build_packet_frame_of (message : list Z) :
  Forall is_byte message -> len message <= 248 ->
  _build_packet message = Ok (frame message).
Proof.
  intros Hb Hl. destruct (build_packet_within Hb Hl) as (bs & E & _).
  rewrite E. f_equal. symmetry. unfold frame.
  rewrite <- packet_ints_wire_frame. now apply frame_of_bytes.
Qed.

Lemma wire_frame_injective (P Q : list Z) :
  wire_frame P = wire_frame Q -> P = Q.
Proof.
  unfold wire_frame. cbn [List.app]. intros H.
  injection H as Hlen _ Htail.
  assert (Hl : List.length P = List.length Q) by (unfold len in Hlen; lia).
  apply (f_equal (firstn (List.length P))) in Htail.
  rewrite firstn_app, Nat.sub_diag, firstn_all in Htail.
  rewrite Hl, firstn_app, Nat.sub_diag, firstn_all in Htail.
  cbn [firstn] in Htail. now rewrite !app_nil_r in Htail.
Qed.

(** X1.  Framing loses nothing: two different payloads that
    [_build_packet] accepts get two different frames. *)
Theorem build_packet_injective (P Q : list Z) (f g : list byte)
    (Hne : P <> Q)
    (HP : _build_packet P = Ok f) (HQ : _build_packet Q = Ok g) :
  f <> g.
Proof.
  intros ->. apply Hne.
  unfold _build_packet in *.
  destruct (bytes_inv _ HP) as [HmP _]. destruct (bytes_inv _ HQ) as [HmQ _].
  apply wire_frame_injective. rewrite <- !packet_ints_wire_frame. congruence.
Qed.

(** X1 at the white and the colour status requests. *)
Lemma build_packet_injective_witness :
  [0x30; 0x01] <> [0x30; 0x02]
  /\ _build_packet [0x30; 0x01] = Ok (frame [0x30; 0x01])
  /\ _build_packet [0x30; 0x02] = Ok (frame [0x30; 0x02])
  /\ frame [0x30; 0x01] <> frame [0x30; 0x02].
Proof.
  assert (Hne : [0x30; 0x01] <> [0x30; 0x02]) by discriminate.
  assert (H1 : _build_packet [0x30; 0x01] = Ok (frame [0x30; 0x01])) by reflexivity.
  assert (H2 : _build_packet [0x30; 0x02] = Ok (frame [0x30; 0x02])) by reflexivity.
  repeat split; try assumption.
  exact (@build_packet_injective _ _ _ _ Hne H1 H2).
Defined.

Lemma xor_fold_app (seed : Z) (l1 l2 : list Z) :
  xor_fold seed (l1 ++ l2) = xor_fold (xor_fold seed l1) l2.
Proof. unfold xor_fold. apply fold_left_app. Qed.

Lemma xor_fold_seed (seed x : Z) (l : list Z) :
  xor_fold (Z.lxor seed x) l = Z.lxor (xor_fold seed l) x.
Proof.
  revert seed. induction l as [|b rest IH]; intros seed; cbn.
  - reflexivity.
  - fold (xor_fold (Z.lxor (Z.lxor seed x) b) rest).
    fold (xor_fold (Z.lxor seed b) rest).
    rewrite <- IH. f_equal.
    rewrite !Z.lxor_assoc. f_equal. apply Z.lxor_comm.
Qed.

Lemma lxor_cancel_r (a b c : Z) : Z.lxor a b = Z.lxor a c -> b = c.
Proof.
  intros H. apply (f_equal (Z.lxor a)) in H.
  now rewrite <- !Z.lxor_assoc, Z.lxor_nilpotent, !Z.lxor_0_l in H.
Qed.

(** X2.  The checksum notices every change of a single payload byte:
    replacing one element of the data changes [_make_checksum] exactly when
    the new element differs from the old one. *)
Theorem checksum_detects_one_byte (length b b' : Z) (before after : list Z) :
  _make_checksum length (before ++ b :: after)
  = _make_checksum length (before ++ b' :: after)
  <-> b = b'.
Proof.
  rewrite !_make_checksum_fold, !xor_fold_app. cbn [xor_fold fold_left].
  fold (xor_fold (Z.lxor (xor_fold length before) b) after).
  fold (xor_fold (Z.lxor (xor_fold length before) b') after).
  rewrite !xor_fold_seed. split.
  - intros H. now apply lxor_cancel_r in H.
  - now intros ->.
Qed.

(** X3.  The checksum does not depend on the order of the payload bytes:
    a reordered payload has the checksum of the original. *)
Theorem checksum_ignores_order (length : Z) (data data' : list Z)
    (H : Permutation data data') :
  _make_checksum length data = _make_checksum length data'.
Proof.
  rewrite !_make_checksum_fold. revert length.
  induction H as [| x l l' _ IH | x y l | l l' l'' _ IH1 _ IH2]; intros length.
  - reflexivity.
  - cbn. apply IH.
  - cbn. f_equal. rewrite !Z.lxor_assoc. f_equal. apply Z.lxor_comm.
  - now rewrite IH1.
Qed.

(** X3 on a colour command with red and blue swapped: the payloads differ
    and their checksums agree. *)
Lemma checksum_ignores_order_witness :
  Permutation [0x32; 10; 20; 30] [0x32; 30; 20; 10]
  /\ [0x32; 10; 20; 30] <> [0x32; 30; 20; 10]
  /\ _make_checksum 6 [0x32; 10; 20; 30] = _make_checksum 6 [0x32; 30; 20; 10].
Proof.
  assert (H : Permutation [0x32; 10; 20; 30] [0x32; 30; 20; 10]).
  { apply perm_skip.
    apply (@perm_trans _ _ [20; 10; 30]); [apply perm_swap|].
    apply (@perm_trans _ _ [20; 30; 10]); [apply perm_skip, perm_swap|].
    apply perm_swap. }
  split; [exact H|]. split; [discriminate|].
  exact (checksum_ignores_order 6 H).
Defined.

(* ------------------------------------------------------------------ *)
(** * More on the notification decoder *)
(* ------------------------------------------------------------------ *)

Ltac run_handler :=
  cbv [bind lift ret get modify emit when fire_update self clock trace fst snd].

Lemma white_status_world (env : Transport) (data : list byte) (w : World) :
  byte_at data 8 = 1 ->
  (10 <= List.length data)%nat ->
  (byte_at data 9 = 1 -> (11 <= List.length data)%nat) ->
  _notification_handler env data w
  = (Ok tt, mkWorld (decoded_white data (self w)) (clock w) (trace w)).
Proof.
  intros Htag H9 H10. destruct w as [s n t].
  unfold _notification_handler, decoded_white.
  decide_len. rewrite !getitem_byte_at by lia. rewrite Htag.
  run_handler. cbn [Z.eqb Pos.eqb].
  destruct (byte_at data 9 =? 1) eqn:E9; cbn.
  - apply Z.eqb_eq in E9.
    rewrite getitem_byte_at by (specialize (H10 E9); lia).
    now rewrite percent_to_level_byte_at.
  - reflexivity.
Qed.

Lemma color_status_world (env : Transport) (data : list byte) (w : World) :
  byte_at data 8 = 2 ->
  (11 <= List.length data)%nat ->
  _notification_handler env data w
  = (Ok tt, mkWorld (decoded_color data (self w)) (clock w)
              (trace w ++ update_events (self w))).
Proof.
  intros Htag H10. destruct w as [s n t].
  unfold _notification_handler, decoded_color, update_events.
  decide_len. rewrite !(@getitem_byte_at data 8), !(@getitem_byte_at data 9),
    !(@getitem_byte_at data 10) by lia.
  rewrite Htag. run_handler. cbn [Z.eqb Pos.eqb].
  rewrite percent_to_level_byte_at.
  destruct (16 <? len data) eqn:L16; destruct (16 <=? len data) eqn:L16';
    try (apply Z.ltb_lt in L16); try (apply Z.ltb_ge in L16);
    try (apply Z.leb_le in L16'); try (apply Z.leb_gt in L16');
    unfold len in L16, L16'; try lia.
  - rewrite !getitem_byte_at by lia.
    destruct (clamped_lookup (index := byte_at data 16)) as [-> _];
      [apply byte_at_range|].
    destruct (byte_at data 9 =? 1); cbn;
      destruct (_trigger_update s); cbn; rewrite ?app_nil_r; reflexivity.
  - rewrite !getitem_byte_at by lia.
    destruct (byte_at data 9 =? 1); cbn;
      destruct (_trigger_update s); cbn; rewrite ?app_nil_r; reflexivity.
  - destruct (byte_at data 9 =? 1); cbn;
      destruct (_trigger_update s); cbn; rewrite ?app_nil_r; reflexivity.
Qed.

Lemma device_off_world (env : Transport) (data : list byte) (w : World) :
  byte_at data 8 = 255 ->
  (9 <= List.length data)%nat ->
  _notification_handler env data w
  = (Ok tt, mkWorld (decoded_off (self w)) (clock w)
              (trace w ++ update_events (self w))).
Proof.
  intros Htag H8. destruct w as [s n t].
  unfold _notification_handler, decoded_off, update_events.
  decide_len. rewrite getitem_byte_at by lia. rewrite Htag.
  run_handler. cbn.
  destruct (_trigger_update s); cbn; rewrite ?app_nil_r; reflexivity.
Qed.

(** X4.  A frame of at least 9 bytes with reply tag 255 turns [is_on],
    [white_on] and [color_on] off, calls the registered update callback once,
    in place, and leaves the mode, the colour, both brightnesses and the
    effect as they were; bytes past the tag are not read. *)
Theorem device_off_frame (env : Transport) (s : BeurerInstance)
    (data : list byte)
    (Htag : byte_at data 8 = 255)
    (Hlen : (9 <= List.length data)%nat) :
  let r := run (_notification_handler env data) s in
  outcome r = Ok tt
  /\ final r = set_color_on false (set_light_on false (set_is_on false s))
  /\ (is_on (final r), _light_on (final r), _color_on (final r))
     = (false, false, false)
  /\ (color_mode (final r), rgb_color (final r), _brightness (final r),
      _color_brightness (final r), effect (final r))
     = (color_mode s, rgb_color s, _brightness s, _color_brightness s, effect s)
  /\ events r = update_events s.
Proof.
  cbv zeta. unfold run. rewrite (device_off_world env data (start s) Htag Hlen).
  destruct s. repeat split.
Qed.

(** X4 on the shortest such frame, with a callback registered. *)
Lemma device_off_frame_witness :
  byte_at (frame_of [0; 0; 0; 0; 0; 0; 0; 0; 255]) 8 = 255
  /\ (let r := run (_notification_handler always_up
                      (frame_of [0; 0; 0; 0; 0; 0; 0; 0; 255]))
                 (set_is_on true (set_light_on true observed)) in
      outcome r = Ok tt
      /\ is_on (final r) = false
      /\ events r = [EvUpdate 7%nat]).
Proof.
  assert (Htag : byte_at (frame_of [0; 0; 0; 0; 0; 0; 0; 0; 255]) 8 = 255)
    by reflexivity.
  split; [exact Htag|].
  destruct (@device_off_frame always_up
              (set_is_on true (set_light_on true observed))
              (frame_of [0; 0; 0; 0; 0; 0; 0; 0; 255]) Htag ltac:(cbn; lia))
    as (Ho & Hf & _ & _ & He).
  cbv zeta. split; [exact Ho|]. split; [now rewrite Hf | exact He].
Defined.



(** X6 on a 17-byte frame whose effect index 200 is past the catalog: the
    colour is on, the mode is RGB, the effect is the last entry, the
    brightness is 127, rgb is (1, 2, 3), and the callback is called once. *)
Lemma color_status_frame_witness :
  byte_at (frame_of [0; 0; 0; 0; 0; 0; 0; 0; 2; 1; 50; 0; 0; 1; 2; 3; 200]) 8 = 2
  /\ (let r := run (_notification_handler always_up
                      (frame_of [0; 0; 0; 0; 0; 0; 0; 0; 2; 1; 50; 0; 0; 1; 2; 3; 200]))
                 observed in
      outcome r = Ok tt
      /\ (is_on (final r), _color_on (final r), color_mode (final r))
         = (true, true, RGB)
      /\ effect (final r) = Some "Summer"%string
      /\ color_brightness (final r) = 127
      /\ rgb_color (final r) = (1, 2, 3)
      /\ events r = [EvUpdate 7%nat]).
Proof.
  assert (Htag : byte_at (frame_of [0; 0; 0; 0; 0; 0; 0; 0; 2; 1; 50; 0; 0; 1; 2; 3; 200]) 8 = 2)
    by reflexivity.
  split; [exact Htag|].
  pose proof (@color_status_frame always_up observed
                (frame_of [0; 0; 0; 0; 0; 0; 0; 0; 2; 1; 50; 0; 0; 1; 2; 3; 200])
                Htag ltac:(cbn; lia)) as H.
  cbv zeta in H |- *. destruct H as (Ho & Hf & He).
  split; [exact Ho|]. rewrite Hf, He. repeat split.
Defined.

(** X7.  Decoding an effect index and resolving the decoded name gives the
    index back, clamped: after a colour status frame longer than 16 bytes
    that reports the colour on, the cached effect is a catalog name and its
    position is [min(byte 16, 10)]. *)
Theorem decoded_effect_position (env : Transport) (s : BeurerInstance)
    (data : list byte)
    (Htag : byte_at data 8 = 2)
    (Hon : byte_at data 9 = 1)
    (Hlen : (17 <= List.length data)%nat) :
  let r := run (_notification_handler env data) s in
  (exists name, effect (final r) = Some name /\ In name supported_effects)
  /\ _find_effect_position (effect (final r)) = Z.min (byte_at data 16) 10.
Proof.
  cbv zeta. unfold run.
  rewrite (@color_status_world env data (start s) Htag ltac:(lia)).
  unfold final, decoded_color. cbn [snd self].
  rewrite Hon. cbn [Z.eqb Pos.eqb].
  replace (16 <? len data) with true
    by (symmetry; apply Z.ltb_lt; unfold len; lia).
  destruct (16 <=? len data); destruct s; cbn [effect _effect set_is_on
    set_rgb_color set_color_brightness_field set_effect_field].
  all: pose proof (byte_at_range data 16) as Hb; unfold is_byte in Hb.
  all: split;
    [ eexists; split; [reflexivity | apply clamped_lookup; lia]
    | unfold _find_effect_position, clamped_effect;
      change (len supported_effects - 1) with 10;
      assert (Hn : (Z.to_nat (Z.min (byte_at data 16) 10)
                    < List.length supported_effects)%nat)
        by (change (List.length supported_effects) with 11%nat; lia);
      rewrite (@index_of_nth supported_effects _ _ supported_effects_NoDup
                 (nth_error_nth' supported_effects "Off"%string Hn));
      lia ].
Qed.

(** X7 at index 200: the effect decodes to the last entry, position 10. *)
Lemma decoded_effect_position_witness :
  let data := frame_of [0; 0; 0; 0; 0; 0; 0; 0; 2; 1; 50; 0; 0; 1; 2; 3; 200] in
  byte_at data 8 = 2 /\ byte_at data 9 = 1 /\ byte_at data 16 = 200
  /\ _find_effect_position
       (effect (final (run (_notification_handler always_up data) fresh))) = 10.
Proof.
  cbv zeta.
  assert (Htag : byte_at (frame_of [0; 0; 0; 0; 0; 0; 0; 0; 2; 1; 50; 0; 0; 1; 2; 3; 200]) 8 = 2)
    by reflexivity.
  assert (Hon : byte_at (frame_of [0; 0; 0; 0; 0; 0; 0; 0; 2; 1; 50; 0; 0; 1; 2; 3; 200]) 9 = 1)
    by reflexivity.
  split; [exact Htag|]. split; [exact Hon|]. split; [reflexivity|].
  exact (proj2 (@decoded_effect_position always_up fresh _ Htag Hon
                  ltac:(cbn; lia))).
Defined.

Lemma decoded_white_twice (data : list byte) (s : BeurerInstance) :
  decoded_white data (decoded_white data s) = decoded_white data s.
Proof. unfold decoded_white. destruct (byte_at data 9 =? 1); now destruct s. Qed.

Lemma decoded_color_twice (data : list byte) (s : BeurerInstance) :
  decoded_color data (decoded_color data s) = decoded_color data s.
Proof.
  unfold decoded_color.
  destruct (byte_at data 9 =? 1); destruct (16 <? len data);
    destruct (16 <=? len data); now destruct s.
Qed.

(** X8.  A status frame received twice leaves the state it leaves when
    received once: for a frame of at least 11 bytes with reply tag 1, 2 or
    255, handling it a second time right after the first returns and changes
    no field. *)
Theorem duplicate_status_frame (env : Transport) (s : BeurerInstance)
    (data : list byte)
    (Htag : In (byte_at data 8) [1; 2; 255])
    (Hlen : (11 <= List.length data)%nat) :
  let once := run (_notification_handler env data) s in
  let twice := run (bind (_notification_handler env data)
                         (fun _ => _notification_handler env data)) s in
  outcome once = Ok tt /\ outcome twice = Ok tt /\ final twice = final once.
Proof.
  cbv zeta. unfold run, bind. cbn [In] in Htag.
  destruct Htag as [Ht|[Ht|[Ht|[]]]]; symmetry in Ht.
  - rewrite (@white_status_world env data _ Ht) by lia.
    cbv beta iota. rewrite (@white_status_world env data _ Ht) by lia.
    unfold outcome, final. cbn [fst snd self].
    now rewrite decoded_white_twice.
  - rewrite (@color_status_world env data _ Ht) by lia.
    cbv beta iota. rewrite (@color_status_world env data _ Ht) by lia.
    unfold outcome, final. cbn [fst snd self].
    now rewrite decoded_color_twice.
  - rewrite (@device_off_world env data _ Ht) by lia.
    cbv beta iota. rewrite (@device_off_world env data _ Ht) by lia.
    unfold outcome, final. cbn [fst snd self].
    repeat split.
Qed.

(** X8 on a colour status frame. *)
Lemma duplicate_status_frame_witness :
  let data := frame_of [0; 0; 0; 0; 0; 0; 0; 0; 2; 1; 50; 0; 0; 1; 2; 3; 4] in
  In (byte_at data 8) [1; 2; 255]
  /\ final (run (bind (_notification_handler always_up data)
                      (fun _ => _notification_handler always_up data)) fresh)
     = final (run (_notification_handler always_up data) fresh).
Proof.
  cbv zeta.
  assert (Htag : In (byte_at (frame_of [0; 0; 0; 0; 0; 0; 0; 0; 2; 1; 50; 0; 0; 1; 2; 3; 4]) 8)
                    [1; 2; 255]) by (cbn; tauto).
  split; [exact Htag|].
  exact (proj2 (proj2 (@duplicate_status_frame always_up fresh _ Htag
                         ltac:(cbn; lia)))).
Defined.

(** X9.  Decoding keeps the cache well formed: whatever the frame, and
    whether the handler returns or raises midway, a cached colour of three
    bytes and a cached colour brightness between 0 and 650 stay so. *)
Theorem decoding_keeps_cache_well_formed (env : Transport)
    (s : BeurerInstance) (data : list byte) (Hs : state_ok s) :
  state_ok (final (run (_notification_handler env data) s)).
Proof. exact (notification_preserves_state_ok env data (start s) Hs). Qed.

(** X9 on a 10-byte colour frame, on which the handler raises after it has
    set [color_on]. *)
Lemma decoding_keeps_cache_well_formed_witness :
  let r := run (_notification_handler always_up
                  (frame_of [0; 0; 0; 0; 0; 0; 0; 0; 2; 1])) fresh in
  state_ok fresh /\ outcome r = Raise IndexError
  /\ _color_on (final r) = true /\ state_ok (final r).
Proof.
  cbv zeta. split; [exact state_ok_fresh|].
  split; [reflexivity|]. split; [reflexivity|].
  exact (@decoding_keeps_cache_well_formed always_up fresh
           (frame_of [0; 0; 0; 0; 0; 0; 0; 0; 2; 1]) state_ok_fresh).
Defined.

Lemma truncated_level_bounds (p : Z) :
  1 <= p <= 255 ->
  2 <= truncated_level p <= 650 /\ (truncated_level p <= 255 <-> p <= 100).
Proof.
  intros Hp. unfold truncated_level.
  replace (0 <? p) with true by (symmetry; apply Z.ltb_lt; lia).
  pose proof (Z.mul_div_le (p * 255) 100 ltac:(lia)).
  pose proof (Z.mul_succ_div_gt (p * 255) 100 ltac:(lia)).
  lia.
Qed.

(** X10.  The decoder does not clamp the percent: a white status frame that
    reports the light on with brightness byte [p >= 1] caches the level
    [p * 255 // 100], between 2 and 650, which [white_brightness] returns as
    it is; the level stays within 255 exactly when [p <= 100]. *)
Theorem white_level_not_clamped (env : Transport) (s : BeurerInstance)
    (data : list byte)
    (Htag : byte_at data 8 = 1)
    (Hon : byte_at data 9 = 1)
    (Hp : 1 <= byte_at data 10)
    (Hlen : (11 <= List.length data)%nat) :
  let level := white_brightness (final (run (_notification_handler env data) s)) in
  level = byte_at data 10 * 255 / 100
  /\ 2 <= level <= 650
  /\ (level <= 255 <-> byte_at data 10 <= 100).
Proof.
  cbv zeta. unfold run.
  rewrite (@white_status_world env data (start s) Htag ltac:(lia) ltac:(lia)).
  unfold final, decoded_white. cbn [snd self]. rewrite Hon. cbn [Z.eqb Pos.eqb].
  pose proof (byte_at_range data 10) as Hb. unfold is_byte in Hb.
  destruct (@truncated_level_bounds (byte_at data 10) ltac:(lia)) as [Hr Hi].
  assert (E : white_brightness
                (set_mode WHITE
                   (set_brightness (truncated_level (byte_at data 10))
                      (set_light_on true (self (start s)))))
              = truncated_level (byte_at data 10)).
  { destruct s. unfold white_brightness, int_or, truthy. cbn.
    destruct (truncated_level (byte_at data 10) =? 0) eqn:Ez; [|reflexivity].
    apply Z.eqb_eq in Ez. lia. }
  rewrite E. split; [|split; assumption].
  unfold truncated_level.
  now replace (0 <? byte_at data 10) with true by (symmetry; apply Z.ltb_lt; lia).
Qed.

(** X10 at brightness byte 255: the cached level is 650. *)
Lemma white_level_not_clamped_witness :
  let data := frame_of [0; 0; 0; 0; 0; 0; 0; 0; 1; 1; 255] in
  byte_at data 8 = 1 /\ byte_at data 9 = 1 /\ 1 <= byte_at data 10
  /\ white_brightness (final (run (_notification_handler always_up data) fresh))
     = 650.
Proof.
  cbv zeta.
  assert (Htag : byte_at (frame_of [0; 0; 0; 0; 0; 0; 0; 0; 1; 1; 255]) 8 = 1)
    by reflexivity.
  assert (Hon : byte_at (frame_of [0; 0; 0; 0; 0; 0; 0; 0; 1; 1; 255]) 9 = 1)
    by reflexivity.
  assert (Hp : 1 <= byte_at (frame_of [0; 0; 0; 0; 0; 0; 0; 0; 1; 1; 255]) 10)
    by (cbn; lia).
  split; [exact Htag|]. split; [exact Hon|]. split; [exact Hp|].
  exact (proj1 (@white_level_not_clamped always_up fresh _ Htag Hon Hp
                  ltac:(cbn; lia))).
Defined.

(* ------------------------------------------------------------------ *)
(** * More on the connection manager *)
(* ------------------------------------------------------------------ *)

Lemma ensure_connected_fast (env : Transport) (w : World) :
  client_connected (self w) = true -> _ensure_connected env w = (Ok true, w).
Proof.
  intros H. unfold _ensure_connected, bind, get. now rewrite H.
Qed.

Lemma disconnected_callback_returns (w : World) :
  exists w' upd,
    _disconnected_callback w = (Ok tt, w')
    /\ _client (self w') = None
    /\ clock w' = clock w
    /\ trace w' = trace w ++ upd
    /\ forallb is_update upd = true.
Proof.
  destruct w as [s n t]. unfold _disconnected_callback.
  cbv [bind get modify emit when ret self clock trace].
  destruct s as [addr name client dev cb on white color rgb br cbr eff wu ru mode expected].
  cbn.
  destruct wu; cbn;
    [|eexists; exists []; rewrite app_nil_r; repeat split].
  destruct expected; cbn;
    [eexists; exists []; rewrite app_nil_r; repeat split|].
  destruct cb; cbn.
  - eexists. eexists. repeat split.
  - eexists. exists []. rewrite app_nil_r. repeat split.
Qed.

Lemma frames_written_updates (upd : list Event) :
  forallb is_update upd = true -> frames_written upd = [] /\ sends upd = [].
Proof.
  induction upd as [|e upd IH]; [now split|].
  cbn [forallb]. intros H. apply andb_true_iff in H. destruct H as [He Hu].
  destruct e; try discriminate; cbn; now apply IH.
Qed.

Lemma frames_written_app (t1 t2 : list Event) :
  frames_written (t1 ++ t2) = frames_written t1 ++ frames_written t2.
Proof.
  induction t1 as [|e t1 IH]; [reflexivity|].
  destruct e; cbn; now rewrite ?IH.
Qed.

Lemma sends_app (t1 t2 : list Event) :
  sends (t1 ++ t2) = sends t1 ++ sends t2.
Proof.
  induction t1 as [|e t1 IH]; [reflexivity|].
  destruct e; cbn; now rewrite ?IH.
Qed.


Lemma await_client_disconnect_returns (env : Transport) (w : World) :
  exists ok w' upd,
    await_client_disconnect env w = (Ok ok, w')
    /\ client_connected (self w') = false
    /\ frames_written (trace w') = frames_written (trace w)
    /\ sends (trace w') = sends (trace w)
    /\ trace w' = trace w ++ upd ++ [EvDisconnect ok]
    /\ forallb is_update upd = true.
Proof.
  unfold await_client_disconnect.
  unfold bind at 1, modify at 1.
  unfold bind at 1, ask at 1. cbn [self clock trace].
  set (w1 := mkWorld _ (S (clock w)) (trace w)).
  assert (H1 : client_connected (self w1) = false).
  { unfold w1, client_connected. cbn [self].
    destruct (self w) as [addr name client dev cb on white color rgb br cbr eff wu ru mode expected].
    cbn. now destruct client. }
  unfold bind at 1.
  destruct (disconnect_notifies env (clock w)).
  - cbn [when].
    destruct (disconnected_callback_returns w1) as (w2 & upd & E & Hc & _ & Ht & Hu).
    rewrite E. unfold bind, ask, emit, ret. cbn [self clock trace].
    eexists. eexists. exists upd. split; [reflexivity|]. cbn [self trace].
    unfold client_connected. rewrite Hc, Ht. subst w1. cbn [trace].
    destruct (frames_written_updates _ Hu) as [Hf Hs].
    rewrite !frames_written_app, !sends_app, Hf, Hs. cbn.
    rewrite !app_nil_r, <- app_assoc. repeat split. exact Hu.
  - cbn [when]. unfold ret at 1. unfold bind, ask, emit, ret.
    cbn [self clock trace].
    eexists. eexists. exists []. split; [reflexivity|]. cbn [self trace].
    rewrite frames_written_app, sends_app. cbn. rewrite !app_nil_r.
    repeat split. exact H1.
Qed.

Lemma client_connected_set_client_None (s : BeurerInstance) :
  client_connected (set_client None s) = false.
Proof. now destruct s. Qed.

(** [_ensure_connected] on any transport, from any world. *)
Lemma ensure_connected_world (env : Transport) (w : World) :
  exists connected w',
    _ensure_connected env w = (Ok connected, w')
    /\ connected = client_connected (self w')
    /\ frames_written (trace w') = frames_written (trace w)
    /\ sends (trace w') = sends (trace w)
    /\ (connected = true -> client_connected (self w) = false ->
        str_truthy (_write_uuid (self w')) = true
        /\ str_truthy (_read_uuid (self w')) = true).
Proof.
  destruct (client_connected (self w)) eqn:Ec.
  { rewrite (ensure_connected_fast env w Ec). exists true, w.
    repeat split; try congruence. }
  unfold _ensure_connected.
  unfold bind at 1, get at 1. rewrite Ec.
  unfold bind at 1, get at 1. rewrite Ec.
  unfold bind at 1, ask at 1.
  unfold bind at 1, get at 1. cbn [self].
  unfold bind at 1, modify at 1. cbn [self clock trace].
  destruct (ble_device_from_address env (clock w)); cbn [negb].
  2:{ eexists. eexists. split; [reflexivity|]. cbn [self trace].
      repeat split; try discriminate;
        try (unfold client_connected in *; now destruct (self w)). }
  unfold bind at 1, ask at 1. cbn [self clock trace].
  unfold bind at 1, emit at 1. cbn [self clock trace].
  destruct (establish_connection env (S (clock w))) as [chars|]; cbn [is_some].
  2:{ unfold bind, modify, ret. cbn [self clock trace].
      eexists. eexists. split; [reflexivity|]. cbn [self trace].
      rewrite frames_written_app, sends_app. cbn. rewrite !app_nil_r.
      repeat split; try discriminate;
        try (now rewrite client_connected_set_client_None). }
  unfold bind at 1, modify at 1. cbn [self clock trace].
  unfold bind at 1. rewrite find_characteristics_run. cbn [self clock trace].
  unfold bind at 1, get at 1. cbn [self].
  set (s1 := fold_left resolve chars _).
  destruct (str_truthy (_read_uuid s1)) eqn:Er;
    destruct (str_truthy (_write_uuid s1)) eqn:Ew; cbn [negb orb].
  1:{ unfold bind at 1, ask at 1. cbn [self clock trace].
      unfold bind at 1, emit at 1. cbn [self clock trace].
      assert (Hc1 : client_connected s1 = true).
      { unfold s1. clear. generalize (self w). intros s.
        assert (G : forall l s0, client_connected (fold_left resolve l s0)
                                 = client_connected s0).
        { induction l as [|u l IH]; intros s0; cbn [fold_left]; [reflexivity|].
          rewrite IH. unfold resolve.
          destruct (existsb _ WRITE_CHARACTERISTIC_UUIDS);
            destruct (existsb _ READ_CHARACTERISTIC_UUIDS); now destruct s0. }
        rewrite G. now destruct s. }
      destruct (start_notify env (S (S (clock w)))).
      - eexists. eexists. split; [reflexivity|]. cbn [self trace].
        rewrite !frames_written_app, !sends_app. cbn. rewrite !app_nil_r.
        repeat split; auto.
      - unfold bind, modify, ret. cbn [self clock trace].
        eexists. eexists. split; [reflexivity|]. cbn [self trace].
        rewrite !frames_written_app, !sends_app. cbn. rewrite !app_nil_r.
        repeat split; try discriminate;
          try (now rewrite client_connected_set_client_None). }
  all: unfold bind at 1;
    match goal with
    | |- context [await_client_disconnect ?e ?w0] =>
        destruct (await_client_disconnect_returns e w0) as (ok & w2 & upd & E & _ & Hf & Hs & _)
    end;
    rewrite E; unfold bind, modify, ret; cbn [self clock trace];
    eexists; eexists; (split; [reflexivity|]); cbn [self trace];
    rewrite Hf, Hs; cbn [trace];
    rewrite !frames_written_app, !sends_app; cbn; rewrite !app_nil_r;
    repeat split; try discriminate;
    try (now rewrite client_connected_set_client_None).
Qed.

(** X11.  [_ensure_connected] never raises and returns exactly whether the
    instance holds a connected client afterwards; it writes nothing to the
    link, and when it had to connect and returns [True], both channel
    identifiers are resolved. *)
Theorem ensure_connected_reports_link (env : Transport) (s : BeurerInstance) :
  let r := run (_ensure_connected env) s in
  exists connected,
    outcome r = Ok connected
    /\ connected = client_connected (final r)
    /\ frames_written (events r) = []
    /\ (connected = true -> client_connected s = false ->
        str_truthy (_write_uuid (final r)) = true
        /\ str_truthy (_read_uuid (final r)) = true).
Proof.
  cbv zeta. unfold run, outcome, final, events.
  destruct (ensure_connected_world env (start s))
    as (connected & w' & E & Hc & Hf & _ & Hu).
  rewrite E. cbn [fst snd]. exists connected. repeat split; auto; now apply Hu.
Qed.

(** X12.  [_write(data)], with [write_gatt_char] returning or raising
    [BleakError] (the one exception lines 221-223 catch): it returns a bool.
    It first runs [_ensure_connected]; when that returns [False], nothing is
    passed to the link and [_write] returns [False]; when it returns [True],
    [data] is passed, unchanged and once, to [write_gatt_char] on the
    resolved write channel, as the last thing that happens, and [_write]
    returns whether that write succeeded.  The instance is left as
    [_ensure_connected] left it. *)
Theorem write_reports_delivery (env : Transport) (s : BeurerInstance)
    (data : list byte) :
  let r := run (_write env data) s in
  let link := run (_ensure_connected env) s in
  exists connected ok,
    outcome link = Ok connected
    /\ outcome r = Ok ok
    /\ final r = final link
    /\ events r
       = events link
         ++ (if connected
             then [EvWrite (_write_uuid (final link)) data ok]
             else [])
    /\ frames_written (events r) = (if connected then [data] else [])
    /\ (connected = false -> ok = false).
Proof.
  cbv zeta.
  destruct (ensure_connected_world env (start s))
    as (connected & w1 & E & _ & Hf & _ & _).
  cbn [trace start] in Hf.
  assert (Ew : _write env data (start s)
               = if connected
                 then (Ok (write_gatt_char env (clock w1)),
                       mkWorld (self w1) (S (clock w1))
                         (trace w1
                          ++ [EvWrite (_write_uuid (self w1)) data
                                (write_gatt_char env (clock w1))]))
                 else (Ok false, w1)).
  { unfold _write. unfold bind at 1. rewrite E.
    destruct connected; reflexivity. }
  unfold run. rewrite Ew, E. unfold outcome, final, events.
  destruct connected; cbn [fst snd self trace].
  - exists true, (write_gatt_char env (clock w1)).
    split; [reflexivity|]. split; [reflexivity|]. split; [reflexivity|].
    split; [reflexivity|]. split; [|discriminate].
    rewrite frames_written_app, Hf. reflexivity.
  - exists false, false.
    split; [reflexivity|]. split; [reflexivity|]. split; [reflexivity|].
    split; [now rewrite app_nil_r|]. split; [exact Hf | reflexivity].
Qed.

Lemma disconnect_world (env : Transport) (w : World) :
  exists w', disconnect env w = (Ok tt, w')
             /\ _client (self w') = None
             /\ _expected_disconnect (self w') = false.
Proof.
  unfold disconnect.
  unfold bind at 1, modify at 1.
  unfold bind at 1, get at 1. cbn [self clock trace].
  unfold bind at 1.
  set (w1 := mkWorld _ (clock w) (trace w)).
  destruct (client_connected (set_expected_disconnect true (self w))); cbn [when].
  - unfold bind at 1.
    destruct (await_client_disconnect_returns env w1) as (ok & w2 & upd & E & _).
    rewrite E. unfold ret at 1. unfold bind, modify. cbn [self clock trace].
    eexists. split; [reflexivity|]. cbn [self]. now destruct (self w2).
  - unfold ret at 1. unfold bind, modify. cbn [self clock trace].
    eexists. split; [reflexivity|]. cbn [self]. subst w1. cbn [self].
    now destruct (self w).
Qed.

(** X13.  [disconnect()] is idempotent, the client's [disconnect()]
    returning or raising [BleakError] (the one exception line 386 catches):
    the call returns, and a second call right after the first makes no
    transport call, records nothing and leaves every field as the first
    call left it. *)
Theorem disconnect_twice (env : Transport) (s : BeurerInstance) :
  let once := run (disconnect env) s in
  let twice := run (bind (disconnect env) (fun _ => disconnect env)) s in
  outcome once = Ok tt /\ twice = once.
Proof.
  cbv zeta. unfold run, bind.
  destruct (disconnect_world env (start s)) as (w1 & E & Hc & He).
  rewrite E. split; [reflexivity|].
  unfold disconnect, bind, modify, get, when, ret, client_connected.
  cbn [self clock trace].
  destruct w1 as [s1 n1 t1]. cbn [self clock trace] in *.
  destruct s1. cbn in *. subst. reflexivity.
Qed.

Lemma resolve_read_absent (chars : list string) (s : BeurerInstance) :
  ~ In "0734594a-a8e7-4b1a-a6b1-cd5243059a57"%string chars ->
  _read_uuid (fold_left resolve chars s) = _read_uuid s.
Proof.
  revert s. induction chars as [|uuid rest IH]; intros s H; cbn [fold_left].
  - reflexivity.
  - rewrite IH by (intros Hin; apply H; now right).
    unfold resolve, WRITE_CHARACTERISTIC_UUIDS, READ_CHARACTERISTIC_UUIDS.
    cbn [existsb]. rewrite !orb_false_r.
    destruct (String.eqb_spec uuid "0734594a-a8e7-4b1a-a6b1-cd5243059a57")
      as [->|Hne]; [exfalso; apply H; now left|].
    destruct (String.eqb uuid _); now destruct s.
Qed.

Lemma resolve_write_absent (chars : list string) (s : BeurerInstance) :
  ~ In "8b00ace7-eb0b-49b0-bbe9-9aee0a26e1a3"%string chars ->
  _write_uuid (fold_left resolve chars s) = _write_uuid s.
Proof.
  revert s. induction chars as [|uuid rest IH]; intros s H; cbn [fold_left].
  - reflexivity.
  - rewrite IH by (intros Hin; apply H; now right).
    unfold resolve, WRITE_CHARACTERISTIC_UUIDS, READ_CHARACTERISTIC_UUIDS.
    cbn [existsb]. rewrite !orb_false_r.
    destruct (String.eqb_spec uuid "8b00ace7-eb0b-49b0-bbe9-9aee0a26e1a3")
      as [->|Hne]; [exfalso; apply H; now left|].
    destruct (String.eqb uuid "0734594a-a8e7-4b1a-a6b1-cd5243059a57");
      now destruct s.
Qed.

(** X14.  A client without one of the two characteristics is torn down at
    once: when the instance has to connect, the device is found and the new
    client's services lack the read (or the write) characteristic, which was
    not resolved before either, [_ensure_connected] disconnects that
    client, never subscribes to notifications, clears the link handle and
    returns [False]. *)
Theorem missing_characteristic_tears_down (env : Transport)
    (s : BeurerInstance) (chars : list string)
    (Hdown : client_connected s = false)
    (Hfound : ble_device_from_address env 0%nat = true)
    (Hconn : establish_connection env 1%nat = Some chars)
    (Hmiss : (str_truthy (_read_uuid s) = false
              /\ ~ In "0734594a-a8e7-4b1a-a6b1-cd5243059a57"%string chars)
             \/ (str_truthy (_write_uuid s) = false
                 /\ ~ In "8b00ace7-eb0b-49b0-bbe9-9aee0a26e1a3"%string chars)) :
  let r := run (_ensure_connected env) s in
  outcome r = Ok false
  /\ _client (final r) = None
  /\ exists updates ok,
       events r = EvEstablish true :: updates ++ [EvDisconnect ok]
       /\ forallb is_update updates = true.
Proof.
  cbv zeta.
  assert (G : exists w' updates ok,
             _ensure_connected env (start s) = (Ok false, w')
             /\ _client (self w') = None
             /\ trace w' = EvEstablish true :: updates ++ [EvDisconnect ok]
             /\ forallb is_update updates = true);
    [|destruct G as (w' & updates & ok & E & Hc & Ht & Hu);
      unfold run, outcome, final, events; rewrite E; cbn [fst snd];
      split; [reflexivity|]; split; [exact Hc|];
      exists updates, ok; split; assumption].
  unfold _ensure_connected, start.
  unfold bind at 1, get at 1. cbn [self]. rewrite Hdown.
  unfold bind at 1, get at 1. cbn [self]. rewrite Hdown.
  unfold bind at 1, ask at 1. cbn [self clock trace]. rewrite Hfound.
  unfold bind at 1, get at 1. cbn [self].
  unfold bind at 1, modify at 1. cbn [self clock trace negb].
  unfold bind at 1, ask at 1. cbn [self clock trace]. rewrite Hconn.
  unfold bind at 1, emit at 1. cbn [self clock trace is_some].
  unfold bind at 1, modify at 1. cbn [self clock trace].
  unfold bind at 1. rewrite find_characteristics_run. cbn [self clock trace].
  unfold bind at 1, get at 1. cbn [self].
  set (s1 := fold_left resolve chars _).
  assert (Hbad : negb (str_truthy (_read_uuid s1))
                 || negb (str_truthy (_write_uuid s1)) = true).
  { destruct Hmiss as [[Hr Hn]|[Hw Hn]].
    - unfold s1. rewrite (resolve_read_absent _ _ Hn).
      replace (_read_uuid _) with (_read_uuid s) by now destruct s.
      now rewrite Hr.
    - unfold s1. rewrite (resolve_write_absent _ _ Hn).
      replace (_write_uuid _) with (_write_uuid s) by now destruct s.
      rewrite Hw. apply orb_true_r. }
  rewrite Hbad. unfold bind at 1.
  match goal with
  | |- context [await_client_disconnect env ?w0] =>
      destruct (await_client_disconnect_returns env w0)
        as (ok & w2 & upd & E & _ & _ & _ & Ht & Hu)
  end.
  rewrite E. unfold bind, modify, ret.
  cbn [self clock trace]. cbn [trace] in Ht.
  eexists. exists upd, ok. split; [reflexivity|]. cbn [self trace].
  split; [now destruct (self w2)|]. split; [exact Ht | exact Hu].
Qed.

(** X14 on a device that offers the write characteristic only. *)
Lemma missing_characteristic_tears_down_witness :
  let env := mkTransport (fun _ => true)
               (fun _ => Some WRITE_CHARACTERISTIC_UUIDS)
               (fun _ => true) (fun _ => true) (fun _ => true) (fun _ => false) in
  let r := run (_ensure_connected env) fresh in
  client_connected fresh = false
  /\ outcome r = Ok false
  /\ _client (final r) = None
  /\ events r = [EvEstablish true; EvDisconnect true].
Proof.
  cbv zeta.
  set (env := mkTransport (fun _ => true)
               (fun _ => Some WRITE_CHARACTERISTIC_UUIDS)
               (fun _ => true) (fun _ => true) (fun _ => true) (fun _ => false)).
  assert (Hmiss : (str_truthy (_read_uuid fresh) = false
                   /\ ~ In "0734594a-a8e7-4b1a-a6b1-cd5243059a57"%string
                          WRITE_CHARACTERISTIC_UUIDS)
                  \/ (str_truthy (_write_uuid fresh) = false
                      /\ ~ In "8b00ace7-eb0b-49b0-bbe9-9aee0a26e1a3"%string
                             WRITE_CHARACTERISTIC_UUIDS)).
  { left. split; [reflexivity|]. cbn. intros [H|[]]. discriminate H. }
  destruct (@missing_characteristic_tears_down env fresh
              WRITE_CHARACTERISTIC_UUIDS eq_refl eq_refl eq_refl Hmiss)
    as (Ho & Hc & _).
  split; [reflexivity|]. split; [exact Ho|]. split; [exact Hc|].
  vm_compute. reflexivity.
Defined.

(* ------------------------------------------------------------------ *)
(** * Running commands step by step *)
(* ------------------------------------------------------------------ *)

Lemma bind_assoc {A B C : Type} (m : M A) (k1 : A -> M B) (k2 : B -> M C)
    (w : World) :
  bind (bind m k1) k2 w = bind m (fun a => bind (k1 a) k2) w.
Proof. unfold bind. destruct (m w) as [[a|e] w1]; reflexivity. Qed.

Lemma bind_ret {A B : Type} (a : A) (k : A -> M B) (w : World) :
  bind (ret a) k w = k a w.
Proof. reflexivity. Qed.

Lemma bind_get {B : Type} (k : BeurerInstance -> M B) (w : World) :
  bind get k w = k (self w) w.
Proof. reflexivity. Qed.

Lemma bind_modify {B : Type} (f : BeurerInstance -> BeurerInstance)
    (k : unit -> M B) (w : World) :
  bind (modify f) k w = k tt (mkWorld (f (self w)) (clock w) (trace w)).
Proof. reflexivity. Qed.

Lemma bind_sleep {B : Type} (ms : Z) (k : unit -> M B) (w : World) :
  bind (sleep ms) k w
  = k tt (mkWorld (self w) (clock w) (trace w ++ [EvSleep ms])).
Proof. reflexivity. Qed.

Lemma bind_lift_ok {A B : Type} (r : result A) (a : A) (k : A -> M B)
    (w : World) :
  r = Ok a -> bind (lift r) k w = k a w.
Proof. now intros ->. Qed.

(** A packet on a connected client: the request, then the write, whose
    result is the transport's; the instance is not touched. *)
Lemma send_packet_connected (env : Transport) (message : list Z) (w : World) :
  client_connected (self w) = true ->
  Forall is_byte message -> len message <= 248 ->
  _send_packet env message w
  = (Ok (write_gatt_char env (clock w)),
     mkWorld (self w) (S (clock w))
       (trace w ++ [EvSend message;
                    EvWrite (_write_uuid (self w)) (frame message)
                      (write_gatt_char env (clock w))])).
Proof.
  intros Hc Hb Hl. unfold _send_packet.
  unfold bind at 1, emit at 1.
  rewrite (bind_lift_ok _ _ (build_packet_frame_of Hb Hl)).
  unfold _write. unfold bind at 1.
  rewrite ensure_connected_fast by exact Hc.
  cbn [negb]. unfold bind, get, ask, emit, ret. cbn [self clock trace].
  now rewrite <- app_assoc.
Qed.

(** A packet while the device cannot be found: the request, one lookup, and
    nothing on the link. *)
Lemma send_packet_unreachable (env : Transport) (message : list Z) (w : World) :
  client_connected (self w) = false ->
  ble_device_from_address env (clock w) = false ->
  Forall is_byte message -> len message <= 248 ->
  _send_packet env message w
  = (Ok false,
     mkWorld (set_device None (self w)) (S (clock w))
       (trace w ++ [EvSend message])).
Proof.
  intros Hc Hd Hb Hl. unfold _send_packet.
  unfold bind at 1, emit at 1.
  rewrite (bind_lift_ok _ _ (build_packet_frame_of Hb Hl)).
  unfold _write. unfold bind at 1.
  unfold _ensure_connected.
  unfold bind at 1, get at 1. cbn [self]. rewrite Hc.
  unfold bind at 1, get at 1. cbn [self]. rewrite Hc.
  unfold bind at 1, ask at 1. cbn [self clock trace]. rewrite Hd.
  reflexivity.
Qed.

Lemma bind_send_connected {B : Type} (env : Transport) (message : list Z)
    (k : bool -> M B) (w : World) :
  client_connected (self w) = true ->
  Forall is_byte message -> len message <= 248 ->
  bind (_send_packet env message) k w
  = k (write_gatt_char env (clock w))
      (mkWorld (self w) (S (clock w))
         (trace w ++ [EvSend message;
                      EvWrite (_write_uuid (self w)) (frame message)
                        (write_gatt_char env (clock w))])).
Proof.
  intros Hc Hb Hl. unfold bind. now rewrite send_packet_connected.
Qed.

Lemma bind_send_unreachable {B : Type} (env : Transport) (message : list Z)
    (k : bool -> M B) (w : World) :
  client_connected (self w) = false ->
  ble_device_from_address env (clock w) = false ->
  Forall is_byte message -> len message <= 248 ->
  bind (_send_packet env message) k w
  = k false (mkWorld (set_device None (self w)) (S (clock w))
               (trace w ++ [EvSend message])).
Proof.
  intros Hc Hd Hb Hl. unfold bind. now rewrite send_packet_unreachable.
Qed.

Ltac bytes_ok :=
  repeat (apply Forall_cons; [unfold is_byte in *; lia|]); apply Forall_nil.

Ltac exec_connected :=
  repeat first
    [ rewrite bind_assoc
    | rewrite bind_get
    | rewrite bind_modify
    | rewrite bind_sleep
    | rewrite bind_ret
    | rewrite bind_send_connected
        by first [ cbn [self]; assumption | bytes_ok | cbn; lia ]
    | progress cbn [self clock trace when negb] ].

Lemma trigger_status_connected (env : Transport) (w : World) :
  client_connected (self w) = true ->
  _trigger_status env w
  = (Ok tt,
     mkWorld (self w) (S (S (clock w)))
       (trace w
        ++ [EvSend [0x30; 0x01];
            EvWrite (_write_uuid (self w)) (frame [0x30; 0x01])
              (write_gatt_char env (clock w));
            EvSleep 200;
            EvSend [0x30; 0x02];
            EvWrite (_write_uuid (self w)) (frame [0x30; 0x02])
              (write_gatt_char env (S (clock w)))])).
Proof.
  intros Hc. unfold _trigger_status. exec_connected.
  unfold ret. now rewrite <- !app_assoc.
Qed.

Lemma bind_status_connected {B : Type} (env : Transport) (k : unit -> M B)
    (w : World) :
  client_connected (self w) = true ->
  bind (_trigger_status env) k w
  = k tt (mkWorld (self w) (S (S (clock w)))
            (trace w
             ++ [EvSend [0x30; 0x01];
                 EvWrite (_write_uuid (self w)) (frame [0x30; 0x01])
                   (write_gatt_char env (clock w));
                 EvSleep 200;
                 EvSend [0x30; 0x02];
                 EvWrite (_write_uuid (self w)) (frame [0x30; 0x02])
                   (write_gatt_char env (S (clock w)))])).
Proof. intros Hc. unfold bind. now rewrite trigger_status_connected. Qed.

(** X15.  On a connected client [turn_off()] issues the white-off command,
    the colour-off command and, after 100 ms, the two status requests 200 ms
    apart, each one whatever became of the writes before it; nothing else
    happens and the instance is left as it was. *)
Theorem turn_off_sequence (env : Transport) (s : BeurerInstance)
    (Hc : client_connected s = true) :
  let r := run (turn_off env) s in
  let ok := write_gatt_char env in
  let channel := _write_uuid s in
  outcome r = Ok tt
  /\ final r = s
  /\ events r
     = [ EvSend [0x35; 0x01]; EvWrite channel (frame [0x35; 0x01]) (ok 0%nat);
         EvSend [0x35; 0x02]; EvWrite channel (frame [0x35; 0x02]) (ok 1%nat);
         EvSleep 100;
         EvSend [0x30; 0x01]; EvWrite channel (frame [0x30; 0x01]) (ok 2%nat);
         EvSleep 200;
         EvSend [0x30; 0x02]; EvWrite channel (frame [0x30; 0x02]) (ok 3%nat) ].
Proof.
  cbv zeta. unfold run, turn_off, start. exec_connected.
  rewrite trigger_status_connected by (cbn [self]; assumption).
  unfold outcome, final, events. cbn [fst snd self clock trace List.app].
  repeat split.
Qed.

Lemma effect_position_byte (name : option string) :
  0 <= _find_effect_position name <= 10.
Proof.
  pose proof (find_effect_position_range name) as H.
  change (len supported_effects) with 11 in H. lia.
Qed.

Lemma cached_percent_byte (level : Z) :
  0 <= level <= 650 -> 0 <= level * 100 / 255 <= 255.
Proof.
  intros H. split.
  - apply Z.div_pos; lia.
  - apply Z.lt_succ_r. apply Z.div_lt_upper_bound; lia.
Qed.

Ltac step_py Hc :=
  first
    [ rewrite bind_assoc
    | rewrite bind_get
    | rewrite bind_modify
    | rewrite bind_sleep
    | rewrite bind_ret
    | rewrite bind_send_connected by first [ exact Hc | bytes_ok | cbn; lia ]
    | rewrite bind_status_connected by exact Hc
    | rewrite trigger_status_connected by exact Hc
    | rewrite send_packet_connected by first [ exact Hc | bytes_ok | cbn; lia ]
    | progress cbn [self clock trace when negb] ].

(** The requests of the restore path of [turn_on()] (lines 346-356), read
    off the cache. *)
Lemma turn_on_restore_world (env : Transport) (w : World) :
  client_connected (self w) = true -> state_ok (self w) ->
  _mode (self w) = RGB -> _color_on (self w) = false ->
  exists n t,
    turn_on env w
    = (Ok tt, mkWorld (set_color_on true (self w)) n (trace w ++ t))
    /\ sends t
       = [[0x37; 0x02]]
         ++ (if str_truthy (_effect (self w))
             then [[0x34; _find_effect_position (_effect (self w))]] else [])
         ++ [[0x32; fst (fst (_rgb_color (self w)));
              snd (fst (_rgb_color (self w))); snd (_rgb_color (self w))]]
         ++ (if truthy (_color_brightness (self w))
             then [[0x31; 0x02; _color_brightness (self w) * 100 / 255]]
             else [])
         ++ [[0x30; 0x01]; [0x30; 0x02]]
    /\ pauses t = [200; 200; 200; 200]
    /\ frames_written t = map frame (sends t).
Proof.
  destruct w as [s c t0]. cbn [self clock trace].
  intros Hc Hok Hm Hoff. unfold state_ok in Hok.
  destruct (_rgb_color s) as [[red green] blue] eqn:Ergb.
  destruct Hok as (Hr & Hg & Hb & Hcb).
  pose proof (effect_position_byte (_effect s)) as Hpos.
  pose proof (cached_percent_byte Hcb) as Hpc.
  unfold turn_on.
  rewrite bind_get. cbn [self]. rewrite Hm. cbn [ColorMode_eqb].
  assert (Hc' : client_connected (set_color_on true s) = true) by exact Hc.
  pose proof (level_to_percent_small (level := _color_brightness s)
                ltac:(lia)) as Hpct.
  destruct (str_truthy (_effect s)) eqn:Ee;
    destruct (truthy (_color_brightness s)) eqn:Et;
    repeat first
      [ step_py Hc
      | step_py Hc'
      | rewrite Hoff
      | progress change (_effect (set_color_on true s)) with (_effect s)
      | progress change (_rgb_color (set_color_on true s)) with (_rgb_color s)
      | progress change (_color_brightness (set_color_on true s))
          with (_color_brightness s)
      | rewrite Ee
      | rewrite Et
      | rewrite Ergb
      | rewrite (bind_lift_ok _ _ Hpct) ].
  all: rewrite <- !app_assoc; cbn [List.app].
  all: do 2 eexists; split; [reflexivity|].
  all: cbn [List.app sends pauses frames_written map fst snd].
  all: split; [reflexivity | split; reflexivity].
Qed.

(** [turn_on()] outside the restore path: one command and the two status
    requests. *)
Lemma turn_on_plain_world (env : Transport) (w : World) :
  client_connected (self w) = true ->
  _mode (self w) = WHITE \/ _color_on (self w) = true ->
  exists n t,
    turn_on env w = (Ok tt, mkWorld (self w) n (trace w ++ t))
    /\ sends t
       = [[0x37; match _mode (self w) with WHITE => 0x01 | _ => 0x02 end];
          [0x30; 0x01]; [0x30; 0x02]]
    /\ pauses t = [200; 200]
    /\ frames_written t = map frame (sends t).
Proof.
  destruct w as [s c t0]. cbn [self clock trace].
  intros Hc Hcase. unfold turn_on.
  rewrite bind_get. cbn [self].
  destruct (_mode s) eqn:Hm; cbn [ColorMode_eqb].
  all: try (destruct Hcase as [Hcase|Hon]; [discriminate Hcase|]).
  all: repeat first [ step_py Hc | rewrite Hon ].
  all: rewrite <- !app_assoc; cbn [List.app].
  all: do 2 eexists; split; [reflexivity|].
  all: cbn [List.app sends pauses frames_written map].
  all: split; [reflexivity | split; reflexivity].
Qed.

(** X16.  [turn_on()] in colour mode while the colour channel reads off, on
    a connected client: the colour-on command, then the cached effect (its
    position, unless the name is empty), the cached colour and the cached
    brightness (as a percent, unless it is 0), then the two status requests;
    four pauses of 200 ms; every request is written as its frame; the only
    change to the instance is that the colour channel now reads on. *)
Theorem turn_on_restores_colour (env : Transport) (s : BeurerInstance)
    (Hc : client_connected s = true) (Hok : state_ok s)
    (Hm : _mode s = RGB) (Hoff : _color_on s = false) :
  let r := run (turn_on env) s in
  outcome r = Ok tt
  /\ final r = set_color_on true s
  /\ sends (events r)
     = [[0x37; 0x02]]
       ++ (if str_truthy (_effect s)
           then [[0x34; _find_effect_position (_effect s)]] else [])
       ++ [[0x32; fst (fst (_rgb_color s)); snd (fst (_rgb_color s));
            snd (_rgb_color s)]]
       ++ (if truthy (_color_brightness s)
           then [[0x31; 0x02; _color_brightness s * 100 / 255]] else [])
       ++ [[0x30; 0x01]; [0x30; 0x02]]
  /\ pauses (events r) = [200; 200; 200; 200]
  /\ frames_written (events r) = map frame (sends (events r)).
Proof.
  cbv zeta. unfold run.
  destruct (@turn_on_restore_world env (start s) Hc Hok Hm Hoff)
    as (n & t & E & Hs & Hp & Hf).
  rewrite E. unfold outcome, final, events, start.
  cbn [fst snd self trace List.app].
  split; [reflexivity|]. split; [reflexivity|].
  split; [exact Hs|]. split; [exact Hp | exact Hf].
Qed.

Lemma turn_on_restores_colour_witness :
  sends (events (run (turn_on always_up) dimmed_rainbow))
  = [[0x37; 0x02]; [0x34; 2]; [0x32; 255; 128; 0]; [0x31; 0x02; 49];
     [0x30; 0x01]; [0x30; 0x02]].
Proof.
  refine (proj1 (proj2 (proj2
    (@turn_on_restores_colour always_up dimmed_rainbow _ _ _ _)))).
  - reflexivity.
  - unfold state_ok, is_byte. cbn. lia.
  - reflexivity.
  - reflexivity.
Defined.

(** X17.  [turn_on()] in white mode, or in colour mode with the colour
    channel already on, on a connected client: the on command of the mode
    and, 200 ms later, the two status requests 200 ms apart, each written as
    its frame; nothing is restored and the instance is left as it was. *)
Theorem turn_on_without_restore (env : Transport) (s : BeurerInstance)
    (Hc : client_connected s = true)
    (Hcase : _mode s = WHITE \/ _color_on s = true) :
  let r := run (turn_on env) s in
  outcome r = Ok tt
  /\ final r = s
  /\ sends (events r)
     = [[0x37; match _mode s with WHITE => 0x01 | _ => 0x02 end];
        [0x30; 0x01]; [0x30; 0x02]]
  /\ pauses (events r) = [200; 200]
  /\ frames_written (events r) = map frame (sends (events r)).
Proof.
  cbv zeta. unfold run.
  destruct (@turn_on_plain_world env (start s) Hc Hcase)
    as (n & t & E & Hs & Hp & Hf).
  rewrite E. unfold outcome, final, events, start.
  cbn [fst snd self trace List.app].
  split; [reflexivity|]. split; [reflexivity|].
  split; [exact Hs|]. split; [exact Hp | exact Hf].
Qed.

Lemma turn_on_without_restore_witness :
  sends (events (run (turn_on always_up) linked))
  = [[0x37; 0x01]; [0x30; 0x01]; [0x30; 0x02]].
Proof.
  refine (proj1 (proj2 (proj2
    (@turn_on_without_restore always_up linked _ _)))).
  - reflexivity.
  - left. reflexivity.
Defined.

Lemma turn_off_sequence_witness :
  frames_written (events (run (turn_off always_up) linked))
  = [frame [0x35; 0x01]; frame [0x35; 0x02];
     frame [0x30; 0x01]; frame [0x30; 0x02]].
Proof.
  pose proof (@turn_off_sequence always_up linked eq_refl) as H.
  cbv zeta in H. destruct H as (_ & _ & H). rewrite H. reflexivity.
Defined.

(* ------------------------------------------------------------------ *)
(** * The setters on a connected client *)
(* ------------------------------------------------------------------ *)

Lemma bind_run {A B : Type} (m : M A) (k : A -> M B) (w w' : World) (a : A) :
  m w = (Ok a, w') -> bind m k w = k a w'.
Proof. intros E. unfold bind. now rewrite E. Qed.









(* ------------------------------------------------------------------ *)
(** * Commands while the device cannot be connected *)
(* ------------------------------------------------------------------ *)

Section Down.

Variable env : Transport.
Hypothesis env_down : unreachable env.

Lemma down_ret {A : Type} (a : A) : stays_down (ret a).
Proof. intros w Hw. now exists a, w. Qed.

Lemma down_bind {A B : Type} (m : M A) (k : A -> M B) :
  stays_down m -> (forall a, stays_down (k a)) -> stays_down (bind m k).
Proof. intros Hm Hk. eapply triple_bind; [exact Hm | exact Hk]. Qed.

Lemma down_get_bind {B : Type} (k : BeurerInstance -> M B) :
  (forall s, state_ok s -> stays_down (k s)) -> stays_down (bind get k).
Proof.
  intros Hk w Hw. unfold bind, get. apply (Hk (self w)); [apply Hw | exact Hw].
Qed.

Lemma down_lift_bind {A B : Type} (r : result A) (a : A) (k : A -> M B) :
  r = Ok a -> stays_down (k a) -> stays_down (bind (lift r) k).
Proof. intros -> Hk w Hw. unfold bind, lift. now apply Hk. Qed.

Lemma down_modify (f : BeurerInstance -> BeurerInstance) :
  (forall s, client_connected (f s) = client_connected s) ->
  (forall s, state_ok s -> state_ok (f s)) ->
  stays_down (modify f).
Proof.
  intros Hc Hs w (Hw1 & Hw2 & Hw3). exists tt. eexists.
  split; [reflexivity|]. repeat split; cbn [self trace].
  - now rewrite Hc.
  - now apply Hs.
  - exact Hw3.
Qed.

Lemma down_emit (e : Event) :
  frames_written [e] = [] -> stays_down (emit e).
Proof.
  intros He w (Hw1 & Hw2 & Hw3). exists tt. eexists.
  split; [reflexivity|]. repeat split; cbn [self trace]; try assumption.
  now rewrite frames_written_app, Hw3, He.
Qed.

Lemma down_sleep (ms : Z) : stays_down (sleep ms).
Proof. now apply down_emit. Qed.

Lemma down_when (c : bool) (body : M unit) :
  stays_down body -> stays_down (when c body).
Proof. intros H. destruct c; [exact H | apply down_ret]. Qed.

(** Every attempt to connect fails, and leaves no client behind. *)
Lemma down_ensure_connected :
  triple down (_ensure_connected env) (fun connected w => connected = false /\ down w).
Proof.
  intros w (Hc & Hs & Hf). unfold _ensure_connected.
  unfold bind at 1, get at 1. rewrite Hc.
  unfold bind at 1, get at 1. rewrite Hc.
  unfold bind at 1, ask at 1. cbn [self clock trace].
  destruct (ble_device_from_address env (clock w)) eqn:Efound.
  - destruct (env_down (clock w)) as [E|E]; [congruence|].
    unfold bind at 1, get at 1. cbn [self].
    unfold bind at 1, modify at 1. cbn [self clock trace negb].
    unfold bind at 1, ask at 1. cbn [self clock trace]. rewrite E.
    unfold bind, emit, modify, ret. cbn [self clock trace is_some].
    eexists. eexists. split; [reflexivity|]. split; [reflexivity|].
    split; [|split]; cbn [self trace].
    + now destruct (self w).
    + repeat (apply state_ok_link_update). exact Hs.
    + now rewrite frames_written_app, Hf.
  - unfold bind, get, modify, ret. cbn [self clock trace negb].
    eexists. eexists. split; [reflexivity|]. split; [reflexivity|].
    split; [|split]; cbn [self trace].
    + unfold client_connected in *. now destruct (self w).
    + repeat (apply state_ok_link_update). exact Hs.
    + exact Hf.
Qed.

Lemma down_write (data : list byte) : stays_down (_write env data).
Proof.
  unfold _write.
  eapply triple_bind; [apply down_ensure_connected|].
  intros connected w [-> Hw]. cbn [negb]. now exists false, w.
Qed.

Lemma down_send_packet (message : list Z) :
  Forall is_byte message -> len message <= 248 ->
  stays_down (_send_packet env message).
Proof.
  intros Hb Hl. unfold _send_packet.
  apply down_bind; [now apply down_emit | intros _].
  eapply down_lift_bind; [exact (build_packet_frame_of Hb Hl)|].
  apply down_write.
Qed.

Ltac down_send :=
  apply down_send_packet;
  [ repeat (apply Forall_cons; [unfold is_byte in *; lia|]); apply Forall_nil
  | cbn; lia ].

Ltac down_step :=
  lazymatch goal with
  | |- stays_down (bind get _) => apply down_get_bind; intros ?s ?Hs
  | |- stays_down (bind _ _) => apply down_bind; [|intro]
  | |- stays_down (when _ _) => apply down_when
  | |- stays_down (modify _) =>
      apply down_modify;
      [ intros ?s; reflexivity
      | intros ?s ?Hs; apply state_ok_link_update; assumption ]
  | |- stays_down (sleep _) => apply down_sleep
  | |- stays_down (ret _) => apply down_ret
  | |- stays_down (_send_packet _ _) => down_send
  | |- stays_down _ => solve [auto]
  end.

Lemma down_trigger_status : stays_down (_trigger_status env).
Proof. unfold _trigger_status. repeat down_step. Qed.

Lemma down_turn_off : stays_down (turn_off env).
Proof.
  pose proof down_trigger_status. unfold turn_off. repeat down_step.
Qed.

Lemma down_turn_on : stays_down (turn_on env).
Proof.
  pose proof down_trigger_status.
  unfold turn_on.
  apply down_get_bind; intros s0 _.
  apply down_bind; [|intros _; repeat down_step].
  destruct (ColorMode_eqb (_mode s0) WHITE); [repeat down_step|].
  apply down_bind; [down_send | intros _].
  apply down_get_bind; intros s1 _.
  apply down_when.
  do 2 (apply down_bind; [repeat down_step | intros _]).
  apply down_get_bind; intros s2 _.
  apply down_bind.
  { apply down_when. pose proof (effect_position_byte (_effect s2)).
    repeat down_step. }
  intros _.
  apply down_bind; [repeat down_step | intros _].
  apply down_get_bind; intros s3 Hs3.
  pose proof Hs3 as Hrgb. unfold state_ok in Hrgb.
  destruct (_rgb_color s3) as [[r g] b]. destruct Hrgb as (Hr & Hg & Hb & _).
  apply down_bind; [down_send | intros _].
  apply down_get_bind; intros s4 Hs4.
  apply down_when.
  destruct (@level_to_percent_cached s4 Hs4) as (percent & E & Hp).
  eapply down_lift_bind; [exact E|].
  repeat down_step.
Qed.

Lemma down_update : stays_down (update env).
Proof.
  unfold update.
  eapply triple_bind; [apply down_ensure_connected|].
  intros connected w [-> Hw]. cbn [negb]. now exists tt, w.
Qed.

Lemma percent_byte (level : Z) :
  0 <= level <= 255 ->
  level_to_percent level = Ok (level * 100 / 255)
  /\ is_byte (level * 100 / 255).
Proof.
  intros H. split; [apply level_to_percent_small; lia|].
  unfold is_byte. split; [apply Z.div_pos; lia|].
  apply Z.div_le_upper_bound; lia.
Qed.

Lemma down_set_white (intensity : Z) :
  0 <= intensity <= 255 -> stays_down (set_white env intensity).
Proof.
  intros Hi. destruct (percent_byte Hi) as [E Hp].
  pose proof down_trigger_status. pose proof down_turn_on.
  unfold set_white.
  apply down_bind; [down_step | intros _].
  apply down_get_bind; intros s Hs.
  apply down_bind; [repeat down_step | intros _].
  eapply down_lift_bind; [exact E|]. repeat down_step.
Qed.

Lemma down_set_color_brightness (brightness : Z) :
  0 <= brightness <= 255 -> stays_down (set_color_brightness env brightness).
Proof.
  intros Hi. destruct (percent_byte Hi) as [E Hp].
  pose proof down_trigger_status. pose proof down_turn_on.
  unfold set_color_brightness.
  apply down_bind; [down_step | intros _].
  apply down_get_bind; intros s Hs.
  apply down_bind; [repeat down_step | intros _].
  eapply down_lift_bind; [exact E|]. repeat down_step.
Qed.

Lemma down_set_color (red green blue : Z) :
  is_byte red -> is_byte green -> is_byte blue ->
  stays_down (set_color env (red, green, blue)).
Proof.
  intros Hr Hg Hb.
  pose proof down_trigger_status. pose proof down_turn_on.
  unfold set_color.
  apply down_bind; [down_step | intros _].
  apply down_bind.
  { apply down_modify; [intros s; reflexivity|].
    intros s Hs. now apply state_ok_set_rgb_color. }
  intros _. repeat down_step.
Qed.

Lemma down_set_effect (name : option string) :
  stays_down (set_effect env name).
Proof.
  pose proof down_trigger_status. pose proof down_turn_on.
  pose proof (effect_position_byte name).
  unfold set_effect. repeat down_step.
Qed.

End Down.

Lemma stays_down_run (m : M unit) (s : BeurerInstance) :
  stays_down m -> client_connected s = false -> state_ok s ->
  let r := run m s in
  outcome r = Ok tt
  /\ frames_written (events r) = []
  /\ client_connected (final r) = false
  /\ state_ok (final r).
Proof.
  intros Hm Hc Hok. cbv zeta. unfold run, outcome, final, events.
  destruct (Hm (start s)) as ([] & w' & E & Hc' & Hok' & Hf').
  { split; [exact Hc | split; [exact Hok | reflexivity]]. }
  rewrite E. cbn [fst snd]. tauto.
Qed.

(** X22.  While the device cannot be connected (it is not found, or
    connecting fails, at every attempt), every command of the driver called
    on a well-formed instance without a connected client returns normally:
    the failure is logged, never raised.  Nothing is written, no client is
    kept, and the cache stays well formed. *)
Theorem commands_when_unreachable (env : Transport) (s : BeurerInstance)
    (intensity brightness red green blue : Z) (name : option string)
    (Henv : unreachable env)
    (Hc : client_connected s = false) (Hok : state_ok s)
    (Hi : 0 <= intensity <= 255) (Hb : 0 <= brightness <= 255)
    (Hcolor : is_byte red /\ is_byte green /\ is_byte blue) :
  Forall (fun command : M unit =>
            let r := run command s in
            outcome r = Ok tt
            /\ frames_written (events r) = []
            /\ client_connected (final r) = false
            /\ state_ok (final r))
    [ turn_on env; turn_off env; update env;
      set_white env intensity; set_color_brightness env brightness;
      set_color env (red, green, blue); set_effect env name ].
Proof.
  destruct Hcolor as (Hr & Hg & Hbl).
  repeat (apply Forall_cons; [apply stays_down_run; [|exact Hc | exact Hok]|]).
  - now apply down_turn_on.
  - now apply down_turn_off.
  - now apply down_update.
  - now apply down_set_white.
  - now apply down_set_color_brightness.
  - now apply down_set_color.
  - now apply down_set_effect.
  - apply Forall_nil.
Qed.

Lemma commands_when_unreachable_witness :
  Forall (fun command : M unit =>
            let r := run command observed in
            outcome r = Ok tt
            /\ frames_written (events r) = []
            /\ client_connected (final r) = false
            /\ state_ok (final r))
    [ turn_on never_found; turn_off never_found; update never_found;
      set_white never_found 128; set_color_brightness never_found 128;
      set_color never_found (255, 128, 0);
      set_effect never_found (Some "Rainbow"%string) ].
Proof.
  apply (@commands_when_unreachable never_found observed 128 128 255 128 0
           (Some "Rainbow"%string)).
  - intros n. left. reflexivity.
  - reflexivity.
  - unfold state_ok, is_byte. cbn. lia.
  - lia.
  - lia.
  - unfold is_byte. lia.
Defined.

(* ------------------------------------------------------------------ *)
(** * Payloads that cannot be framed *)
(* ------------------------------------------------------------------ *)

Lemma is_byte_dec (z : Z) : {is_byte z} + {~ is_byte z}.
Proof.
  unfold is_byte. destruct (Z_le_dec 0 z); destruct (Z_le_dec z 255);
    [left; lia | right; lia | right; lia | right; lia].
Qed.

Lemma build_packet_raises (message : list Z) :
  ~ (Forall is_byte message /\ len message <= 248) ->
  _build_packet message = Raise ValueError.
Proof.
  intros H. unfold _build_packet. apply bytes_out. unfold packet_ints.
  cbv zeta.
  destruct (Forall_Exists_dec is_byte is_byte_dec message) as [Hall|Hex].
  - assert (Hlen : ~ len message <= 248) by tauto.
    do 3 apply Exists_cons_tl. apply Exists_cons_hd. unfold is_byte. lia.
  - do 7 apply Exists_cons_tl. apply Exists_app. now left.
Qed.

(** X23.  [_build_packet] either returns the frame or raises [ValueError],
    and it raises exactly when the payload holds an int outside 0..255 or is
    longer than 248 bytes. *)
Theorem build_packet_value_error (message : list Z) :
  (Forall is_byte message /\ len message <= 248 ->
   _build_packet message = Ok (frame message))
  /\ (~ (Forall is_byte message /\ len message <= 248) ->
      _build_packet message = Raise ValueError)
  /\ (_build_packet message = Ok (frame message)
      \/ _build_packet message = Raise ValueError).
Proof.
  split; [|split].
  - intros [Hb Hl]. now apply build_packet_frame_of.
  - apply build_packet_raises.
  - destruct (Forall_Exists_dec is_byte is_byte_dec message) as [Hall|Hex].
    + destruct (Z_le_dec (len message) 248) as [Hl|Hl].
      * left. now apply build_packet_frame_of.
      * right. apply build_packet_raises. tauto.
    + right. apply build_packet_raises. intros [Hall _].
      apply Exists_exists in Hex. destruct Hex as (z & Hin & Hz).
      apply Hz. rewrite Forall_forall in Hall. now apply Hall.
Qed.

(** X24.  [set_color(rgb)] with a component outside 0..255, on an instance
    whose colour channel reads on: the call raises [ValueError] from
    [_build_packet], on any transport and before the transport is touched;
    by then the mode and the colour are cached, so the instance keeps a
    colour that was never sent. *)
Theorem set_color_rejects_non_byte (env : Transport) (s : BeurerInstance)
    (red green blue : Z)
    (Hon : _color_on s = true)
    (Hbad : ~ (is_byte red /\ is_byte green /\ is_byte blue)) :
  let r := run (set_color env (red, green, blue)) s in
  outcome r = Raise ValueError
  /\ final r = set_rgb_color (red, green, blue) (set_mode RGB s)
  /\ events r = [EvSend [0x32; red; green; blue]].
Proof.
  cbv zeta.
  assert (E : _build_packet [0x32; red; green; blue] = Raise ValueError).
  { apply build_packet_raises. intros [Hall _]. apply Hbad.
    inversion Hall as [|? ? _ H1]; subst.
    inversion H1 as [|? ? Hr H2]; subst.
    inversion H2 as [|? ? Hg H3]; subst.
    inversion H3 as [|? ? Hb _]; subst. tauto. }
  unfold run, set_color, start.
  rewrite !bind_modify, bind_get. cbn [self clock trace].
  change (_color_on (set_rgb_color (red, green, blue) (set_mode RGB s)))
    with (_color_on s).
  rewrite Hon. cbn [negb when]. rewrite bind_ret.
  unfold _send_packet. rewrite !bind_assoc.
  unfold bind at 1, emit at 1. cbn [self clock trace].
  unfold bind at 1, lift at 1. rewrite E.
  unfold outcome, final, events. cbn [fst snd self trace List.app].
  split; [reflexivity|]. split; reflexivity.
Qed.

Lemma set_color_rejects_non_byte_witness :
  outcome (run (set_color always_up (256, 0, 0)) (set_color_on true linked))
  = Raise ValueError
  /\ rgb_color
       (final (run (set_color always_up (256, 0, 0)) (set_color_on true linked)))
     = (256, 0, 0).
Proof.
  pose proof (@set_color_rejects_non_byte always_up (set_color_on true linked)
                256 0 0 eq_refl ltac:(unfold is_byte; lia)) as H.
  cbv zeta in H. destruct H as (Hout & Hfin & _).
  rewrite Hout, Hfin. split; reflexivity.
Defined.

(* ------------------------------------------------------------------ *)
(** * Connecting on demand *)
(* ------------------------------------------------------------------ *)

Lemma resolve_client (chars : list string) (s : BeurerInstance) :
  _client (fold_left resolve chars s) = _client s.
Proof.
  revert s. induction chars as [|uuid rest IH]; intros s; cbn [fold_left].
  - reflexivity.
  - rewrite IH. unfold resolve.
    destruct (existsb _ WRITE_CHARACTERISTIC_UUIDS);
      destruct (existsb _ READ_CHARACTERISTIC_UUIDS); now destruct s.
Qed.

Lemma resolve_device_state (chars : list string) (s : BeurerInstance) :
  device_state (fold_left resolve chars s) = device_state s.
Proof.
  revert s. induction chars as [|uuid rest IH]; intros s; cbn [fold_left].
  - reflexivity.
  - rewrite IH. unfold resolve.
    destruct (existsb _ WRITE_CHARACTERISTIC_UUIDS);
      destruct (existsb _ READ_CHARACTERISTIC_UUIDS); now destruct s.
Qed.

(** On a healthy link a disconnected instance connects: one lookup, one
    connection, one subscription. *)
Lemma ensure_connected_connects (env : Transport) (w : World) :
  healthy env -> client_connected (self w) = false ->
  exists s',
    _ensure_connected env w
    = (Ok true,
       mkWorld s' (S (S (S (clock w))))
         (trace w
          ++ [EvEstablish true;
              EvStartNotify (Some "0734594a-a8e7-4b1a-a6b1-cd5243059a57"%string)
                true]))
    /\ client_connected s' = true
    /\ _write_uuid s' = Some "8b00ace7-eb0b-49b0-bbe9-9aee0a26e1a3"%string
    /\ device_state s' = device_state (self w).
Proof.
  intros (Hdev & Hconn & Hnotify & _) Ec. unfold _ensure_connected.
  unfold bind at 1, get at 1. rewrite Ec.
  unfold bind at 1, get at 1. rewrite Ec.
  unfold bind at 1, ask at 1. rewrite Hdev.
  unfold bind at 1, get at 1. cbn [self].
  unfold bind at 1, modify at 1. cbn [self clock trace negb].
  unfold bind at 1, ask at 1. cbn [self clock trace].
  destruct (Hconn (S (clock w))) as (chars & -> & HW & HR).
  unfold bind at 1, emit at 1. cbn [self clock trace is_some].
  unfold bind at 1, modify at 1. cbn [self clock trace].
  unfold bind at 1. rewrite find_characteristics_run. cbn [self clock trace].
  unfold bind at 1, get at 1. cbn [self].
  rewrite resolve_read_uuid by (now left).
  rewrite resolve_write_uuid by (now left).
  cbn [str_truthy String.eqb Ascii.eqb Bool.eqb negb orb].
  unfold bind at 1, ask at 1. cbn [self clock trace]. rewrite Hnotify.
  unfold bind at 1, emit at 1. cbn [self clock trace].
  rewrite <- app_assoc. cbn [List.app].
  eexists. split; [reflexivity|]. split; [|split].
  - unfold client_connected. now rewrite resolve_client.
  - apply resolve_write_uuid. now left.
  - rewrite resolve_device_state. now destruct (self w).
Qed.

(** X25.  [update()] from an instance without a connected client, on a
    healthy link: the connection is made once, notifications are subscribed
    on the read channel, and only then the two status requests are written,
    200 ms apart, on the write channel, the second on the connection the
    first one opened; the cached device state is as before. *)
Theorem update_connects_once (env : Transport) (s : BeurerInstance)
    (Henv : healthy env) (Hc : client_connected s = false) :
  let r := run (update env) s in
  let read := Some "0734594a-a8e7-4b1a-a6b1-cd5243059a57"%string in
  let write := Some "8b00ace7-eb0b-49b0-bbe9-9aee0a26e1a3"%string in
  outcome r = Ok tt
  /\ client_connected (final r) = true
  /\ device_state (final r) = device_state s
  /\ events r
     = [ EvEstablish true; EvStartNotify read true;
         EvSend [0x30; 0x01]; EvWrite write (frame [0x30; 0x01]) true;
         EvSleep 200;
         EvSend [0x30; 0x02]; EvWrite write (frame [0x30; 0x02]) true ].
Proof.
  cbv zeta.
  destruct (@ensure_connected_connects env (start s) Henv Hc)
    as (s' & E & Hc' & Hw & Hd).
  destruct Henv as (_ & _ & _ & Hwrite).
  unfold run, update. rewrite (@bind_run _ _ _ _ _ _ _ E). cbn [negb].
  rewrite trigger_status_connected by exact Hc'.
  unfold outcome, final, events. cbn [fst snd self clock trace start].
  rewrite Hw, !Hwrite. cbn [List.app].
  split; [reflexivity|]. split; [exact Hc'|]. split; [exact Hd | reflexivity].
Qed.

Lemma update_connects_once_witness :
  outcome (run (update always_up) observed) = Ok tt
  /\ frames_written (events (run (update always_up) observed))
     = [frame [0x30; 0x01]; frame [0x30; 0x02]].
Proof.
  pose proof (@update_connects_once always_up observed always_up_healthy
                eq_refl) as H.
  cbv zeta in H. destruct H as (Hout & _ & _ & Hev).
  rewrite Hout, Hev. split; reflexivity.
Defined.

(* ------------------------------------------------------------------ *)
(** * Off, then on *)
(* ------------------------------------------------------------------ *)






Lemma brightness_round_trip_range_witness :
  exists back,
    brightness_round_trip 200 = Ok back
    /\ (200 <= 2 -> back = 255)
    /\ (3 <= 200 -> back <= 200 <= back + 3).
Proof. apply (@brightness_round_trip_range 200). lia. Defined.

(* ------------------------------------------------------------------ *)
(** * What the setters and the entity leave in the cache *)
(* ------------------------------------------------------------------ *)

Lemma quiet_steady (s s' : BeurerInstance) : quiet s s' -> steady s s'.
Proof. unfold quiet, steady. tauto. Qed.

Lemma steady_refl (s : BeurerInstance) : steady s s.
Proof. unfold steady. tauto. Qed.

Lemma steady_trans (s1 s2 s3 : BeurerInstance) :
  steady s1 s2 -> steady s2 s3 -> steady s1 s3.
Proof.
  unfold steady.
  intros (A1 & A2 & A3 & A4 & A5) (B1 & B2 & B3 & B4 & B5).
  repeat split; try congruence; auto.
Qed.

Lemma levels_kept_ret {A : Type} (a : A) : levels_kept (ret a).
Proof. intros w. apply steady_refl. Qed.

Lemma levels_kept_bind {A B : Type} (m : M A) (k : A -> M B) :
  levels_kept m -> (forall a, levels_kept (k a)) -> levels_kept (bind m k).
Proof.
  intros Hm Hk w. unfold bind. specialize (Hm w).
  destruct (m w) as [[a|e] w1]; cbn [snd] in *.
  - eapply steady_trans; [exact Hm | apply Hk].
  - exact Hm.
Qed.

Lemma keeps_levels_kept {A : Type} (m : M A) : keeps m -> levels_kept m.
Proof. intros H w. apply quiet_steady. apply H. Qed.

Section Setters.

Variable env : Transport.

(** What follows the cache updates in each setter is [quiet]. *)
Lemma keeps_after_white (intensity : Z) :
  keeps (s <- get ;;
         when (negb (_light_on s)) (turn_on env) ;;
         percent <- lift (level_to_percent intensity) ;;
         _send_packet env [0x31; 0x01; percent] ;;
         sleep 200 ;;
         _trigger_status env).
Proof.
  pose proof (keeps_send_packet env). pose proof (keeps_trigger_status env).
  pose proof (keeps_turn_on env). repeat keeps_step.
Qed.

Lemma keeps_after_color (red green blue : Z) :
  keeps (s <- get ;;
         when (negb (_color_on s)) (turn_on env) ;;
         _send_packet env [0x32; red; green; blue] ;;
         sleep 100 ;;
         _trigger_status env).
Proof.
  pose proof (keeps_send_packet env). pose proof (keeps_trigger_status env).
  pose proof (keeps_turn_on env). repeat keeps_step.
Qed.

Lemma keeps_after_effect (name : option string) :
  keeps (s <- get ;;
         when (negb (_color_on s)) (turn_on env) ;;
         _send_packet env [0x34; _find_effect_position name] ;;
         _trigger_status env).
Proof.
  pose proof (keeps_send_packet env). pose proof (keeps_trigger_status env).
  pose proof (keeps_turn_on env). repeat keeps_step.
Qed.

Lemma set_white_cache (intensity : Z) (w : World) :
  quiet (set_mode WHITE (self w)) (self (snd (set_white env intensity w))).
Proof.
  unfold set_white. rewrite bind_modify.
  apply (keeps_after_white intensity
           (mkWorld (set_mode WHITE (self w)) (clock w) (trace w))).
Qed.

Lemma set_color_cache (rgb : Z * Z * Z) (w : World) :
  quiet (set_rgb_color rgb (set_mode RGB (self w)))
        (self (snd (set_color env rgb w))).
Proof.
  destruct rgb as [[red green] blue].
  unfold set_color. rewrite !bind_modify.
  apply (keeps_after_color red green blue
           (mkWorld (set_rgb_color (red, green, blue) (set_mode RGB (self w)))
              (clock w) (trace w))).
Qed.

Lemma set_effect_cache (name : option string) (w : World) :
  quiet (set_effect_field name (set_mode RGB (self w)))
        (self (snd (set_effect env name w))).
Proof.
  unfold set_effect. rewrite !bind_modify.
  apply (keeps_after_effect name
           (mkWorld (set_effect_field name (set_mode RGB (self w)))
              (clock w) (trace w))).
Qed.

Lemma steady_cache_update (s : BeurerInstance) :
  (forall v, steady s (set_mode v s))
  /\ (forall v, steady s (set_rgb_color v s))
  /\ (forall v, steady s (set_effect_field v s)).
Proof. unfold steady. destruct s. cbn. tauto. Qed.

Lemma levels_kept_set_white (intensity : Z) :
  levels_kept (set_white env intensity).
Proof.
  intros w. eapply steady_trans; [|apply quiet_steady, set_white_cache].
  apply (proj1 (steady_cache_update (self w))).
Qed.

Lemma levels_kept_set_color (rgb : Z * Z * Z) : levels_kept (set_color env rgb).
Proof.
  intros w. eapply steady_trans; [|apply quiet_steady, set_color_cache].
  apply steady_trans with (set_mode RGB (self w)).
  - apply (proj1 (steady_cache_update (self w))).
  - apply (proj1 (proj2 (steady_cache_update (set_mode RGB (self w))))).
Qed.

Lemma levels_kept_set_effect (name : option string) :
  levels_kept (set_effect env name).
Proof.
  intros w. eapply steady_trans; [|apply quiet_steady, set_effect_cache].
  apply steady_trans with (set_mode RGB (self w)).
  - apply (proj1 (steady_cache_update (self w))).
  - apply (proj2 (proj2 (steady_cache_update (set_mode RGB (self w))))).
Qed.

Lemma mode_after_set_white (intensity : Z) (w : World) :
  _mode (self (snd (set_white env intensity w))) = WHITE.
Proof.
  destruct (set_white_cache intensity w) as (_ & _ & H & _). now rewrite H.
Qed.

Lemma mode_after_set_color (rgb : Z * Z * Z) (w : World) :
  _mode (self (snd (set_color env rgb w))) = RGB.
Proof.
  destruct (set_color_cache rgb w) as (_ & _ & H & _). now rewrite H.
Qed.

Lemma mode_after_set_effect (name : option string) (w : World) :
  _mode (self (snd (set_effect env name w))) = RGB.
Proof.
  destruct (set_effect_cache name w) as (_ & _ & H & _). now rewrite H.
Qed.

Lemma levels_kept_async_turn_on (k : BeurerLight.kwargs) :
  levels_kept (BeurerLight.async_turn_on env k).
Proof.
  unfold BeurerLight.async_turn_on.
  destruct (BeurerLight.empty k).
  - apply keeps_levels_kept, keeps_turn_on.
  - apply levels_kept_bind; [|intros _; apply levels_kept_bind; [|intros _]].
    + destruct (BeurerLight.ATTR_BRIGHTNESS k);
        [apply levels_kept_set_white | apply levels_kept_ret].
    + destruct (BeurerLight.ATTR_RGB_COLOR k);
        [apply levels_kept_set_color | apply levels_kept_ret].
    + destruct (BeurerLight.ATTR_EFFECT k);
        [apply levels_kept_set_effect | apply levels_kept_ret].
Qed.

End Setters.

Lemma mode_seq (m1 m2 : M unit) (f1 f2 : ColorMode -> ColorMode) :
  (forall w, fst (m1 w) = Ok tt ->
             _mode (self (snd (m1 w))) = f1 (_mode (self w))) ->
  (forall w, fst (m2 w) = Ok tt ->
             _mode (self (snd (m2 w))) = f2 (_mode (self w))) ->
  forall w, fst (bind m1 (fun _ => m2) w) = Ok tt ->
            _mode (self (snd (bind m1 (fun _ => m2) w)))
            = f2 (f1 (_mode (self w))).
Proof.
  intros H1 H2 w. unfold bind. specialize (H1 w).
  destruct (m1 w) as [[[]|e] w1]; cbn [fst snd] in *.
  - intros Hret. rewrite (H2 w1 Hret). now rewrite H1.
  - discriminate.
Qed.

Lemma mode_opt_white (env : Transport) (level : option Z) (w : World) :
  _mode (self (snd (match level with
                    | Some l => set_white env l
                    | None => ret tt
                    end w)))
  = match level with Some _ => WHITE | None => _mode (self w) end.
Proof. destruct level; [apply mode_after_set_white | reflexivity]. Qed.

Lemma mode_opt_color (env : Transport) (rgb : option (Z * Z * Z)) (w : World) :
  _mode (self (snd (match rgb with
                    | Some c => set_color env c
                    | None => ret tt
                    end w)))
  = match rgb with Some _ => RGB | None => _mode (self w) end.
Proof. destruct rgb; [apply mode_after_set_color | reflexivity]. Qed.

Lemma mode_opt_effect (env : Transport) (name : option string) (w : World) :
  _mode (self (snd (match name with
                    | Some n => set_effect env (Some n)
                    | None => ret tt
                    end w)))
  = match name with Some _ => RGB | None => _mode (self w) end.
Proof. destruct name; [apply mode_after_set_effect | reflexivity]. Qed.

(** X28.  The entity's [async_turn_on] on any transport.  Whether
    it returns or raises, both cached brightness levels are as before (a
    requested brightness is sent, never cached), the light reads on only
    if it did before, and the [brightness] property therefore reports a
    level cached before the call.  When it returns, the mode is the one of
    the last attribute handled: RGB if a colour or an effect was given,
    WHITE if only a brightness was given (also from colour mode: a
    brightness always goes to the white channel), and unchanged if none of
    the three was given. *)
Theorem async_turn_on_reported_state (env : Transport) (s : BeurerInstance)
    (k : BeurerLight.kwargs) :
  let r := run (BeurerLight.async_turn_on env k) s in
  white_brightness (final r) = white_brightness s
  /\ color_brightness (final r) = color_brightness s
  /\ (is_on (final r) = true -> is_on s = true)
  /\ BeurerLight.brightness (final r)
     = (if ColorMode_eqb (color_mode (final r)) WHITE
        then white_brightness s else color_brightness s)
  /\ (outcome r = Ok tt ->
      color_mode (final r)
      = match BeurerLight.ATTR_EFFECT k, BeurerLight.ATTR_RGB_COLOR k,
              BeurerLight.ATTR_BRIGHTNESS k with
        | None, None, Some _ => WHITE
        | None, None, None => color_mode s
        | _, _, _ => RGB
        end).
Proof.
  cbv zeta.
  pose proof (levels_kept_async_turn_on env k (start s)) as Hl.
  unfold run, final, outcome.
  destruct Hl as (Hon & _ & Hb & Hcb & _). cbn [self start] in *.
  assert (Hw : white_brightness (self (snd (BeurerLight.async_turn_on env k (start s))))
               = white_brightness s).
  { unfold white_brightness. now rewrite Hb. }
  assert (Hc : color_brightness (self (snd (BeurerLight.async_turn_on env k (start s))))
               = color_brightness s).
  { unfold color_brightness. now rewrite Hcb. }
  split; [exact Hw|]. split; [exact Hc|]. split; [exact Hon|].
  split.
  { unfold BeurerLight.brightness. now rewrite Hw, Hc. }
  unfold BeurerLight.async_turn_on, color_mode.
  destruct (BeurerLight.empty k) eqn:Eempty.
  - intros _. destruct (keeps_turn_on env (start s)) as (_ & _ & Hm & _).
    cbn [self start] in Hm. rewrite Hm.
    unfold BeurerLight.empty in Eempty.
    destruct (BeurerLight.ATTR_BRIGHTNESS k); [discriminate|].
    destruct (BeurerLight.ATTR_RGB_COLOR k); [discriminate|].
    destruct (BeurerLight.ATTR_EFFECT k); [discriminate|]. reflexivity.
  - intros Hret.
    assert (H23 : forall w,
      fst (bind (match BeurerLight.ATTR_RGB_COLOR k with
                 | Some rgb => set_color env rgb
                 | None => ret tt
                 end)
             (fun _ => match BeurerLight.ATTR_EFFECT k with
                       | Some name => set_effect env (Some name)
                       | None => ret tt
                       end) w) = Ok tt ->
      _mode (self (snd (bind (match BeurerLight.ATTR_RGB_COLOR k with
                              | Some rgb => set_color env rgb
                              | None => ret tt
                              end)
                          (fun _ => match BeurerLight.ATTR_EFFECT k with
                                    | Some name => set_effect env (Some name)
                                    | None => ret tt
                                    end) w)))
      = (fun m => match BeurerLight.ATTR_EFFECT k,
                        BeurerLight.ATTR_RGB_COLOR k with
                  | None, None => m
                  | _, _ => RGB
                  end) (_mode (self w))).
    { intros w Hret'.
      rewrite (@mode_seq _ _
                 (fun m => match BeurerLight.ATTR_RGB_COLOR k with
                           | Some _ => RGB | None => m end)
                 (fun m => match BeurerLight.ATTR_EFFECT k with
                           | Some _ => RGB | None => m end)
                 (fun w _ => mode_opt_color env (BeurerLight.ATTR_RGB_COLOR k) w)
                 (fun w _ => mode_opt_effect env (BeurerLight.ATTR_EFFECT k) w)
                 w Hret').
      destruct (BeurerLight.ATTR_EFFECT k);
        destruct (BeurerLight.ATTR_RGB_COLOR k); reflexivity. }
    rewrite (@mode_seq _ _
               (fun m => match BeurerLight.ATTR_BRIGHTNESS k with
                         | Some _ => WHITE | None => m end)
               _
               (fun w _ => mode_opt_white env (BeurerLight.ATTR_BRIGHTNESS k) w)
               H23 (start s) Hret).
    cbn [self start].
    destruct (BeurerLight.ATTR_EFFECT k); destruct (BeurerLight.ATTR_RGB_COLOR k);
      destruct (BeurerLight.ATTR_BRIGHTNESS k); reflexivity.
Qed.
